(** * Identity extraction and resolution of the chat-history bot

    A shallow embedding of the parsers ([parsers/base_parser.py],
    [parsers/json_parser.py], [parsers/html_parser.py]), of the user model
    ([models/user.py]), of the aggregator and its batch
    ([processors/user_processor.py]) and of the sheets of the workbook
    ([processors/export_processor.py]), followed by the properties of the
    specification that were checked against them (C1 to C10) and by
    further properties of the code (X1 to X28).

    Conventions of the embedding.
    - A Python [str] is a [string], one [ascii] per character, so the model
      covers texts whose characters fit in eight bits.
    - A [datetime] is naive (without an offset) or aware (with one), and
      has a position on the time line.  Python orders two naive or two
      aware values with [<] and raises [TypeError] on one of each kind;
      so does [before].
    - A parsed JSON document is a [json] value; a [dict] is the list of its
      items in insertion order, and [NaN] and the infinities, which are not
      JSON, are left out of the numbers.
    - The dict [users] of a parser is a list of pairs in insertion order,
      the order of the roster; the four dicts of time stamps, identifiers
      and symbols, which are never iterated, are finite maps.
    - The objects of the program are mutated in place; each of them is held
      by one dict at a time, so a record per key stands for the object.
    - Library functions whose result the program only passes around
      ([hash], [str.lower], [str()], [sys.get_int_max_str_digits],
      [datetime.strptime], [datetime.fromtimestamp], the validation of the
      fields of the pydantic model) are the methods of the class
      [Runtime]; every theorem holds for all of them.
    - A Python exception is the outcome [Raised].
    - What the batch reads of the file system (the paths that exist, the
      files of an archive, the content of a file as a parser takes it) is
      a record [Files]; every theorem holds for all of them. *)

From stdpp Require Import gmap strings list.
From Stdlib Require Import ZArith String Ascii Permutation.

Local Open Scope Z_scope.

(* stdpp keeps [simpl] from unfolding the append of strings; it is unfolded
   here on a string that begins with a character. *)
#[local] Arguments String.append !_ _ / : simpl nomatch.

(** ** Python strings *)

Module Py.

Definition code (c : ascii) : Z := Z.of_N (N_of_ascii c).

Definition between (lo hi : Z) (c : ascii) : bool :=
  (lo <=? code c) && (code c <=? hi).

(** [str.isspace] on one character (code points below 256). *)
Definition isspace (c : ascii) : bool :=
  between 9 13 c || between 28 32 c || (code c =? 133) || (code c =? 160).

Definition isdigit (c : ascii) : bool := between 48 57 c.

Definition digit_value (c : ascii) : Z := code c - 48.

Fixpoint lstrip (s : string) : string :=
  match s with
  | EmptyString => EmptyString
  | String c s' => if isspace c then lstrip s' else s
  end.

Fixpoint rstrip (s : string) : string :=
  match s with
  | EmptyString => EmptyString
  | String c s' =>
      match rstrip s' with
      | EmptyString => if isspace c then EmptyString else String c EmptyString
      | r => String c r
      end
  end.

Definition strip (s : string) : string := rstrip (lstrip s).

(** The longest prefix without white space, and what follows it. *)
Fixpoint take_word (s : string) : string * string :=
  match s with
  | EmptyString => (EmptyString, EmptyString)
  | String c s' =>
      if isspace c then (EmptyString, s)
      else let (w, r) := take_word s' in (String c w, r)
  end.

(** [s.split(maxsplit=1)]: at most two pieces, split at the first run of
    white space; leading white space is skipped, the second piece keeps its
    trailing white space. *)
Definition split1 (s : string) : list string :=
  match lstrip s with
  | EmptyString => []
  | s1 =>
      let (w, r) := take_word s1 in
      match lstrip r with
      | EmptyString => [w]
      | r1 => [w; r1]
      end
  end.

Definition startswith (s p : string) : bool := String.prefix p s.

(** [sub in s]. *)
Fixpoint contains (sub s : string) : bool :=
  String.prefix sub s ||
  match s with
  | EmptyString => false
  | String _ s' => contains sub s'
  end.

(** [s.replace(pat, '')] for a non-empty [pat]: every occurrence, from the
    left, without overlap.  [skip] counts the characters of an occurrence
    that are still to be dropped. *)
Fixpoint remove_from (pat : string) (skip : nat) (s : string) : string :=
  match s with
  | EmptyString => EmptyString
  | String c s' =>
      match skip with
      | S k => remove_from pat k s'
      | O =>
          if String.prefix pat s
          then remove_from pat (Nat.pred (String.length pat)) s'
          else String c (remove_from pat 0 s')
      end
  end.

Definition remove (pat s : string) : string := remove_from pat 0 s.

(** The white space that [int] passes over at the two ends of a literal:
    the six characters of ASCII, and the two other white-space characters
    below 256, which [int] turns into blanks before it reads the text.
    The separators 28 to 31, which [str.strip] removes, are not among
    them. *)
Definition int_space (c : ascii) : bool :=
  between 9 13 c || (code c =? 32) || (code c =? 133) || (code c =? 160).

Fixpoint int_lstrip (s : string) : string :=
  match s with
  | EmptyString => EmptyString
  | String c s' => if int_space c then int_lstrip s' else s
  end.

Fixpoint int_rstrip (s : string) : string :=
  match s with
  | EmptyString => EmptyString
  | String c s' =>
      match int_rstrip s' with
      | EmptyString => if int_space c then EmptyString else String c EmptyString
      | r => String c r
      end
  end.

(** The digits of an integer literal: decimal digits, single underscores
    between two digits.  The result is the number and the count of its
    digits. *)
Fixpoint int_digits (acc digits : Z) (after_digit : bool) (s : string) : option (Z * Z) :=
  match s with
  | EmptyString => if after_digit then Some (acc, digits) else None
  | String c s' =>
      if isdigit c then int_digits (acc * 10 + digit_value c) (digits + 1) true s'
      else if Ascii.eqb c "_" && after_digit then int_digits acc digits false s'
      else None
  end.

(** The interpreter's limit on the digits of a literal: a literal of more
    than 640 digits is refused when the limit is set (not 0) and the
    literal has more digits than the limit. *)
Definition too_long (max_str_digits digits : Z) : bool :=
  (640 <? digits) && (0 <? max_str_digits) && (max_str_digits <? digits).

(** [int(s)]: white space around, an optional sign, the digits; [None] is
    [ValueError].  [max_str_digits] is [sys.get_int_max_str_digits()]. *)
Definition int (max_str_digits : Z) (s : string) : option Z :=
  let body r :=
    match int_digits 0 0 false r with
    | Some (n, digits) => if too_long max_str_digits digits then None else Some n
    | None => None
    end in
  match int_rstrip (int_lstrip s) with
  | String c r =>
      if Ascii.eqb c "+" then body r
      else if Ascii.eqb c "-" then Z.opp <$> body r
      else body (String c r)
  | EmptyString => None
  end.

(** [s[a:b]] with Python's treatment of negative and out-of-range bounds. *)
Definition slice (s : string) (a b : Z) : string :=
  let n := Z.of_nat (String.length s) in
  let clamp i := if i <? 0 then Z.max 0 (i + n) else Z.min i n in
  String.substring (Z.to_nat (clamp a)) (Z.to_nat (clamp b - clamp a)) s.

(** [s[1:]]. *)
Definition tail (s : string) : string :=
  match s with
  | EmptyString => EmptyString
  | String _ r => r
  end.

Definition nonempty (s : string) : bool :=
  match s with
  | EmptyString => false
  | _ => true
  end.

End Py.

(** ** JSON values *)

#[warning="-register-all"]
Inductive json : Type :=
| JNull
| JBool (b : bool)
| JInt (n : Z)
| JFloat (mantissa exponent : Z)
| JStr (s : string)
| JList (l : list json)
| JDict (items : list (string * json)).

(** Truth value of a Python object. *)
Definition truthy (j : json) : bool :=
  match j with
  | JNull => false
  | JBool b => b
  | JInt n => negb (n =? 0)
  | JFloat m _ => negb (m =? 0)
  | JStr s => Py.nonempty s
  | JList l => match l with [] => false | _ => true end
  | JDict d => match d with [] => false | _ => true end
  end.

Fixpoint items_get (d : list (string * json)) (k : string) : option json :=
  match d with
  | [] => None
  | (k', v) :: d' => if String.eqb k k' then Some v else items_get d' k
  end.

(** [d.get(k, default)] on the items of a dict. *)
Definition dict_get (d : list (string * json)) (k : string) (default : json) : json :=
  match items_get d k with
  | Some v => v
  | None => default
  end.

(** [k in d]. *)
Definition dict_has (d : list (string * json)) (k : string) : bool :=
  match items_get d k with
  | Some _ => true
  | None => false
  end.

(** [j == s] for a string literal [s]. *)
Definition is_str (j : json) (s : string) : bool :=
  match j with
  | JStr t => String.eqb t s
  | _ => false
  end.

(** ** Outcomes: a value or an exception *)

Inductive outcome (A : Type) : Type :=
| Returned (a : A)
| Raised.

Arguments Returned {A} a.
Arguments Raised {A}.

Definition obind {A B} (m : outcome A) (k : A -> outcome B) : outcome B :=
  match m with
  | Returned a => k a
  | Raised => Raised
  end.

Declare Scope outcome_scope.
Delimit Scope outcome_scope with outcome.
Notation "'do' x <- m ; k" := (obind m (fun x => k))
  (at level 10, x name, m at level 100, k at level 200) : outcome_scope.
Notation "'do' ' p <- m ; k" := (obind m (fun x => let 'p := x in k))
  (at level 10, p pattern, m at level 100, k at level 200) : outcome_scope.
Local Open Scope outcome_scope.

Definition of_option {A} (o : option A) : outcome A :=
  match o with
  | Some a => Returned a
  | None => Raised
  end.

(** [for x in l: s = body(s, x)], stopping at the first exception. *)
Fixpoint for_each {S A} (body : S -> A -> outcome S) (l : list A) (s : S) : outcome S :=
  match l with
  | [] => Returned s
  | x :: l' => do s' <- body s x; for_each body l' s'
  end.

(** [for x in j]: a list yields its elements, a dict its keys, a string its
    characters; anything else is not iterable. *)
Definition iterate (j : json) : outcome (list json) :=
  match j with
  | JList l => Returned l
  | JDict d => Returned (map (fun kv => JStr (fst kv)) d)
  | JStr s => Returned (map (fun c => JStr (String c EmptyString)) (list_ascii_of_string s))
  | _ => Raised
  end.

(** [j.get] exists on dicts only. *)
Definition as_dict (j : json) : outcome (list (string * json)) :=
  match j with
  | JDict d => Returned d
  | _ => Raised
  end.

(** ** The user model ([models/user.py]) *)

(** A [datetime]: naive (without an offset) or aware (with one), and its
    position on the time line of its kind: the wall clock for a naive
    value, the instant for an aware one. *)
Record datetime : Type := mkDate {
  aware : bool;
  instant : Z
}.

Definition naive (t : Z) : datetime := mkDate false t.

(** [d < old] on two datetimes: the order of their time line, and
    [TypeError] for a naive value against an aware one. *)
Definition before (d old : datetime) : outcome bool :=
  if Bool.eqb (aware d) (aware old) then Returned (instant d <? instant old)
  else Raised.

Record TelegramUser : Type := mkUser {
  user_id : Z;
  username : option string;
  first_name : option string;
  last_name : option string;
  phone_number : option string;
  birth_date : option Z;
  bio : option string;
  registration_date : option datetime;
  has_channel : option bool;
  is_bot : bool;
  is_deleted : bool;
  mention : option string;
  first_message_date : option datetime;
  first_message_id : option json;
  first_reaction_date : option datetime;
  first_reaction_emoji : option json;
  is_mention_only : bool
}.

(** [TelegramUser(user_id=uid)]: every other field at its default. *)
Definition new_user (uid : Z) : TelegramUser :=
  mkUser uid None None None None None None None None false false None
         None None None None false.

(** [u.field = v]: the record with one field replaced. *)
Definition set_username (v : option string) (u : TelegramUser) : TelegramUser :=
  mkUser (user_id u) v (first_name u) (last_name u) (phone_number u)
         (birth_date u) (bio u) (registration_date u) (has_channel u)
         (is_bot u) (is_deleted u) (mention u) (first_message_date u)
         (first_message_id u) (first_reaction_date u) (first_reaction_emoji u)
         (is_mention_only u).
Definition set_first_name (v : option string) (u : TelegramUser) : TelegramUser :=
  mkUser (user_id u) (username u) v (last_name u) (phone_number u)
         (birth_date u) (bio u) (registration_date u) (has_channel u)
         (is_bot u) (is_deleted u) (mention u) (first_message_date u)
         (first_message_id u) (first_reaction_date u) (first_reaction_emoji u)
         (is_mention_only u).
Definition set_last_name (v : option string) (u : TelegramUser) : TelegramUser :=
  mkUser (user_id u) (username u) (first_name u) v (phone_number u)
         (birth_date u) (bio u) (registration_date u) (has_channel u)
         (is_bot u) (is_deleted u) (mention u) (first_message_date u)
         (first_message_id u) (first_reaction_date u) (first_reaction_emoji u)
         (is_mention_only u).
Definition set_phone_number (v : option string) (u : TelegramUser) : TelegramUser :=
  mkUser (user_id u) (username u) (first_name u) (last_name u) v
         (birth_date u) (bio u) (registration_date u) (has_channel u)
         (is_bot u) (is_deleted u) (mention u) (first_message_date u)
         (first_message_id u) (first_reaction_date u) (first_reaction_emoji u)
         (is_mention_only u).
Definition set_bio (v : option string) (u : TelegramUser) : TelegramUser :=
  mkUser (user_id u) (username u) (first_name u) (last_name u)
         (phone_number u) (birth_date u) v (registration_date u)
         (has_channel u) (is_bot u) (is_deleted u) (mention u)
         (first_message_date u) (first_message_id u) (first_reaction_date u)
         (first_reaction_emoji u) (is_mention_only u).
Definition set_registration_date (v : option datetime) (u : TelegramUser) : TelegramUser :=
  mkUser (user_id u) (username u) (first_name u) (last_name u)
         (phone_number u) (birth_date u) (bio u) v (has_channel u) (is_bot u)
         (is_deleted u) (mention u) (first_message_date u)
         (first_message_id u) (first_reaction_date u) (first_reaction_emoji u)
         (is_mention_only u).
Definition set_has_channel (v : option bool) (u : TelegramUser) : TelegramUser :=
  mkUser (user_id u) (username u) (first_name u) (last_name u)
         (phone_number u) (birth_date u) (bio u) (registration_date u) v
         (is_bot u) (is_deleted u) (mention u) (first_message_date u)
         (first_message_id u) (first_reaction_date u) (first_reaction_emoji u)
         (is_mention_only u).
Definition set_is_bot (v : bool) (u : TelegramUser) : TelegramUser :=
  mkUser (user_id u) (username u) (first_name u) (last_name u)
         (phone_number u) (birth_date u) (bio u) (registration_date u)
         (has_channel u) v (is_deleted u) (mention u) (first_message_date u)
         (first_message_id u) (first_reaction_date u) (first_reaction_emoji u)
         (is_mention_only u).
Definition set_is_deleted (v : bool) (u : TelegramUser) : TelegramUser :=
  mkUser (user_id u) (username u) (first_name u) (last_name u)
         (phone_number u) (birth_date u) (bio u) (registration_date u)
         (has_channel u) (is_bot u) v (mention u) (first_message_date u)
         (first_message_id u) (first_reaction_date u) (first_reaction_emoji u)
         (is_mention_only u).
Definition set_mention (v : option string) (u : TelegramUser) : TelegramUser :=
  mkUser (user_id u) (username u) (first_name u) (last_name u)
         (phone_number u) (birth_date u) (bio u) (registration_date u)
         (has_channel u) (is_bot u) (is_deleted u) v (first_message_date u)
         (first_message_id u) (first_reaction_date u) (first_reaction_emoji u)
         (is_mention_only u).
Definition set_first_message_date (v : option datetime) (u : TelegramUser) : TelegramUser :=
  mkUser (user_id u) (username u) (first_name u) (last_name u)
         (phone_number u) (birth_date u) (bio u) (registration_date u)
         (has_channel u) (is_bot u) (is_deleted u) (mention u) v
         (first_message_id u) (first_reaction_date u) (first_reaction_emoji u)
         (is_mention_only u).
Definition set_first_message_id (v : option json) (u : TelegramUser) : TelegramUser :=
  mkUser (user_id u) (username u) (first_name u) (last_name u)
         (phone_number u) (birth_date u) (bio u) (registration_date u)
         (has_channel u) (is_bot u) (is_deleted u) (mention u)
         (first_message_date u) v (first_reaction_date u)
         (first_reaction_emoji u) (is_mention_only u).
Definition set_first_reaction_date (v : option datetime) (u : TelegramUser) : TelegramUser :=
  mkUser (user_id u) (username u) (first_name u) (last_name u)
         (phone_number u) (birth_date u) (bio u) (registration_date u)
         (has_channel u) (is_bot u) (is_deleted u) (mention u)
         (first_message_date u) (first_message_id u) v
         (first_reaction_emoji u) (is_mention_only u).
Definition set_first_reaction_emoji (v : option json) (u : TelegramUser) : TelegramUser :=
  mkUser (user_id u) (username u) (first_name u) (last_name u)
         (phone_number u) (birth_date u) (bio u) (registration_date u)
         (has_channel u) (is_bot u) (is_deleted u) (mention u)
         (first_message_date u) (first_message_id u) (first_reaction_date u) v
         (is_mention_only u).
Definition set_is_mention_only (v : bool) (u : TelegramUser) : TelegramUser :=
  mkUser (user_id u) (username u) (first_name u) (last_name u)
         (phone_number u) (birth_date u) (bio u) (registration_date u)
         (has_channel u) (is_bot u) (is_deleted u) (mention u)
         (first_message_date u) (first_message_id u) (first_reaction_date u)
         (first_reaction_emoji u) v.

(** Truth value of an optional string: [None] and [''] are false. *)
Definition filled (o : option string) : bool :=
  match o with
  | Some s => Py.nonempty s
  | None => false
  end.

(** Truth value of an optional stored object. *)
Definition filled_json (o : option json) : bool :=
  match o with
  | Some j => truthy j
  | None => false
  end.

(** ** The library functions the program relies on *)

Class Runtime : Type := {
  (** the builtin [hash] on strings *)
  hash : string -> Z;
  (** [str.lower] *)
  lower : string -> string;
  (** [str(x)] *)
  to_str : json -> string;
  (** [sys.get_int_max_str_digits()], 0 where the interpreter has no
      limit *)
  int_max_str_digits : Z;
  (** [datetime.strptime(s, fmt)]; [None] is [ValueError] *)
  strptime : string -> string -> option datetime;
  (** [datetime.fromtimestamp(x)]; [None] is any error it raises *)
  fromtimestamp : json -> option datetime;
  (** validation of a value given for a field of [TelegramUser]; [None] is
      [ValidationError] *)
  as_int : json -> option Z;
  as_opt_str : json -> option (option string);
  as_bool : json -> option bool;
  (** a value of the declared type is accepted as it is *)
  as_int_int : forall n, as_int (JInt n) = Some n;
  as_opt_str_null : as_opt_str JNull = Some None;
  as_opt_str_str : forall s, as_opt_str (JStr s) = Some (Some s);
  as_bool_bool : forall b, as_bool (JBool b) = Some b;
  (** a format without the directive [%z] gives a naive value *)
  strptime_naive : forall s fmt d,
    Py.contains "%z" fmt = false -> strptime s fmt = Some d -> aware d = false
}.

(** ** The base parser ([parsers/base_parser.py]) *)

(** The instance variables of [BaseParser].  [users] keeps the insertion
    order of the Python dict, the order of the roster. *)
Record Parser : Type := mkParser {
  users : list (Z * TelegramUser);
  user_first_message_date : gmap Z datetime;
  user_first_message_id : gmap Z json;
  user_first_reaction_date : gmap Z datetime;
  user_first_reaction_emoji : gmap Z json
}.

(** [BaseParser.__init__]. *)
Definition init : Parser := mkParser [] ∅ ∅ ∅ ∅.

Definition with_users (us : list (Z * TelegramUser)) (st : Parser) : Parser :=
  mkParser us (user_first_message_date st) (user_first_message_id st)
           (user_first_reaction_date st) (user_first_reaction_emoji st).

(** [users[k]] when [k in users]. *)
Fixpoint users_get (us : list (Z * TelegramUser)) (k : Z) : option TelegramUser :=
  match us with
  | [] => None
  | (k', u) :: us' => if k =? k' then Some u else users_get us' k
  end.

(** [users[k] = u]: in place for a key of the dict, at the end otherwise. *)
Fixpoint users_set (us : list (Z * TelegramUser)) (k : Z) (u : TelegramUser)
  : list (Z * TelegramUser) :=
  match us with
  | [] => [(k, u)]
  | (k', u') :: us' =>
      if k =? k' then (k, u) :: us' else (k', u') :: users_set us' k u
  end.

Definition keys (us : list (Z * TelegramUser)) : list Z := map fst us.

(** The regular expression [@([a-zA-Z0-9_]{5,32})]. *)
Definition handle_char (c : ascii) : bool :=
  Py.between 97 122 c || Py.between 65 90 c || Py.between 48 57 c
  || Ascii.eqb c "_".

(** The longest run of at most [n] handle characters at the head of [s]. *)
Fixpoint take_handle (n : nat) (s : string) : string :=
  match n, s with
  | S k, String c s' =>
      if handle_char c then String c (take_handle k s') else EmptyString
  | _, _ => EmptyString
  end.

(** [re.findall(pattern, text)]: the captured groups of the matches, from
    the left, without overlap.  The quantifier is greedy; [skip] counts the
    characters of the last match that are still to be passed over. *)
Fixpoint findall_from (skip : nat) (s : string) : list string :=
  match s with
  | EmptyString => []
  | String c s' =>
      match skip with
      | S k => findall_from k s'
      | O =>
          if Ascii.eqb c "@" then
            let h := take_handle 32 s' in
            if (5 <=? String.length h)%nat
            then h :: findall_from (String.length h) s'
            else findall_from 0 s'
          else findall_from 0 s'
      end
  end.

Definition findall (text : string) : list string := findall_from 0 text.

(** [x in l] on strings. *)
Definition mem (x : string) (l : list string) : bool := existsb (String.eqb x) l.

(** [for username in matches: if username not in mentioned:
    mentioned.append(username)]. *)
Definition append_new (mentioned matches : list string) : list string :=
  fold_left (fun acc username => if mem username acc then acc else acc ++ [username])
            matches mentioned.

(** [BaseParser._extract_mentioned_users]; [None] is an absent text. *)
Definition _extract_mentioned_users (text : option string) : list string :=
  match text with
  | None => []
  | Some t => if Py.nonempty t then append_new [] (findall t) else []
  end.

Section Base.
Context `{RT : Runtime}.

(** [BaseParser._detect_channel_in_profile].  The first keyword of the
    source, the Russian word for channel, is written with characters
    outside the eight-bit range and occurs in no text of the model; the
    other four are listed. *)
Definition _detect_channel_in_profile (bio : json)
    (user_data : list (string * json)) : outcome (option bool) :=
  if negb (truthy bio) then Returned None
  else match bio with
       | JStr b =>
           let bio_lower := lower b in
           let channel_keywords := ["channel"; "t.me/"; "telegram.me/"; "@"]%string in
           if existsb (fun keyword => Py.contains keyword bio_lower) channel_keywords
           then if Py.contains "t.me/" b || Py.contains "telegram.me/" b
                then Returned (Some true)
                else Returned None
           else Returned None
       | _ => Raised
       end.

(** Lines 103-112 of [_extract_user_from_message]: the earliest message of
    a key.  The comparison with the date on record raises when the two
    are not of one kind. *)
Definition note_first_message (st : Parser) (uid : Z)
    (message_date : option datetime) (message_id : json) : outcome Parser :=
  match message_date with
  | None => Returned st
  | Some d =>
      if uid =? 0 then Returned st
      else
        let store :=
          mkParser (users st)
                   (<[uid := d]> (user_first_message_date st))
                   (if truthy message_id
                    then <[uid := message_id]> (user_first_message_id st)
                    else user_first_message_id st)
                   (user_first_reaction_date st)
                   (user_first_reaction_emoji st) in
        match user_first_message_date st !! uid with
        | None => Returned store
        | Some old =>
            do is_earlier <- before d old;
            Returned (if is_earlier then store else st)
        end
  end.

(** The tombstone of a deleted account. *)
Definition deleted_user : TelegramUser :=
  set_first_name (Some "Deleted Account"%string) (set_is_deleted true (new_user 0)).

(** What the body of [_extract_user_from_message] reaches before the
    bookkeeping of the first message. *)
Inductive decoded : Type :=
| Early (u : option TelegramUser)   (** a [return] inside the branches *)
| Built (u : TelegramUser).          (** the local [user] *)

(** The branch of a [from] that is a display name (lines 40-71). *)
Definition author_by_name (full_name : string) (from_id_field : json) : outcome decoded :=
  do key <-
    match from_id_field with
    | JStr fid =>
        if Py.startswith fid "user"
        then do n <- of_option (Py.int int_max_str_digits (Py.remove "user" fid));
             Returned (Some n)
        else if Py.startswith fid "channel" then Returned None
        else Returned (Some (hash fid))
    | _ => Returned (Some (hash full_name))
    end;
  match key with
  | None => Returned (Early None)
  | Some uid =>
      let name_parts := Py.split1 full_name in
      let first := match name_parts with p :: _ => p | [] => full_name end in
      let last := match name_parts with _ :: p :: _ => Some p | _ => None end in
      Returned (Built (set_last_name last (set_first_name (Some first) (new_user uid))))
  end.

(** The branch of a [from] that is an object, or anything but a string
    (lines 73-101). *)
Definition author_by_object (from_field : json) : outcome decoded :=
  let user_data := match from_field with JDict ud => ud | _ => [] end in
  if is_str (dict_get user_data "id" JNull) "deleted_account"
  then Returned (Early (Some deleted_user))
  else
    let bio_field := dict_get user_data "bio" (JStr "") in
    do channel <- _detect_channel_in_profile bio_field user_data;
    do uid <- of_option (as_int (dict_get user_data "id" (JInt 0)));
    do uname <- of_option (as_opt_str (dict_get user_data "username" JNull));
    do first <- of_option (as_opt_str (dict_get user_data "first_name" JNull));
    do last <- of_option (as_opt_str (dict_get user_data "last_name" JNull));
    do about <- of_option (as_opt_str bio_field);
    do bot <- of_option (as_bool (dict_get user_data "is_bot" (JBool false)));
    Returned (Built
      (set_has_channel channel (set_is_bot bot (set_bio about
        (set_last_name last (set_first_name first (set_username uname
          (new_user uid)))))))).

Definition decode_author (message_data : json) : outcome decoded :=
  do d <- as_dict message_data;
  match dict_get d "from" JNull with
  | JStr full_name => author_by_name full_name (dict_get d "from_id" JNull)
  | from_field => author_by_object from_field
  end.

(** [BaseParser._extract_user_from_message]: any exception of the body,
    that of the comparison of two dates among them, is caught and the
    method returns [None]; nothing has been stored by then. *)
Definition _extract_user_from_message (st : Parser) (message_data : json)
    (message_date : option datetime) (message_id : json)
  : Parser * option TelegramUser :=
  match decode_author message_data with
  | Raised => (st, None)
  | Returned (Early r) => (st, r)
  | Returned (Built user) =>
      match note_first_message st (user_id user) message_date message_id with
      | Returned st' => (st', Some user)
      | Raised => (st, None)
      end
  end.

(** The update of an identity already in the roster ([_add_user], lines
    160-207), in the steps of the source. *)

(** Lines 164-165: a sighting that is not a mere mention clears the flag. *)
Definition clear_mention_only (user e : TelegramUser) : TelegramUser :=
  if negb (is_mention_only user) then set_is_mention_only false e else e.

(** Lines 167-178: the registration date, then the first message when
    there is none yet or the recorded one is earlier. *)
Definition take_first_message (st : Parser) (k : Z) (e : TelegramUser)
  : outcome TelegramUser :=
  let e := match user_first_message_date st !! k with
           | Some d => set_registration_date (Some d) e
           | None => e
           end in
  match user_first_message_date st !! k with
  | Some new_date =>
      do take <- match first_message_date e with
                 | None => Returned true
                 | Some old => before new_date old
                 end;
      if take
      then
        let e := set_first_message_date (Some new_date) e in
        Returned match user_first_message_id st !! k with
                 | Some i => set_first_message_id (Some i) e
                 | None => e
                 end
      else Returned e
  | None =>
      Returned match user_first_message_id st !! k with
               | Some i =>
                   if negb (filled_json (first_message_id e))
                   then set_first_message_id (Some i) e else e
               | None => e
               end
  end.

(** Lines 180-188: the same for the first reaction. *)
Definition take_first_reaction (st : Parser) (k : Z) (e : TelegramUser)
  : outcome TelegramUser :=
  match user_first_reaction_date st !! k with
  | Some new_reaction_date =>
      do take <- match first_reaction_date e with
                 | None => Returned true
                 | Some old => before new_reaction_date old
                 end;
      if take
      then
        let e := set_first_reaction_date (Some new_reaction_date) e in
        Returned match user_first_reaction_emoji st !! k with
                 | Some x => set_first_reaction_emoji (Some x) e
                 | None => e
                 end
      else Returned e
  | None =>
      Returned match user_first_reaction_emoji st !! k with
               | Some x =>
                   if negb (filled_json (first_reaction_emoji e))
                   then set_first_reaction_emoji (Some x) e else e
               | None => e
               end
  end.

(** Lines 190-194: a known channel flag and a non-empty username replace
    the recorded ones. *)
Definition take_channel_and_username (user e : TelegramUser) : TelegramUser :=
  let e := match has_channel user with
           | Some c => set_has_channel (Some c) e
           | None => e
           end in
  if filled (username user) then set_username (username user) e else e.

(** Lines 196-207: phone, mention, name parts and bio fill a blank only. *)
Definition fill_blanks (user e : TelegramUser) : TelegramUser :=
  let e := if negb (filled (phone_number e)) && filled (phone_number user)
           then set_phone_number (phone_number user) e else e in
  let e := if negb (filled (mention e)) && filled (mention user)
           then set_mention (mention user) e else e in
  let e := if negb (filled (first_name e)) && filled (first_name user)
           then set_first_name (first_name user) e else e in
  let e := if negb (filled (last_name e)) && filled (last_name user)
           then set_last_name (last_name user) e else e in
  if negb (filled (bio e)) && filled (bio user) then set_bio (bio user) e else e.

Definition merge_existing (st : Parser) (existing user : TelegramUser)
  : outcome TelegramUser :=
  let k := user_id user in
  let e := clear_mention_only user existing in
  do e <- take_first_message st k e;
  do e <- take_first_reaction st k e;
  let e := take_channel_and_username user e in
  Returned (fill_blanks user e).

(** A first sighting ([_add_user], lines 209-219). *)
Definition first_sighting (st : Parser) (user : TelegramUser) : TelegramUser :=
  let k := user_id user in
  let u := match user_first_message_date st !! k with
           | Some d => set_first_message_date (Some d) (set_registration_date (Some d) user)
           | None => user
           end in
  let u := match user_first_message_id st !! k with
           | Some i => set_first_message_id (Some i) u
           | None => u
           end in
  let u := match user_first_reaction_date st !! k with
           | Some d => set_first_reaction_date (Some d) u
           | None => u
           end in
  match user_first_reaction_emoji st !! k with
  | Some x => set_first_reaction_emoji (Some x) u
  | None => u
  end.

(** [BaseParser._add_user].  Every caller passes an object, never [None].
    The method has no handler of its own: an exception of a comparison
    goes to the caller. *)
Definition _add_user (st : Parser) (user : TelegramUser) : outcome Parser :=
  if is_deleted user then Returned st
  else
    let k := user_id user in
    match users_get (users st) k with
    | Some existing =>
        do e <- merge_existing st existing user;
        Returned (with_users (users_set (users st) k e) st)
    | None => Returned (with_users (users_set (users st) k (first_sighting st user)) st)
    end.

(** The loop body of [get_unique_users]. *)
Definition fill_missing (st : Parser) (k : Z) (user : TelegramUser) : TelegramUser :=
  let u := match user_first_message_date st !! k with
           | Some d =>
               let u := match registration_date user with
                        | None => set_registration_date (Some d) user
                        | Some _ => user
                        end in
               match first_message_date u with
               | None => set_first_message_date (Some d) u
               | Some _ => u
               end
           | None => user
           end in
  let u := match user_first_message_id st !! k with
           | Some i => if negb (filled_json (first_message_id u))
                       then set_first_message_id (Some i) u else u
           | None => u
           end in
  let u := match user_first_reaction_date st !! k with
           | Some d => match first_reaction_date u with
                       | None => set_first_reaction_date (Some d) u
                       | Some _ => u
                       end
           | None => u
           end in
  match user_first_reaction_emoji st !! k with
  | Some x => if negb (filled_json (first_reaction_emoji u))
              then set_first_reaction_emoji (Some x) u else u
  | None => u
  end.

(** [BaseParser.get_unique_users]: the identities are completed in place
    and returned in the order of the dict. *)
Definition get_unique_users (st : Parser) : Parser * list TelegramUser :=
  let us := map (fun kv => (fst kv, fill_missing st (fst kv) (snd kv))) (users st) in
  (with_users us st, map snd us).

Definition roster (st : Parser) : list TelegramUser := snd (get_unique_users st).

End Base.

(** ** The JSON parser ([parsers/json_parser.py]) *)

Section JSON.
Context `{RT : Runtime}.

(** [for fmt in formats: try: return strptime(s, fmt) except ValueError:
    continue]. *)
Fixpoint first_format (formats : list string) (s : string) : option datetime :=
  match formats with
  | [] => None
  | fmt :: rest =>
      match strptime s fmt with
      | Some d => Some d
      | None => first_format rest s
      end
  end.

Definition json_formats : list string :=
  ["%Y-%m-%dT%H:%M:%S"; "%Y-%m-%d %H:%M:%S"; "%Y-%m-%dT%H:%M:%S%z";
   "%Y-%m-%dT%H:%M:%S.%f%z"]%string.

(** [JSONParser._extract_message_date]; a [bool] is an [int] in Python. *)
Definition _extract_message_date (message : json) : option datetime :=
  match message with
  | JDict d =>
      match dict_get d "date" (JStr "") with
      | JStr date_str => first_format json_formats date_str
      | JInt _ as x | JFloat _ _ as x | JBool _ as x => fromtimestamp x
      | _ => None
      end
  | _ => None
  end.

(** [JSONParser._extract_reaction_date]: the same code on the record of a
    reactor. *)
Definition _extract_reaction_date (reaction_user : json) : option datetime :=
  match reaction_user with
  | JDict d =>
      match dict_get d "date" (JStr "") with
      | JStr date_str => first_format json_formats date_str
      | JInt _ as x | JFloat _ _ as x | JBool _ as x => fromtimestamp x
      | _ => None
      end
  | _ => None
  end.

Fixpoint text_parts (text : list json) : list json :=
  match text with
  | [] => []
  | item :: rest =>
      match item with
      | JStr _ => item :: text_parts rest
      | JDict d => dict_get d "text" (JStr "") :: text_parts rest
      | _ => text_parts rest
      end
  end.

(** [' '.join(parts)]: [TypeError] unless every part is a string. *)
Fixpoint join_space (parts : list json) : outcome string :=
  match parts with
  | [] => Returned EmptyString
  | JStr p :: rest =>
      match rest with
      | [] => Returned p
      | _ => do r <- join_space rest; Returned (p ++ " " ++ r)%string
      end
  | _ => Raised
  end.

(** [JSONParser._extract_text_from_message]. *)
Definition _extract_text_from_message (message : json) : outcome string :=
  do d <- as_dict message;
  match dict_get d "text" (JStr "") with
  | JStr text => Returned text
  | JList text => join_space (text_parts text)
  | _ => Returned EmptyString
  end.

(** [TelegramUser(user_id=hash(username), username=username)]. *)
Definition temp_user (uname : string) : TelegramUser :=
  set_username (Some uname) (new_user (hash uname)).

(** An index of a slice: an [int] (or a [bool]). *)
Definition as_index (j : json) : outcome Z :=
  match j with
  | JInt n => Returned n
  | JBool b => Returned (if b then 1 else 0)
  | _ => Raised
  end.

(** The loop body of [_extract_mentioned_users_from_message]. *)
Definition mentioned_by_entity (message : json)
    (acc : Parser * list TelegramUser) (entity : json)
  : outcome (Parser * list TelegramUser) :=
  let (st, mentioned_users) := acc in
  do e <- as_dict entity;
  let entity_type := dict_get e "type" (JStr "") in
  if is_str entity_type "mention" then
    do text <- _extract_text_from_message message;
    if Py.nonempty text then
      do offset <- as_index (dict_get e "offset" (JInt 0));
      do length <- as_index (dict_get e "length" (JInt 0));
      let mention_text := Py.slice text offset (offset + length) in
      if Py.startswith mention_text "@"
      then Returned (st, mentioned_users ++ [temp_user (Py.tail mention_text)])
      else Returned acc
    else Returned acc
  else if is_str entity_type "text_mention" then
    let user_data := dict_get e "user" (JDict []) in
    if truthy user_data then
      let (st', user) :=
        _extract_user_from_message st (JDict [("from"%string, user_data)]) None JNull in
      match user with
      | Some u => Returned (st', mentioned_users ++ [u])
      | None => Returned (st', mentioned_users)
      end
    else Returned acc
  else Returned acc.

(** [JSONParser._extract_mentioned_users_from_message]. *)
Definition _extract_mentioned_users_from_message (st : Parser) (message : json)
  : outcome (Parser * list TelegramUser) :=
  do d <- as_dict message;
  let entities :=
    let e := dict_get d "entities" (JList []) in
    if truthy e then e else dict_get d "text_entities" (JList []) in
  do es <- iterate entities;
  for_each (mentioned_by_entity message) es (st, []).

(** [JSONParser._extract_mentioned_usernames_from_text]: the code of
    [_extract_mentioned_users] once more. *)
Definition _extract_mentioned_usernames_from_text (text : option string) : list string :=
  match text with
  | None => []
  | Some t => if Py.nonempty t then append_new [] (findall t) else []
  end.

(** The first item of kind [kind] with a true [text], in a text given as a
    list. *)
Fixpoint first_typed_text (kind : string) (text : list json) : option json :=
  match text with
  | [] => None
  | JDict item :: rest =>
      if is_str (dict_get item "type" (JStr "")) kind
         && truthy (dict_get item "text" (JStr ""))
      then Some (dict_get item "text" (JStr ""))
      else first_typed_text kind rest
  | _ :: rest => first_typed_text kind rest
  end.

(** [d.get('phone_number')] of a value expected to be a dict, when true. *)
Definition phone_in (j : json) : option json :=
  match j with
  | JDict d =>
      let phone := dict_get d "phone_number" JNull in
      if truthy phone then Some phone else None
  | _ => None
  end.

(** [JSONParser._extract_phone_from_message]; an exception gives [None]. *)
Definition _extract_phone_from_message (message : json) : option string :=
  match message with
  | JDict d =>
      let phone_number := dict_get d "phone_number" JNull in
      if truthy phone_number then Some (to_str phone_number)
      else
        match (match dict_get d "text" (JStr "") with
               | JList text => first_typed_text "phone" text
               | _ => None
               end) with
        | Some phone_text => Some (to_str phone_text)
        | None =>
            match phone_in (dict_get d "contact_info" JNull) with
            | Some phone => Some (to_str phone)
            | None =>
                match (if dict_has d "contact"
                       then phone_in (dict_get d "contact" JNull) else None) with
                | Some phone => Some (to_str phone)
                | None =>
                    match phone_in (dict_get d "media" JNull) with
                    | Some phone => Some (to_str phone)
                    | None => None
                    end
                end
            end
        end
  | _ => None
  end.

(** [JSONParser._extract_mention_from_message]; an exception gives [None]. *)
Definition _extract_mention_from_message (message : json) : option string :=
  match message with
  | JDict d =>
      match dict_get d "text" (JStr "") with
      | JList text =>
          match first_typed_text "mention" text with
          | Some (JStr mention_text) =>
              if Py.startswith mention_text "@" then Some mention_text
              else Some ("@" ++ mention_text)%string
          | _ => None
          end
      | _ => None
      end
  | _ => None
  end.

(** [JSONParser._save_first_reaction].  The method has no handler: the
    exception of a comparison of dates of two kinds goes to [parse]. *)
Definition _save_first_reaction (st : Parser) (uid : Z)
    (reaction_date : option datetime) (emoji : json) : outcome Parser :=
  match reaction_date with
  | None => Returned st
  | Some d =>
      if uid =? 0 then Returned st
      else
        let store :=
          mkParser (users st) (user_first_message_date st) (user_first_message_id st)
                   (<[uid := d]> (user_first_reaction_date st))
                   (if truthy emoji
                    then <[uid := emoji]> (user_first_reaction_emoji st)
                    else user_first_reaction_emoji st) in
        match user_first_reaction_date st !! uid with
        | None => Returned store
        | Some old =>
            do is_earlier <- before d old;
            Returned (if is_earlier then store else st)
        end
  end.

(** The reactors of one reaction (the inner loop of [parse]). *)
Definition react (emoji : json) (st : Parser) (reaction_user : json) : outcome Parser :=
  let reaction_date := _extract_reaction_date reaction_user in
  let (st, user) := _extract_user_from_message st reaction_user None JNull in
  match user with
  | Some u =>
      do st <- _save_first_reaction st (user_id u) reaction_date emoji;
      _add_user st u
  | None => Returned st
  end.

Definition reactions_of (st : Parser) (reaction : json) : outcome Parser :=
  do r <- as_dict reaction;
  let emoji := dict_get r "emoji" (JStr "") in
  do recent <- iterate (dict_get r "recent" (JList []));
  for_each (react emoji) recent st.

(** One turn of the loop over the messages of [parse]. *)
Definition parse_message (st : Parser) (message : json) : outcome Parser :=
  let message_date := _extract_message_date message in
  do d <- as_dict message;
  let message_id := dict_get d "id" JNull in
  let phone := _extract_phone_from_message message in
  let ment := _extract_mention_from_message message in
  do st <-
    (if dict_has d "from" then
       let (st, user) := _extract_user_from_message st message message_date message_id in
       match user with
       | Some u =>
           let u := if filled phone && negb (filled (phone_number u))
                    then set_phone_number phone u else u in
           let u := if filled ment && negb (filled (mention u))
                    then set_mention ment u else u in
           _add_user st u
       | None => Returned st
       end
     else Returned st);
  do '(st, mentioned_users) <- _extract_mentioned_users_from_message st message;
  do st <- for_each _add_user mentioned_users st;
  do text <- _extract_text_from_message message;
  do st <-
    (if Py.nonempty text
     then for_each (fun st uname => _add_user st (temp_user uname))
                   (_extract_mentioned_usernames_from_text (Some text)) st
     else Returned st);
  do reactions <- iterate (dict_get d "reactions" (JList []));
  for_each reactions_of reactions st.

(** The body of the [try] of [parse], after [json.load]. *)
Definition parse_body (data : json) : outcome (list TelegramUser) :=
  do top <- as_dict data;
  do messages <- iterate (dict_get top "messages" (JList []));
  do st <- for_each parse_message messages init;
  Returned (roster st).

(** [JSONParser.parse].  [content] is what [json.load] makes of the file,
    [None] when it raises ([JSONDecodeError], or an error of [open]).  Both
    handlers return the empty list. *)
Definition JSONParser_parse (content : option json) : outcome (list TelegramUser) :=
  match content with
  | None => Returned []
  | Some data =>
      match parse_body data with
      | Returned us => Returned us
      | Raised => Returned []
      end
  end.

End JSON.

(** ** The HTML parser ([parsers/html_parser.py]) *)

(** What the parser reads of one [div] of class [message] through
    BeautifulSoup: the [title] attribute ([''] when absent) and the text
    of its [date] element, the text of its [from_name] element, the text of
    its [text] element; [None] for an element that [find] does not find. *)
Record html_message : Type := mkHtmlMessage {
  date_element : option (string * string);
  from_name_element : option string;
  text_element : option string
}.

Section HTML.
Context `{RT : Runtime}.

Definition html_formats : list string :=
  ["%d.%m.%Y %H:%M:%S"; "%Y-%m-%d %H:%M:%S"; "%d.%m.%Y %H:%M";
   "%Y-%m-%d %H:%M"]%string.

(** [HTMLParser._extract_message_date_from_html]. *)
Definition _extract_message_date_from_html (message : html_message) : option datetime :=
  match date_element message with
  | Some (title, text) =>
      let date_str := if Py.nonempty title then title else text in
      if Py.nonempty date_str then first_format html_formats (Py.strip date_str)
      else None
  | None => None
  end.

(** [HTMLParser._extract_user_from_html]. *)
Definition _extract_user_from_html (st : Parser) (from_name_element : string)
    (message_date : option datetime) : Parser * option TelegramUser :=
  let full_name := Py.strip from_name_element in
  if negb (Py.nonempty full_name) then (st, None)
  else
    let uid := hash full_name in
    let name_parts := Py.split1 full_name in
    let first := match name_parts with p :: _ => p | [] => "Unknown"%string end in
    let last := match name_parts with _ :: p :: _ => JStr p | _ => JNull end in
    let user_data :=
      JDict [("id", JInt uid); ("username", JNull); ("first_name", JStr first);
             ("last_name", last); ("bio", JNull)]%string in
    _extract_user_from_message st (JDict [("from"%string, user_data)]) message_date JNull.

(** The temporary user of a mention in a text of the HTML export. *)
Definition mentioned_user (uname : string) : TelegramUser :=
  set_is_mention_only true (set_username (Some uname) (new_user (hash uname))).

(** One turn of the loop over the messages of [HTMLParser.parse]. *)
Definition parse_html_message (st : Parser) (message : html_message) : outcome Parser :=
  let message_date := _extract_message_date_from_html message in
  do st <-
    match from_name_element message with
    | Some el =>
        let (st, user_data) := _extract_user_from_html st el message_date in
        match user_data with
        | Some u => _add_user st u
        | None => Returned st
        end
    | None => Returned st
    end;
  match text_element message with
  | Some text_content =>
      for_each (fun st uname => _add_user st (mentioned_user uname))
               (_extract_mentioned_users (Some text_content)) st
  | None => Returned st
  end.

(** [HTMLParser.parse].  [content] is the list of message blocks of the
    document, [None] when reading the file raises; the handler returns the
    empty list, also for an exception of the loop. *)
Definition HTMLParser_parse (content : option (list html_message))
  : outcome (list TelegramUser) :=
  match content with
  | None => Returned []
  | Some messages =>
      match for_each parse_html_message messages init with
      | Returned st => Returned (roster st)
      | Raised => Returned []
      end
  end.

End HTML.

(** ** The aggregator ([processors/user_processor.py]) *)

(** The update of [_merge_users] for a key already in the roster. *)
Definition merge_into (existing user : TelegramUser) : TelegramUser :=
  let e := if filled (username user) then set_username (username user) existing
           else existing in
  let e := if filled (first_name user) && negb (filled (first_name e))
           then set_first_name (first_name user) e else e in
  if filled (last_name user) && negb (filled (last_name e))
  then set_last_name (last_name user) e else e.

(** [UserProcessor._merge_users] on the dict [self.users]. *)
Definition _merge_users (agg : list (Z * TelegramUser)) (us : list TelegramUser)
  : list (Z * TelegramUser) :=
  fold_left
    (fun agg user =>
       if is_deleted user then agg
       else match users_get agg (user_id user) with
            | None => users_set agg (user_id user) user
            | Some existing => users_set agg (user_id user) (merge_into existing user)
            end)
    us agg.

(** ** The resolver as the specification describes it *)

(** An observation with its correlation data (section 3 of the
    specification): the fields an extractor gives to a fresh
    [TelegramUser], and the time stamps, identifier and symbol that travel
    beside it. *)
Record Observation : Type := mkObservation {
  seen : TelegramUser;
  message_date : option datetime;
  message_id : json;
  reaction_date : option datetime;
  reaction_emoji : json
}.

(** [observe] of section 4.4, assembled from the calls [parse] makes for
    one sighting: the first message is noted, then the first reaction, then
    the user is added.  An exception of one of the three ends the
    resolution.  (In [parse] the first call is made inside the extractor,
    which then gives no user: an observation whose message date cannot be
    compared with the one on record is not made at all.) *)
Definition observe (st : Parser) (o : Observation) : outcome Parser :=
  do st <- note_first_message st (user_id (seen o)) (message_date o) (message_id o);
  do st <- _save_first_reaction st (user_id (seen o)) (reaction_date o) (reaction_emoji o);
  _add_user st (seen o).

Definition resolve (obs : list Observation) : outcome Parser := for_each observe obs init.

(** [unique_identities()] after a sequence of observations: the roster of
    the resolver, and the empty list, which [parse] returns after an
    exception, when the resolution has ended with one. *)
Definition unique_identities (obs : list Observation) : list TelegramUser :=
  match resolve obs with
  | Returned st => roster st
  | Raised => []
  end.

(** ** A runtime to run the model on examples

    A polynomial [hash], the lowering of the ASCII letters, strict
    validation, the default limit of 4300 digits, and time stamps read off
    the digits of the text ([2024-01-01T09:00:00] is [20240101090000]),
    which keeps their order.  Of the offsets, [+0000] is read. *)

Module Sample.

Definition hash (s : string) : Z :=
  fold_left (fun acc c => (acc * 31 + Py.code c) mod 2305843009213693951)
            (list_ascii_of_string s) 7.

Definition lower_char (c : ascii) : ascii :=
  if Py.between 65 90 c then ascii_of_N (N_of_ascii c + 32) else c.

Fixpoint lower (s : string) : string :=
  match s with
  | EmptyString => EmptyString
  | String c s' => String (lower_char c) (lower s')
  end.

Definition to_str (j : json) : string :=
  match j with
  | JStr s => s
  | _ => EmptyString
  end.

(** The next [n] digits of [s], appended to [acc]. *)
Fixpoint take_digits (n : nat) (acc : Z) (s : string) : option (Z * string) :=
  match n with
  | O => Some (acc, s)
  | S n' =>
      match s with
      | String c s' =>
          if Py.isdigit c then take_digits n' (acc * 10 + Py.digit_value c) s' else None
      | EmptyString => None
      end
  end.

(** The text against the format: a directive takes the digits of its field
    (four for the year, two for the others), the directive [%z] takes the
    offset [+0000], any other character stands for itself. *)
Fixpoint read (acc : Z) (fmt s : string) : option Z :=
  match fmt with
  | EmptyString => match s with EmptyString => Some acc | _ => None end
  | String "%" (String d fmt') =>
      if existsb (Ascii.eqb d) ["Y"; "m"; "d"; "H"; "M"; "S"]%char then
        match take_digits (if Ascii.eqb d "Y" then 4 else 2) acc s with
        | Some (acc', s') => read acc' fmt' s'
        | None => None
        end
      else if Ascii.eqb d "z" then
        if String.prefix "+0000" s then read acc fmt' (String.substring 5 (String.length s - 5) s)
        else None
      else None
  | String f fmt' =>
      match s with
      | String c s' => if Ascii.eqb c f then read acc fmt' s' else None
      | EmptyString => None
      end
  end.

(** Only the formats that begin with the year keep the order.  The value
    is aware when the format has the directive [%z]. *)
Definition strptime (s fmt : string) : option datetime :=
  if String.prefix "%Y" fmt
  then mkDate (Py.contains "%z" fmt) <$> read 0 fmt s
  else None.

Definition fromtimestamp (j : json) : option datetime :=
  match j with
  | JInt n => Some (naive n)
  | _ => None
  end.

Definition as_int (j : json) : option Z :=
  match j with
  | JInt n => Some n
  | _ => None
  end.

Definition as_opt_str (j : json) : option (option string) :=
  match j with
  | JNull => Some None
  | JStr s => Some (Some s)
  | _ => None
  end.

Definition as_bool (j : json) : option bool :=
  match j with
  | JBool b => Some b
  | _ => None
  end.

#[global, refine] Instance runtime : Runtime :=
  Build_Runtime hash lower to_str 4300 strptime fromtimestamp as_int as_opt_str as_bool
                (fun _ => eq_refl) eq_refl (fun _ => eq_refl) (fun _ => eq_refl) _.
Proof.
  intros s fmt d Hz. unfold strptime. rewrite Hz.
  destruct (String.prefix "%Y" fmt); [|discriminate].
  destruct (read 0 fmt s); simpl; [|discriminate].
  intros H. injection H as <-. reflexivity.
Defined.

End Sample.

(** ** The statements of the specification *)

(** The list a parser hands to its caller. *)
Definition returned (o : outcome (list TelegramUser)) : list TelegramUser :=
  match o with
  | Returned us => us
  | Raised => []
  end.

Definition chars (s : string) : list ascii := list_ascii_of_string s.

Definition unset {A} (o : option A) : bool :=
  match o with
  | None => true
  | Some _ => false
  end.

(** *** Mention scanner *)

(** The characters of a handle, as the specification lists them: the
    letters of ASCII, the digits and the underscore. *)
Definition ascii_letters : string :=
  "abcdefghijklmnopqrstuvwxyzABCDEFGHIJKLMNOPQRSTUVWXYZ".

Definition ascii_digits : string := "0123456789".

Definition pattern_char (c : ascii) : bool :=
  existsb (Ascii.eqb c) (chars ascii_letters)
  || existsb (Ascii.eqb c) (chars ascii_digits)
  || Ascii.eqb c "_".

(** A handle of the pattern: 5 to 32 characters, each a letter, a digit or
    an underscore. *)
Definition valid_handle (h : string) : bool :=
  (5 <=? String.length h)%nat && (String.length h <=? 32)%nat
  && forallb pattern_char (chars h).

Definition handle_chars (h : string) : bool := forallb pattern_char (chars h).

(** The text does not go on with a character of a handle. *)
Definition stops (rest : string) : bool :=
  match rest with
  | String c _ => negb (pattern_char c)
  | EmptyString => true
  end.

(** The matches of the pattern in a text, read from the left: a character
    that is not [@] is passed; an [@] followed by a longest run of 5 to 32
    characters of a handle gives that run, and the scan goes on after it;
    an [@] followed by fewer than 5 gives nothing. *)
Inductive scan : string -> list string -> Prop :=
| scan_end : scan EmptyString []
| scan_other c s l :
    Ascii.eqb c "@" = false -> scan s l -> scan (String c s) l
| scan_handle h rest l :
    valid_handle h = true ->
    String.length h = 32%nat \/ stops rest = true ->
    scan rest l ->
    scan (String "@" (h ++ rest)) (h :: l)
| scan_short h rest l :
    handle_chars h = true -> (String.length h < 5)%nat -> stops rest = true ->
    scan (h ++ rest)%string l ->
    scan (String "@" (h ++ rest)) l.

(** A list without its repetitions, the first occurrences in their order. *)
Fixpoint first_occurrences (l : list string) : list string :=
  match l with
  | [] => []
  | x :: r => x :: List.filter (fun y => negb (String.eqb y x)) (first_occurrences r)
  end.

(** *** Author decoding *)

Definition author_message (name ident : string) : json :=
  JDict [("from", JStr name); ("from_id", JStr ident)]%string.

(** One or more decimal digits. *)
Definition all_digits (s : string) : bool :=
  Py.nonempty s && forallb Py.isdigit (chars s).

(** The number a string of digits denotes. *)
Definition decimal (s : string) : Z :=
  fold_left (fun acc c => acc * 10 + Py.digit_value c) (chars s) 0.

(** [s] without its first [n] characters. *)
Definition drop_chars (n : nat) (s : string) : string :=
  String.substring n (String.length s - n) s.

(** The forms [user<digits>] and [channel<digits>]. *)
Definition user_digits (ident : string) : bool :=
  String.prefix "user" ident && all_digits (drop_chars 4 ident).

Definition channel_digits (ident : string) : bool :=
  String.prefix "channel" ident && all_digits (drop_chars 7 ident).

Definition all_space (s : string) : bool := forallb Py.isspace (chars s).

Definition no_space (s : string) : bool :=
  forallb (fun c => negb (Py.isspace c)) (chars s).

Definition starts_with_space (s : string) : bool :=
  match s with
  | String c _ => Py.isspace c
  | EmptyString => false
  end.

(** A display name split at its first run of white space: [first] is the
    first word, [last] what follows the white space after it. *)
Definition split_at_first_space (name : string) (first last : option string) : Prop :=
  (all_space name = true /\ first = Some name /\ last = None) \/
  exists lead w gap rest,
    name = (lead ++ w ++ gap ++ rest)%string /\
    all_space lead = true /\ Py.nonempty w = true /\ no_space w = true /\
    all_space gap = true /\ starts_with_space rest = false /\
    (Py.nonempty rest = true -> Py.nonempty gap = true) /\
    first = Some w /\
    last = (if Py.nonempty rest then Some rest else None).

(** The extraction gives an observation with key [key] whose name parts are
    those of the display name [name]. *)
Definition decoded_as (r : option TelegramUser) (key : Z) (name : string) : Prop :=
  exists u, r = Some u /\ user_id u = key /\
            split_at_first_space name (first_name u) (last_name u).

(** A date can be compared with the date on record for the key: there is
    none of the two, the key is 0 (nothing is recorded for it), or the two
    are of one kind. *)
Definition comparable_with (table : gmap Z datetime) (uid : Z) (d : option datetime)
  : bool :=
  match d, table !! uid with
  | Some t, Some old => (uid =? 0) || Bool.eqb (aware t) (aware old)
  | _, _ => true
  end.

(** The date of a message can be compared with the one of the first
    message on record. *)
Definition comparable (st : Parser) (uid : Z) (d : option datetime) : bool :=
  comparable_with (user_first_message_date st) uid d.

(** The characters of the integer literals that [int] reads: digits,
    signs, the underscore, and the white space it passes over (tab to
    carriage return, the blank, and the characters 133 and 160). *)
Definition literal_char (c : ascii) : bool :=
  existsb (Ascii.eqb c) (chars "0123456789+-_")
  || existsb (Z.eqb (Py.code c)) [9; 10; 11; 12; 13; 32; 133; 160].

(** The decoding of an author given as a bare display name, as the
    specification states it. *)
Definition author_decoding_claim `{Runtime} (name ident : string) : Prop :=
  let r := snd (_extract_user_from_message init (author_message name ident) None JNull) in
  if user_digits ident then decoded_as r (decimal (drop_chars 4 ident)) name
  else if channel_digits ident then r = None
  else decoded_as r (hash ident) name.

(** *** Resolver *)

(** Two rosters with the same identities. *)
Definition same_roster (r1 r2 : list TelegramUser) : Prop :=
  forall u, In u r1 <-> In u r2.

Definition order_independence_claim : Prop :=
  forall l1 l2, Permutation l1 l2 ->
    same_roster (unique_identities l1) (unique_identities l2).

(** An observation as the extractors make it: the user is new, so the
    fields of the first message and of the first reaction are unset, and a
    tombstone has key 0. *)
Definition extracted (o : Observation) : bool :=
  unset (registration_date (seen o)) && unset (first_message_date (seen o))
  && unset (first_message_id (seen o)) && unset (first_reaction_date (seen o))
  && unset (first_reaction_emoji (seen o))
  && (negb (is_deleted (seen o)) || (user_id (seen o) =? 0)).

(** An optional date of kind [a]: naive for [false], aware for [true]. *)
Definition kind_of (a : bool) (d : option datetime) : bool :=
  match d with
  | Some t => Bool.eqb (aware t) a
  | None => true
  end.

(** An observation whose time stamps are of kind [a]. *)
Definition of_kind (a : bool) (o : Observation) : bool :=
  kind_of a (message_date o) && kind_of a (reaction_date o).

(** The channel flag is true or unknown. *)
Definition channel_ok (u : TelegramUser) : bool :=
  match has_channel u with
  | Some false => false
  | _ => true
  end.

(** Does the resolution end without an exception? *)
Definition resolves (obs : list Observation) : bool :=
  match resolve obs with
  | Returned _ => true
  | Raised => false
  end.

Definition deletion_dominance_claim : Prop :=
  forall before after d,
    is_deleted (seen d) = true ->
    ~ In (user_id (seen d)) (map user_id (unique_identities (before ++ d :: after))).

(** A reaction of user [u] at time [t] with symbol [e]. *)
Definition reaction (u : TelegramUser) (t : datetime) (e : json) : Observation :=
  mkObservation u None JNull (Some t) e.

(** The symbol of the earlier of two reactions, the first on a tie. *)
Definition winner (t1 t2 : datetime) (e1 e2 : json) : json :=
  if instant t2 <? instant t1 then e2 else e1.

(** [min(t1, t2)] for two dates of one kind. *)
Definition min_date (t1 t2 : datetime) : datetime :=
  mkDate (aware t1) (Z.min (instant t1) (instant t2)).

(** [t'] is a date of the kind of [t], and not later. *)
Definition no_later (t' t : datetime) : Prop :=
  aware t' = aware t /\ instant t' <= instant t.

Definition reaction_minimum_claim (k : Z) (t1 t2 : datetime) (e1 e2 : json) : Prop :=
  exists u,
    In u (unique_identities [reaction (new_user k) t1 e1; reaction (new_user k) t2 e2]) /\
    user_id u = k /\
    first_reaction_date u = Some (min_date t1 t2) /\
    first_reaction_emoji u = Some (winner t1 t2 e1 e2).

(** *** Aggregator *)

(** A resolved identity taken as one observation: its fields, with its
    earliest message and reaction as correlation data. *)
Definition as_observation (u : TelegramUser) : Observation :=
  mkObservation u (first_message_date u)
                (match first_message_id u with Some i => i | None => JNull end)
                (first_reaction_date u)
                (match first_reaction_emoji u with Some e => e | None => JNull end).

(** The identities of two files replayed into one resolver. *)
Definition replayed (file1 file2 : list TelegramUser) : list TelegramUser :=
  unique_identities (map as_observation (file1 ++ file2)).

(** The same two files merged by the aggregator. *)
Definition aggregated (file1 file2 : list TelegramUser) : list TelegramUser :=
  map snd (_merge_users (_merge_users [] file1) file2).

(** *** Extractors *)

Definition export (messages : list json) : json :=
  JDict [("messages"%string, JList messages)].

Definition is_dict (j : json) : bool :=
  match j with
  | JDict _ => true
  | _ => false
  end.

(** The failure contract as the specification states it: an unreadable
    container is an error for the caller, a record of an unexpected shape
    is passed over. *)
Definition failure_contract_claim `{Runtime} : Prop :=
  JSONParser_parse None = Raised /\
  forall messages bad,
    is_dict bad = false ->
    JSONParser_parse (Some (export (messages ++ [bad])))
    = JSONParser_parse (Some (export messages)).

(** An identifier for which the decoding of a display name gives no
    observation: the prefix [user] without an integer after it, or the
    prefix [channel]. *)
Definition dropped `{Runtime} (ident : string) : bool :=
  if Py.startswith ident "user"
  then unset (Py.int int_max_str_digits (Py.remove "user" ident))
  else Py.startswith ident "channel".

(** A message whose author cannot be decoded, whatever the parser has
    seen: the decoding raises, or it is the author of a channel. *)
Definition undecodable `{Runtime} (d : list (string * json)) : bool :=
  match decode_author (JDict d) with
  | Raised | Returned (Early None) => true
  | Returned _ => false
  end.

(** A message of the author with id [n], given as an object. *)
Definition message_of (n : Z) : json :=
  JDict [("from"%string, JDict [("id"%string, JInt n)])].

(** The items of a message without its [from] field. *)
Definition without_author (d : list (string * json)) : list (string * json) :=
  List.filter (fun kv => negb (String.eqb (fst kv) "from")) d.
(** ** Notions used in the proofs *)

(** *** The updates without their exceptions

    The updates of the parser with the two dates of a comparison taken by
    their instants, whatever their kinds.  A call of the program that
    returns gives what its total version gives (the lemmas [..._total]);
    the total versions carry the proofs about the states that the program
    reaches. *)

Definition note_total (st : Parser) (uid : Z)
    (message_date : option datetime) (message_id : json) : Parser :=
  match message_date with
  | None => st
  | Some d =>
      if uid =? 0 then st
      else
        let store :=
          mkParser (users st)
                   (<[uid := d]> (user_first_message_date st))
                   (if truthy message_id
                    then <[uid := message_id]> (user_first_message_id st)
                    else user_first_message_id st)
                   (user_first_reaction_date st)
                   (user_first_reaction_emoji st) in
        match user_first_message_date st !! uid with
        | None => store
        | Some old => if instant d <? instant old then store else st
        end
  end.

Definition save_total (st : Parser) (uid : Z)
    (reaction_date : option datetime) (emoji : json) : Parser :=
  match reaction_date with
  | None => st
  | Some d =>
      if uid =? 0 then st
      else
        let store :=
          mkParser (users st) (user_first_message_date st) (user_first_message_id st)
                   (<[uid := d]> (user_first_reaction_date st))
                   (if truthy emoji
                    then <[uid := emoji]> (user_first_reaction_emoji st)
                    else user_first_reaction_emoji st) in
        match user_first_reaction_date st !! uid with
        | None => store
        | Some old => if instant d <? instant old then store else st
        end
  end.

Definition first_message_total (st : Parser) (k : Z) (e : TelegramUser) : TelegramUser :=
  let e := match user_first_message_date st !! k with
           | Some d => set_registration_date (Some d) e
           | None => e
           end in
  match user_first_message_date st !! k with
  | Some new_date =>
      if match first_message_date e with
         | None => true
         | Some old => instant new_date <? instant old
         end
      then
        let e := set_first_message_date (Some new_date) e in
        match user_first_message_id st !! k with
        | Some i => set_first_message_id (Some i) e
        | None => e
        end
      else e
  | None =>
      match user_first_message_id st !! k with
      | Some i =>
          if negb (filled_json (first_message_id e))
          then set_first_message_id (Some i) e else e
      | None => e
      end
  end.

Definition first_reaction_total (st : Parser) (k : Z) (e : TelegramUser) : TelegramUser :=
  match user_first_reaction_date st !! k with
  | Some new_reaction_date =>
      if match first_reaction_date e with
         | None => true
         | Some old => instant new_reaction_date <? instant old
         end
      then
        let e := set_first_reaction_date (Some new_reaction_date) e in
        match user_first_reaction_emoji st !! k with
        | Some x => set_first_reaction_emoji (Some x) e
        | None => e
        end
      else e
  | None =>
      match user_first_reaction_emoji st !! k with
      | Some x =>
          if negb (filled_json (first_reaction_emoji e))
          then set_first_reaction_emoji (Some x) e else e
      | None => e
      end
  end.

Definition merge_total (st : Parser) (existing user : TelegramUser) : TelegramUser :=
  let k := user_id user in
  let e := clear_mention_only user existing in
  let e := first_message_total st k e in
  let e := first_reaction_total st k e in
  let e := take_channel_and_username user e in
  fill_blanks user e.

Definition add_total (st : Parser) (user : TelegramUser) : Parser :=
  if is_deleted user then st
  else
    let k := user_id user in
    match users_get (users st) k with
    | Some existing => with_users (users_set (users st) k (merge_total st existing user)) st
    | None => with_users (users_set (users st) k (first_sighting st user)) st
    end.

Definition observe_total (st : Parser) (o : Observation) : Parser :=
  let st := note_total st (user_id (seen o)) (message_date o) (message_id o) in
  let st := save_total st (user_id (seen o)) (reaction_date o) (reaction_emoji o) in
  add_total st (seen o).

Definition resolve_total (obs : list Observation) : Parser :=
  fold_left observe_total obs init.

Definition identities_total (obs : list Observation) : list TelegramUser :=
  roster (resolve_total obs).

(** *** Dates *)

(** The earlier of a new time stamp and a recorded one. *)
Definition earlier (new : datetime) (old : option datetime) : datetime :=
  match old with
  | None => new
  | Some t => if instant new <? instant t then new else t
  end.

(** The identity recorded for the key of a user that is added. *)
Definition recorded (st : Parser) (u : TelegramUser) : TelegramUser :=
  match users_get (users st) (user_id u) with
  | Some existing => merge_total st existing u
  | None => first_sighting st u
  end.

(** The user made of a key and a display name (lines 60-71 of
    [_extract_user_from_message]). *)
Definition named (uid : Z) (full_name : string) : TelegramUser :=
  let name_parts := Py.split1 full_name in
  let first := match name_parts with p :: _ => p | [] => full_name end in
  let last := match name_parts with _ :: p :: _ => Some p | _ => None end in
  set_last_name last (set_first_name (Some first) (new_user uid)).

(** The user of a key and a name, when the date of the message can be
    compared with the one on record for the key. *)
Definition sighted (st : Parser) (d : option datetime) (key : Z) (name : string)
  : option TelegramUser :=
  if comparable st key d then Some (named key name) else None.

(** Every identity of the dict is stored under its own key. *)
Definition keyed (st : Parser) : Prop :=
  List.Forall (fun kv => user_id (snd kv) = fst kv) (users st).

(** One step of the running minimum of the times of key [k]. *)
Definition min_step (k uid : Z) (d : option datetime) (acc : option datetime)
  : option datetime :=
  match d with
  | Some t => if negb (uid =? 0) && (k =? uid) then Some (earlier t acc) else acc
  | None => acc
  end.

(** The identities agree with the tables of the parser on the earliest
    message and the earliest reaction. *)
Definition in_step (st : Parser) : Prop :=
  forall k u, users_get (users st) k = Some u ->
    first_message_date u = user_first_message_date st !! k /\
    first_reaction_date u = user_first_reaction_date st !! k.

(** ** More of the program *)

(** *** The names of a user ([models/user.py]) *)

(** [TelegramUser.full_name].  The fallback for a user without name parts
    is the word [Unknown]. *)
Definition full_name (u : TelegramUser) : string :=
  let parts :=
    (if filled (first_name u) then [default EmptyString (first_name u)] else [])
    ++ (if filled (last_name u) then [default EmptyString (last_name u)] else []) in
  match parts with
  | [] => "Unknown"%string
  | _ => String.concat " " parts
  end.

(** [TelegramUser.display_name]. *)
Definition display_name (u : TelegramUser) : string :=
  if filled (username u)
  then String "@" (default EmptyString (username u))
  else full_name u.

(** *** Paths *)

Module Path.

(** [s.endswith(suffix)]: [suffix] is what is left of [s] from some
    position on. *)
Fixpoint endswith (s suffix : string) : bool :=
  String.eqb s suffix ||
  match s with
  | EmptyString => false
  | String _ s' => endswith s' suffix
  end.

(** [os.path.join(a, b)] of [posixpath]. *)
Definition join (a b : string) : string :=
  if Py.startswith b "/" then b
  else if negb (Py.nonempty a) || endswith a "/" then a ++ b
  else a ++ "/" ++ b.

End Path.

(** *** The batch ([processors/user_processor.py]) *)

(** What the processor reads of the file system: whether a path exists;
    of the archive at a path, the names [namelist] gives and, after the
    extraction, the directories that [os.walk] visits with their files
    ([None] when opening or extracting the archive raises); and what
    [json.load] and BeautifulSoup make of the file at a path, as the
    parsers take it. *)
Record Files : Type := mkFiles {
  path_exists : string -> bool;
  zip_archive : string -> option (list string * list (string * list string));
  json_file : string -> option json;
  html_file : string -> option (list html_message)
}.

Section Batch.
Context `{RT : Runtime}.
Variable fs : Files.

Definition chat_file (file : string) : bool :=
  Path.endswith file ".json" || Path.endswith file ".html".

(** [UserProcessor._extract_zip]: the JSON and HTML files of the archive;
    the handlers return the empty list. *)
Definition _extract_zip (zip_path : string) : list string :=
  match zip_archive fs zip_path with
  | None => []
  | Some (namelist, walked) =>
      match namelist with
      | [] => []
      | _ =>
          flat_map (fun '(root, files) =>
                      map (Path.join root) (List.filter chat_file files))
                   walked
      end
  end.

(** The first loop of [process_files]: the files to read. *)
Definition gather (file_paths : list string) : list string :=
  fold_left
    (fun extracted_files file_path =>
       if negb (path_exists fs file_path) then extracted_files
       else if Path.endswith file_path ".zip"
            then extracted_files ++ _extract_zip file_path
            else extracted_files ++ [file_path])
    file_paths [].

(** One turn of the second loop: a new parser reads the file, and a roster
    that is not empty is merged. *)
Definition process_file (agg : list (Z * TelegramUser)) (file_path : string)
  : list (Z * TelegramUser) :=
  let parsed :=
    if Path.endswith file_path ".json"
    then Some (returned (JSONParser_parse (json_file fs file_path)))
    else if Path.endswith file_path ".html"
         then Some (returned (HTMLParser_parse (html_file fs file_path)))
         else None in
  match parsed with
  | Some (u :: us) => _merge_users agg (u :: us)
  | _ => agg
  end.

(** [UserProcessor.process_files] on the dict [self.users]: the dict after
    the call, and the list returned. *)
Definition process_files (agg : list (Z * TelegramUser)) (file_paths : list string)
  : list (Z * TelegramUser) * list TelegramUser :=
  match gather file_paths with
  | [] => (agg, [])
  | extracted_files =>
      let agg := fold_left process_file extracted_files agg in
      (agg, map snd agg)
  end.

End Batch.

(** [UserProcessor().process_files(file_paths)]: the roster of a batch read
    by a new processor. *)
Definition batch `{RT : Runtime} (fs : Files) (file_paths : list string)
  : list TelegramUser :=
  snd (process_files fs [] file_paths).

(** *** The workbook ([processors/export_processor.py]) *)

(** The two sheets of the workbook, by their titles: the participants and
    the channels. *)
Inductive sheet_title : Type := Participants | Channels.

(** The dict [unique_users_dict] of [_generate_excel_export] (lines
    61-64): the first user of every key. *)
Definition unique_users_dict (users : list TelegramUser) : list (Z * TelegramUser) :=
  fold_left
    (fun d user =>
       match users_get d (user_id user) with
       | Some _ => d
       | None => users_set d (user_id user) user
       end)
    users [].

(** [user.has_channel is True]. *)
Definition is_true (o : option bool) : bool :=
  match o with
  | Some true => true
  | _ => false
  end.

(** The two lists of lines 83-91, [regular_users] and [channel_users]. *)
Definition categories (users : list TelegramUser)
  : list TelegramUser * list TelegramUser :=
  fold_left
    (fun '(regular_users, channel_users) user =>
       if is_true (has_channel user)
       then (regular_users, channel_users ++ [user])
       else (regular_users ++ [user], channel_users))
    users ([], []).

(** The sheets that [_generate_excel_export] creates, in their order, each
    with the users written to it (lines 60-106). *)
Definition sheets (users : list TelegramUser) : list (sheet_title * list TelegramUser) :=
  let users := map snd (unique_users_dict users) in
  let '(regular_users, channel_users) := categories users in
  (match regular_users with [] => [] | _ => [(Participants, regular_users)] end)
  ++ (match channel_users with [] => [] | _ => [(Channels, channel_users)] end)
  ++ (match regular_users, channel_users with
      | [], [] => [(Participants, users)]
      | _, _ => []
      end).

(** ** Notions used in the further proofs *)

(** A field that is filled when blank (phone, mention, name parts, bio in
    [_add_user]). *)
Definition fill (old new : option string) : option string :=
  if negb (filled old) && filled new then new else old.

(** A user as an extractor hands it to [_add_user]: the fields of the
    first message and of the first reaction are unset, and a deleted user
    has key 0. *)
Definition new_sighting (u : TelegramUser) : bool :=
  extracted (mkObservation u None JNull None JNull).

(** Every date of the tables is of kind [a]. *)
Definition tables_of_kind (a : bool) (st : Parser) : Prop :=
  (forall k, kind_of a (user_first_message_date st !! k) = true) /\
  (forall k, kind_of a (user_first_reaction_date st !! k) = true).

(** The identities agree with the table of the earliest message on their
    registration date. *)
Definition registered_in_step (st : Parser) : Prop :=
  forall k u, users_get (users st) k = Some u ->
    registration_date u = user_first_message_date st !! k.

(** The least of a list of times, [None] for the empty list. *)
Definition least (l : list Z) : option Z :=
  match l with
  | [] => None
  | t :: l' => Some (fold_left Z.min l' t)
  end.

(** The dates of the messages, and of the reactions, observed for key
    [k]. *)
Definition message_times (k : Z) (obs : list Observation) : list datetime :=
  omap (fun o => if user_id (seen o) =? k then message_date o else None) obs.

Definition reaction_times (k : Z) (obs : list Observation) : list datetime :=
  omap (fun o => if user_id (seen o) =? k then reaction_date o else None) obs.

(** The date of kind [a] at the least of the instants of a list of dates,
    [None] for the empty list. *)
Definition least_date (a : bool) (l : list datetime) : option datetime :=
  mkDate a <$> least (map instant l).

(** The users of the observations of key [k] that are not tombstones, in
    the order of the observations. *)
Definition sightings (k : Z) (obs : list Observation) : list TelegramUser :=
  List.filter (fun s => negb (is_deleted s) && (user_id s =? k)) (map seen obs).

(** The fields of [TelegramUser] that [_add_user] fills when they are
    blank (lines 196-207). *)
Definition blank_filled : list (TelegramUser -> option string) :=
  [phone_number; mention; first_name; last_name; bio].

(** The first occurrences of a list of keys, in their order. *)
Fixpoint first_keys (l : list Z) : list Z :=
  match l with
  | [] => []
  | k :: l' => k :: List.filter (fun k' => negb (k' =? k)) (first_keys l')
  end.

(** The keys of the users that are not deleted. *)
Definition live_keys (us : list TelegramUser) : list Z :=
  map user_id (List.filter (fun s => negb (is_deleted s)) us).

(** Is key [k] one of [ks]? *)
Definition has_key (ks : list Z) (k : Z) : bool := existsb (Z.eqb k) ks.

(** A dict that gets a value for each of the keys [l] in turn. *)
Definition add_key (ks : list Z) (k : Z) : list Z :=
  if has_key ks k then ks else ks ++ [k].

(** A path that [process_files] passes over: it does not exist, or it is
    an archive that cannot be read, or it is no archive and has neither
    the suffix of a JSON file nor that of an HTML file. *)
Definition passed_over (fs : Files) (p : string) : bool :=
  negb (path_exists fs p)
  || (if Path.endswith p ".zip" then unset (zip_archive fs p)
      else negb (chat_file p)).

(** The files that one path of the batch stands for. *)
Definition listed (fs : Files) (p : string) : list string :=
  if negb (path_exists fs p) then []
  else if Path.endswith p ".zip" then _extract_zip fs p else [p].

(** The last character of a text. *)
Fixpoint last_char (s : string) : option ascii :=
  match s with
  | EmptyString => None
  | String c EmptyString => Some c
  | String _ s' => last_char s'
  end.

(** A dict of the aggregator in good order: distinct keys, every user
    under its own key, no deleted user. *)
Definition sound (agg : list (Z * TelegramUser)) : Prop :=
  List.NoDup (keys agg) /\
  List.Forall (fun kv => user_id (snd kv) = fst kv /\ is_deleted (snd kv) = false) agg.

(** A file system to run the batch on examples: every path exists but
    [missing.json], no archive can be read, and every JSON file holds one
    message of Bob Lee. *)
Definition sample_files : Files :=
  mkFiles (fun p => negb (String.eqb p "missing.json"))
          (fun _ => None)
          (fun _ => Some (export [author_message "Bob Lee" "user7"]))
          (fun _ => None).

(** The sheet of a user. *)
Definition sheet_of (u : TelegramUser) : sheet_title :=
  if is_true (has_channel u) then Channels else Participants.

(** The rows of all the sheets. *)
Definition rows (plan : list (sheet_title * list TelegramUser)) : list TelegramUser :=
  flat_map snd plan.

(** A user of whom only the key, the names, the mention-only flag and the
    time of the first message may be known. *)
Definition plain (u : TelegramUser) : Prop :=
  has_channel u = None /\ is_bot u = false /\ bio u = None /\
  phone_number u = None /\ mention u = None /\ birth_date u = None /\
  first_message_id u = None /\ first_reaction_date u = None /\
  first_reaction_emoji u = None.

(** A parser that has seen no message id and no reaction, and holds plain
    users only. *)
Definition plain_state (st : Parser) : Prop :=
  user_first_message_id st = ∅ /\ user_first_reaction_date st = ∅ /\
  user_first_reaction_emoji st = ∅ /\
  List.Forall (fun kv => plain (snd kv)) (users st).

(** The user that the HTML parser makes of the name on a message: the key
    is the hash of the name, the name parts are those of the name. *)
Definition html_user `{RT : Runtime} (full_name : string) : TelegramUser :=
  let name_parts := Py.split1 full_name in
  set_last_name match name_parts with _ :: p :: _ => Some p | _ => None end
    (set_first_name (Some match name_parts with p :: _ => p | [] => "Unknown"%string end)
       (new_user (hash full_name))).

(** The observations of one message of the HTML export: its author, when
    the name is not blank, with the date of the message; then the handles
    of its text. *)
Definition html_observations `{RT : Runtime} (m : html_message) : list Observation :=
  match from_name_element m with
  | Some el =>
      if Py.nonempty (Py.strip el)
      then [mkObservation (html_user (Py.strip el)) (_extract_message_date_from_html m)
                          JNull None JNull]
      else []
  | None => []
  end
  ++ match text_element m with
     | Some text =>
         map (fun handle => mkObservation (mentioned_user handle) None JNull None JNull)
             (_extract_mentioned_users (Some text))
     | None => []
     end.

(** The keys that one message of the HTML export brings: the hash of the
    name of its author, when the name is not blank, then the hashes of
    the handles in its text. *)
Definition html_keys `{RT : Runtime} (m : html_message) : list Z :=
  match from_name_element m with
  | Some el => if Py.nonempty (Py.strip el) then [hash (Py.strip el)] else []
  | None => []
  end
  ++ match text_element m with
     | Some text => map hash (_extract_mentioned_users (Some text))
     | None => []
     end.

(** A mention that is unset or begins with the sign [@]. *)
Definition mention_ok (u : TelegramUser) : Prop :=
  match mention u with
  | Some s => Py.startswith s "@" = true
  | None => True
  end.

(** Every user of the dict has property [Q]. *)
Definition kept (Q : TelegramUser -> Prop) (st : Parser) : Prop :=
  List.Forall (fun kv => Q (snd kv)) (users st).

(** A user that [_add_user] passes over, or that has property [Q]. *)
Definition passed (Q : TelegramUser -> Prop) (u : TelegramUser) : Prop :=
  is_deleted u = true \/ Q u.

(** In the tables, the id of a first message and the symbol of a first
    reaction come with a time. *)
Definition timed_tables (st : Parser) : Prop :=
  (forall k, user_first_message_date st !! k = None -> user_first_message_id st !! k = None) /\
  (forall k, user_first_reaction_date st !! k = None ->
             user_first_reaction_emoji st !! k = None).

(** The ids and the symbols of the identities are those of the tables. *)
Definition tabled (st : Parser) : Prop :=
  forall k u, users_get (users st) k = Some u ->
    (user_first_message_id st !! k = None -> first_message_id u = None) /\
    (user_first_reaction_emoji st !! k = None -> first_reaction_emoji u = None).

(** An id comes with a date, a symbol with a date. *)
Definition timed (u : TelegramUser) : Prop :=
  (first_message_date u = None -> first_message_id u = None) /\
  (first_reaction_date u = None -> first_reaction_emoji u = None).

(** The roster that the batch reads from one file: that of the parser of
    its suffix, nothing for another suffix. *)
Definition file_roster `{RT : Runtime} (fs : Files) (p : string) : list TelegramUser :=
  if Path.endswith p ".json" then returned (JSONParser_parse (json_file fs p))
  else if Path.endswith p ".html" then returned (HTMLParser_parse (html_file fs p))
  else [].

(** A user as the extractors of the JSON parser make it: a channel flag
    that is true or unknown, a mention with its sign, no mark of a mere
    mention and no birth date. *)
Definition json_user (u : TelegramUser) : Prop :=
  channel_ok u = true /\ mention_ok u /\ is_mention_only u = false /\ birth_date u = None.

(** An observation of the JSON parser. *)
Definition json_observation (o : Observation) : Prop :=
  extracted o = true /\ passed json_user (seen o).

(** A parser state reached from [BaseParser.__init__] by observations of
    the JSON parser. *)
Definition resolved_json (st : Parser) : Prop :=
  exists obs, List.Forall json_observation obs /\ st = resolve_total obs.

(** A user that the JSON parser adds. *)
Definition json_sighting (u : TelegramUser) : Prop :=
  new_sighting u = true /\ passed json_user u.

(** The dates that [_add_user] compares for key [k] and the identity [e]
    are of one kind. *)
Definition one_kind (st : Parser) (k : Z) (e : TelegramUser) : Prop :=
  (forall new old, user_first_message_date st !! k = Some new ->
                   first_message_date e = Some old -> aware new = aware old) /\
  (forall new old, user_first_reaction_date st !! k = Some new ->
                   first_reaction_date e = Some old -> aware new = aware old).

(** ** Proofs *)

(** *** Outcomes *)

Lemma obind_returned {A B} (m : outcome A) (k : A -> outcome B) b :
  obind m k = Returned b -> exists a, m = Returned a /\ k a = Returned b.
Proof. destruct m; simpl; [eauto | discriminate]. Qed.

Ltac inv_bind H :=
  let x := fresh "x" in
  let Hx := fresh "Hx" in
  apply obind_returned in H; destruct H as (x & Hx & H).

(** A property kept by every turn of a loop is kept by the loop. *)
Lemma for_each_invariant {S A} (P : S -> Prop) (body : S -> A -> outcome S) l :
  (forall s x s', P s -> body s x = Returned s' -> P s') ->
  forall s s', P s -> for_each body l s = Returned s' -> P s'.
Proof.
  intros Hbody. induction l as [|x l IH]; simpl; intros s s' Hs Hr.
  - congruence.
  - inv_bind Hr. eauto.
Qed.

Lemma fold_left_invariant {S A} (P : S -> Prop) (f : S -> A -> S) l :
  (forall s x, P s -> P (f s x)) -> forall s, P s -> P (fold_left f l s).
Proof. intros Hf. induction l; simpl; auto. Qed.

Lemma for_each_total {S A} (body : S -> A -> outcome S) (f : S -> A -> S) :
  (forall s x s', body s x = Returned s' -> s' = f s x) ->
  forall l s s', for_each body l s = Returned s' -> s' = fold_left f l s.
Proof.
  intros Hbody. induction l as [|x l IH]; simpl; intros s s' Hr.
  - congruence.
  - inv_bind Hr. apply Hbody in Hx. subst x0. auto.
Qed.

(** *** The program and its total versions *)

Lemma before_returned d old b :
  before d old = Returned b -> aware d = aware old /\ b = (instant d <? instant old).
Proof.
  unfold before. destruct (Bool.eqb (aware d) (aware old)) eqn:E; [|discriminate].
  apply Bool.eqb_prop in E. intros H. injection H as <-. auto.
Qed.

Lemma before_one_kind d old :
  aware d = aware old -> before d old = Returned (instant d <? instant old).
Proof. unfold before. intros ->. rewrite Bool.eqb_reflx. reflexivity. Qed.

Lemma before_two_kinds d old : aware d <> aware old -> before d old = Raised.
Proof.
  unfold before. intros H. destruct (Bool.eqb (aware d) (aware old)) eqn:E; [|reflexivity].
  apply Bool.eqb_prop in E. contradiction.
Qed.

Lemma note_first_message_total st uid d i st' :
  note_first_message st uid d i = Returned st' -> st' = note_total st uid d i.
Proof.
  unfold note_first_message, note_total. destruct d as [d|]; [|congruence].
  destruct (uid =? 0); [congruence|]. cbv zeta.
  destruct (user_first_message_date st !! uid) as [old|]; [|congruence].
  intros H. inv_bind H. apply before_returned in Hx. destruct Hx as [_ ->]. congruence.
Qed.

Lemma save_first_reaction_total st uid d e st' :
  _save_first_reaction st uid d e = Returned st' -> st' = save_total st uid d e.
Proof.
  unfold _save_first_reaction, save_total. destruct d as [d|]; [|congruence].
  destruct (uid =? 0); [congruence|]. cbv zeta.
  destruct (user_first_reaction_date st !! uid) as [old|]; [|congruence].
  intros H. inv_bind H. apply before_returned in Hx. destruct Hx as [_ ->]. congruence.
Qed.

Lemma take_first_message_total st k e e' :
  take_first_message st k e = Returned e' -> e' = first_message_total st k e.
Proof.
  unfold take_first_message, first_message_total. cbv zeta.
  destruct (user_first_message_date st !! k) as [new|]; [|congruence].
  intros H. inv_bind H.
  destruct (first_message_date (set_registration_date (Some new) e)) as [old|].
  - apply before_returned in Hx. destruct Hx as [_ ->].
    destruct (instant new <? instant old); congruence.
  - injection Hx as <-. congruence.
Qed.

Lemma take_first_reaction_total st k e e' :
  take_first_reaction st k e = Returned e' -> e' = first_reaction_total st k e.
Proof.
  unfold take_first_reaction, first_reaction_total.
  destruct (user_first_reaction_date st !! k) as [new|]; [|congruence].
  intros H. inv_bind H.
  destruct (first_reaction_date e) as [old|].
  - apply before_returned in Hx. destruct Hx as [_ ->].
    destruct (instant new <? instant old); congruence.
  - injection Hx as <-. congruence.
Qed.

Lemma merge_existing_total st e u e' :
  merge_existing st e u = Returned e' -> e' = merge_total st e u.
Proof.
  unfold merge_existing, merge_total. cbv zeta. intros H. do 2 inv_bind H.
  apply take_first_message_total in Hx. apply take_first_reaction_total in Hx0.
  congruence.
Qed.

Lemma add_user_total st u st' : _add_user st u = Returned st' -> st' = add_total st u.
Proof.
  unfold _add_user, add_total. destruct (is_deleted u); [congruence|]. cbv zeta.
  destruct (users_get (users st) (user_id u)) as [e|]; [|congruence].
  intros H. inv_bind H. apply merge_existing_total in Hx. congruence.
Qed.

Lemma observe_sound st o st' : observe st o = Returned st' -> st' = observe_total st o.
Proof.
  unfold observe, observe_total. intros H. do 2 inv_bind H.
  apply note_first_message_total in Hx. apply save_first_reaction_total in Hx0.
  apply add_user_total in H. congruence.
Qed.

Lemma resolve_sound obs st : resolve obs = Returned st -> st = resolve_total obs.
Proof. apply for_each_total. exact observe_sound. Qed.

(** The roster of a resolution is that of its total version, or empty. *)
Lemma unique_identities_cases obs :
  (resolves obs = false /\ unique_identities obs = []) \/
  (resolves obs = true /\ resolve obs = Returned (resolve_total obs) /\
   unique_identities obs = identities_total obs).
Proof.
  unfold resolves, unique_identities, identities_total.
  destruct (resolve obs) as [st|] eqn:E; [right | left; auto].
  apply resolve_sound in E. subst st. auto.
Qed.

Lemma In_unique_identities obs u :
  In u (unique_identities obs) -> In u (identities_total obs).
Proof.
  destruct (unique_identities_cases obs) as [[_ ->]|(_ & _ & ->)]; [contradiction | auto].
Qed.

(** Pass from a call that has returned to its total version. *)
Ltac total H :=
  first [ apply add_user_total in H
        | apply note_first_message_total in H
        | apply save_first_reaction_total in H
        | apply observe_sound in H
        | apply (for_each_total _ _ add_user_total) in H
        | apply (for_each_total _ (fun st x => add_total st (_ x))
                   (fun st x st' => add_user_total st _ st')) in H ].

(** *** Fields through the updates of a record *)

Lemma keep_if {A B} (P : A -> B) (c : bool) (x y : A) :
  P x = P y -> P (if c then x else y) = P y.
Proof. destruct c; auto. Qed.

Lemma keep_match {A B C} (P : A -> B) (o : option C) (f : C -> A) (y : A) :
  (forall v, P (f v) = P y) -> P (match o with Some v => f v | None => y end) = P y.
Proof. destruct o; auto. Qed.

(** Pass a projection over the updates that leave its field alone. *)
Ltac peel :=
  repeat match goal with
    | |- context [?P (if ?c then ?x else ?y)] =>
        rewrite (keep_if P c x y) by reflexivity
    | |- context [?P (match ?o with Some v => @?f v | None => ?y end)] =>
        rewrite (keep_match P o f y) by (intros; reflexivity)
    end.

(** Case analysis on the tests of an update, innermost first. *)
Ltac case_step :=
  match goal with
  | |- context [match ?o with Some _ => _ | None => _ end] =>
      lazymatch o with
      | context [match _ with Some _ => _ | None => _ end] => fail
      | context [if _ then _ else _] => fail
      | _ => destruct o eqn:?
      end
  | |- context [if ?c then _ else _] =>
      lazymatch c with
      | context [match _ with Some _ => _ | None => _ end] => fail
      | context [if _ then _ else _] => fail
      | _ => destruct c eqn:?
      end
  end.

Ltac cases := cbv zeta; simpl; repeat (case_step; simpl); try congruence.

(** The fields an update leaves alone. *)

Ltac frame f := unfold f; cbv zeta; peel; cases.

Section Fields.
Variables (st : Parser) (k : Z) (user e : TelegramUser).

Lemma user_id_clear_mention_only : user_id (clear_mention_only user e) = user_id e.
Proof. frame clear_mention_only. Qed.

Lemma has_channel_clear_mention_only : has_channel (clear_mention_only user e) = has_channel e.
Proof. frame clear_mention_only. Qed.

Lemma first_message_date_clear_mention_only : first_message_date (clear_mention_only user e) = first_message_date e.
Proof. frame clear_mention_only. Qed.

Lemma first_reaction_date_clear_mention_only : first_reaction_date (clear_mention_only user e) = first_reaction_date e.
Proof. frame clear_mention_only. Qed.

Lemma first_reaction_emoji_clear_mention_only : first_reaction_emoji (clear_mention_only user e) = first_reaction_emoji e.
Proof. frame clear_mention_only. Qed.

Lemma user_id_take_first_message : user_id (first_message_total st k e) = user_id e.
Proof. frame first_message_total. Qed.

Lemma has_channel_take_first_message : has_channel (first_message_total st k e) = has_channel e.
Proof. frame first_message_total. Qed.

Lemma first_reaction_date_take_first_message : first_reaction_date (first_message_total st k e) = first_reaction_date e.
Proof. frame first_message_total. Qed.

Lemma first_reaction_emoji_take_first_message : first_reaction_emoji (first_message_total st k e) = first_reaction_emoji e.
Proof. frame first_message_total. Qed.

Lemma user_id_take_first_reaction : user_id (first_reaction_total st k e) = user_id e.
Proof. frame first_reaction_total. Qed.

Lemma has_channel_take_first_reaction : has_channel (first_reaction_total st k e) = has_channel e.
Proof. frame first_reaction_total. Qed.

Lemma first_message_date_take_first_reaction : first_message_date (first_reaction_total st k e) = first_message_date e.
Proof. frame first_reaction_total. Qed.

Lemma user_id_take_channel_and_username : user_id (take_channel_and_username user e) = user_id e.
Proof. frame take_channel_and_username. Qed.

Lemma first_message_date_take_channel_and_username : first_message_date (take_channel_and_username user e) = first_message_date e.
Proof. frame take_channel_and_username. Qed.

Lemma first_reaction_date_take_channel_and_username : first_reaction_date (take_channel_and_username user e) = first_reaction_date e.
Proof. frame take_channel_and_username. Qed.

Lemma first_reaction_emoji_take_channel_and_username : first_reaction_emoji (take_channel_and_username user e) = first_reaction_emoji e.
Proof. frame take_channel_and_username. Qed.

Lemma user_id_fill_blanks : user_id (fill_blanks user e) = user_id e.
Proof. frame fill_blanks. Qed.

Lemma has_channel_fill_blanks : has_channel (fill_blanks user e) = has_channel e.
Proof. frame fill_blanks. Qed.

Lemma first_message_date_fill_blanks : first_message_date (fill_blanks user e) = first_message_date e.
Proof. frame fill_blanks. Qed.

Lemma first_reaction_date_fill_blanks : first_reaction_date (fill_blanks user e) = first_reaction_date e.
Proof. frame fill_blanks. Qed.

Lemma first_reaction_emoji_fill_blanks : first_reaction_emoji (fill_blanks user e) = first_reaction_emoji e.
Proof. frame fill_blanks. Qed.

End Fields.

Create Rewrite HintDb fields.

#[local] Hint Rewrite
  user_id_clear_mention_only has_channel_clear_mention_only
  first_message_date_clear_mention_only
  first_reaction_date_clear_mention_only
  first_reaction_emoji_clear_mention_only user_id_take_first_message
  has_channel_take_first_message first_reaction_date_take_first_message
  first_reaction_emoji_take_first_message user_id_take_first_reaction
  has_channel_take_first_reaction first_message_date_take_first_reaction
  user_id_take_channel_and_username
  first_message_date_take_channel_and_username
  first_reaction_date_take_channel_and_username
  first_reaction_emoji_take_channel_and_username user_id_fill_blanks
  has_channel_fill_blanks first_message_date_fill_blanks
  first_reaction_date_fill_blanks first_reaction_emoji_fill_blanks : fields.

(** The fields an update sets. *)

Lemma first_message_date_take_first_message st k e :
  first_message_date (first_message_total st k e) =
  match user_first_message_date st !! k with
  | Some new => Some (earlier new (first_message_date e))
  | None => first_message_date e
  end.
Proof. unfold first_message_total, earlier. cases. Qed.

Lemma first_reaction_date_take_first_reaction st k e :
  first_reaction_date (first_reaction_total st k e) =
  match user_first_reaction_date st !! k with
  | Some new => Some (earlier new (first_reaction_date e))
  | None => first_reaction_date e
  end.
Proof. unfold first_reaction_total, earlier. cases. Qed.

Lemma has_channel_take_channel_and_username user e :
  has_channel (take_channel_and_username user e) =
  match has_channel user with
  | Some c => Some c
  | None => has_channel e
  end.
Proof. unfold take_channel_and_username. cases. Qed.

#[local] Hint Rewrite first_message_date_take_first_message
  first_reaction_date_take_first_reaction
  has_channel_take_channel_and_username : fields.

Lemma user_id_merge_existing st e user :
  user_id (merge_total st e user) = user_id e.
Proof. unfold merge_total. cbv zeta. autorewrite with fields. reflexivity. Qed.

Lemma has_channel_merge_existing st e user :
  has_channel (merge_total st e user) =
  match has_channel user with
  | Some c => Some c
  | None => has_channel e
  end.
Proof. unfold merge_total. cbv zeta. autorewrite with fields. reflexivity. Qed.

Lemma first_message_date_merge_existing st e user :
  first_message_date (merge_total st e user) =
  match user_first_message_date st !! user_id user with
  | Some new => Some (earlier new (first_message_date e))
  | None => first_message_date e
  end.
Proof. unfold merge_total. cbv zeta. autorewrite with fields. reflexivity. Qed.

Lemma first_reaction_date_merge_existing st e user :
  first_reaction_date (merge_total st e user) =
  match user_first_reaction_date st !! user_id user with
  | Some new => Some (earlier new (first_reaction_date e))
  | None => first_reaction_date e
  end.
Proof. unfold merge_total. cbv zeta. autorewrite with fields. reflexivity. Qed.

Lemma user_id_first_sighting st user : user_id (first_sighting st user) = user_id user.
Proof. frame first_sighting. Qed.

Lemma has_channel_first_sighting st user :
  has_channel (first_sighting st user) = has_channel user.
Proof. frame first_sighting. Qed.

Lemma first_message_date_first_sighting st user :
  first_message_date (first_sighting st user) =
  match user_first_message_date st !! user_id user with
  | Some d => Some d
  | None => first_message_date user
  end.
Proof. frame first_sighting. Qed.

Lemma first_reaction_date_first_sighting st user :
  first_reaction_date (first_sighting st user) =
  match user_first_reaction_date st !! user_id user with
  | Some d => Some d
  | None => first_reaction_date user
  end.
Proof. frame first_sighting. Qed.

Lemma user_id_fill_missing st k user : user_id (fill_missing st k user) = user_id user.
Proof. frame fill_missing. Qed.

Lemma has_channel_fill_missing st k user :
  has_channel (fill_missing st k user) = has_channel user.
Proof. frame fill_missing. Qed.

Lemma first_message_date_fill_missing st k user :
  first_message_date (fill_missing st k user) =
  match first_message_date user with
  | Some t => Some t
  | None => user_first_message_date st !! k
  end.
Proof. frame fill_missing. Qed.

Lemma first_reaction_date_fill_missing st k user :
  first_reaction_date (fill_missing st k user) =
  match first_reaction_date user with
  | Some t => Some t
  | None => user_first_reaction_date st !! k
  end.
Proof. frame fill_missing. Qed.

(** *** The dict of users *)

Lemma users_get_set_eq us k u : users_get (users_set us k u) k = Some u.
Proof.
  induction us as [|[k' u'] us IH]; simpl.
  - rewrite Z.eqb_refl. reflexivity.
  - destruct (k =? k') eqn:E; simpl; rewrite ?Z.eqb_refl, ?E; auto.
Qed.

Lemma users_get_set_ne us k k' u :
  k <> k' -> users_get (users_set us k u) k' = users_get us k'.
Proof.
  intros Hne. induction us as [|[k0 u0] us IH]; simpl.
  - destruct (k' =? k) eqn:E; [apply Z.eqb_eq in E; congruence | reflexivity].
  - destruct (k =? k0) eqn:E; simpl.
    + apply Z.eqb_eq in E. subst k0.
      destruct (k' =? k) eqn:E'; [apply Z.eqb_eq in E'; congruence | reflexivity].
    + destruct (k' =? k0); auto.
Qed.

Lemma users_get_In us k u : users_get us k = Some u -> In (k, u) us.
Proof.
  induction us as [|[k' u'] us IH]; simpl; [discriminate|].
  destruct (k =? k') eqn:E; intros H.
  - apply Z.eqb_eq in E. left. congruence.
  - right. auto.
Qed.

Lemma In_users_get us k u : List.NoDup (keys us) -> In (k, u) us -> users_get us k = Some u.
Proof.
  induction us as [|[k' u'] us IH]; simpl; [tauto|].
  intros Hnd. apply List.NoDup_cons_iff in Hnd. destruct Hnd as [Hk' Hnd].
  intros [Heq|Hin].
  - injection Heq as -> ->. rewrite Z.eqb_refl. reflexivity.
  - destruct (k =? k') eqn:E; [|auto].
    apply Z.eqb_eq in E. subst k'. exfalso. apply Hk'.
    change k with (fst (k, u)). apply in_map. exact Hin.
Qed.

Lemma In_keys_users_set us k u k' :
  In k' (keys (users_set us k u)) <-> k' = k \/ In k' (keys us).
Proof.
  induction us as [|[k0 u0] us IH]; simpl.
  - intuition.
  - destruct (k =? k0) eqn:E; simpl.
    + apply Z.eqb_eq in E. subst k0. intuition.
    + rewrite IH. intuition.
Qed.

Lemma NoDup_keys_users_set us k u : List.NoDup (keys us) -> List.NoDup (keys (users_set us k u)).
Proof.
  induction us as [|[k0 u0] us IH]; simpl; intros Hnd.
  - constructor; [simpl; tauto | constructor].
  - apply List.NoDup_cons_iff in Hnd. destruct Hnd as [Hk0 Hnd].
    destruct (k =? k0) eqn:E; simpl.
    + apply Z.eqb_eq in E. subst k0. constructor; assumption.
    + apply Z.eqb_neq in E. constructor; [|auto].
      fold (keys (users_set us k u)). rewrite In_keys_users_set. intros [?|?]; auto.
Qed.

Lemma Forall_users_set (Q : TelegramUser -> Prop) us k u :
  List.Forall (fun kv => Q (snd kv)) us -> Q u ->
  List.Forall (fun kv => Q (snd kv)) (users_set us k u).
Proof.
  intros Hus Hu. induction us as [|[k0 u0] us IH]; simpl.
  - repeat constructor. exact Hu.
  - inversion Hus; subst. destruct (k =? k0); constructor; auto.
Qed.

(** *** [add_total] *)

Lemma add_user_deleted st u : is_deleted u = true -> add_total st u = st.
Proof. unfold add_total. intros ->. reflexivity. Qed.

Lemma users_add_user st u :
  is_deleted u = false ->
  users (add_total st u) = users_set (users st) (user_id u) (recorded st u).
Proof.
  unfold add_total, recorded. intros ->.
  destruct (users_get (users st) (user_id u)); reflexivity.
Qed.

Lemma maps_add_user st u :
  user_first_message_date (add_total st u) = user_first_message_date st /\
  user_first_message_id (add_total st u) = user_first_message_id st /\
  user_first_reaction_date (add_total st u) = user_first_reaction_date st /\
  user_first_reaction_emoji (add_total st u) = user_first_reaction_emoji st.
Proof.
  unfold add_total. destruct (is_deleted u); [auto|].
  destruct (users_get (users st) (user_id u)); simpl; auto.
Qed.

Lemma users_note_first_message st k d i : users (note_total st k d i) = users st.
Proof. unfold note_total. cases. Qed.

Lemma users_save_first_reaction st k d e : users (save_total st k d e) = users st.
Proof. unfold save_total. cases. Qed.

Lemma Forall_add_user (Q : TelegramUser -> Prop) st u :
  (forall e, Q e -> Q (merge_total st e u)) ->
  Q (first_sighting st u) ->
  List.Forall (fun kv => Q (snd kv)) (users st) ->
  List.Forall (fun kv => Q (snd kv)) (users (add_total st u)).
Proof.
  intros Hm Hf Hus. destruct (is_deleted u) eqn:Ed.
  - rewrite add_user_deleted by assumption. exact Hus.
  - rewrite users_add_user by assumption. apply Forall_users_set; [exact Hus|].
    unfold recorded. destruct (users_get (users st) (user_id u)) as [e|] eqn:Eg; [|exact Hf].
    apply Hm. apply users_get_In in Eg.
    rewrite List.Forall_forall in Hus. exact (Hus _ Eg).
Qed.

(** *** What the extraction of an author returns *)

Section Extraction.
Context `{RT : Runtime}.

Lemma detect_channel_cases bio ud :
  _detect_channel_in_profile bio ud = Raised \/
  _detect_channel_in_profile bio ud = Returned None \/
  _detect_channel_in_profile bio ud = Returned (Some true).
Proof.
  unfold _detect_channel_in_profile.
  destruct (truthy bio); simpl; [|auto].
  destruct bio; auto.
  do 2 (match goal with |- context [if ?c then _ else _] => destruct c end; auto).
Qed.

Lemma author_by_name_result name fid r :
  author_by_name name fid = Returned r ->
  r = Early None \/ exists u, r = Built u /\ has_channel u = None /\ is_deleted u = false.
Proof.
  unfold author_by_name. intros Hr. inv_bind Hr.
  destruct x as [uid|]; injection Hr as <-; [right|left; reflexivity].
  eexists; split; [reflexivity|]. split; reflexivity.
Qed.

Lemma author_by_object_result from_field r :
  author_by_object from_field = Returned r ->
  r = Early (Some deleted_user) \/
  exists u, r = Built u /\ channel_ok u = true /\ is_deleted u = false.
Proof.
  unfold author_by_object. intros Hr.
  match type of Hr with context [if ?c then _ else _] => destruct c end.
  - left. congruence.
  - right. repeat inv_bind Hr. injection Hr as <-.
    eexists; split; [reflexivity|]. split; [|reflexivity].
    unfold channel_ok; simpl.
    match type of Hx with _detect_channel_in_profile ?b ?u = _ =>
      destruct (detect_channel_cases b u) as [E|[E|E]]; rewrite E in Hx end;
    inversion Hx; reflexivity.
Qed.

Lemma decode_author_result md r :
  decode_author md = Returned r ->
  r = Early None \/ r = Early (Some deleted_user) \/
  exists u, r = Built u /\ channel_ok u = true /\ is_deleted u = false.
Proof.
  unfold decode_author. intros Hr. inv_bind Hr.
  destruct (dict_get x "from" JNull);
    try (apply author_by_object_result in Hr; destruct Hr as [Hr|Hr]; auto).
  apply author_by_name_result in Hr. destruct Hr as [Hr|(u & -> & Hc & Hd)]; auto.
  right; right. exists u. unfold channel_ok. rewrite Hc. auto.
Qed.

Lemma extract_user_result st md d i st' r :
  _extract_user_from_message st md d i = (st', r) ->
  users st' = users st /\
  forall u, r = Some u ->
    channel_ok u = true /\ (is_deleted u = true -> u = deleted_user /\ st' = st).
Proof.
  unfold _extract_user_from_message.
  destruct (decode_author md) as [r0|] eqn:Ed.
  - apply decode_author_result in Ed.
    destruct Ed as [->|[->|(u0 & -> & Hc & Hd)]].
    + intros H; injection H as <- <-. split; [reflexivity | discriminate].
    + intros H; injection H as <- <-.
      split; [reflexivity|]. intros u Hu. injection Hu as <-. auto.
    + destruct (note_first_message st (user_id u0) d i) as [st1|] eqn:En;
        intros H; injection H as <- <-.
      * apply note_first_message_total in En. subst st1.
        split; [apply users_note_first_message|].
        intros u Hu. injection Hu as <-. split; [assumption | congruence].
      * split; [reflexivity | discriminate].
  - intros H; injection H as <- <-. split; [reflexivity | discriminate].
Qed.

End Extraction.

(** C9.  Every user the extractor returns with the deletion flag set is the
    one tombstone: key 0, given name "Deleted Account", nothing of the
    participant it stands for; and the call leaves the parser as it was. *)
Theorem deletion_observation_is_anonymous `{RT : Runtime}
    (st st' : Parser) (message_data : json) (d : option datetime) (i : json)
    (u : TelegramUser) :
  _extract_user_from_message st message_data d i = (st', Some u) ->
  is_deleted u = true ->
  u = deleted_user /\ user_id u = 0 /\
  first_name u = Some "Deleted Account"%string /\ st' = st.
Proof.
  intros He Hd. apply extract_user_result in He. destruct He as [_ He].
  destruct (He u eq_refl) as [_ Hu]. destruct (Hu Hd) as [-> ->].
  repeat split.
Qed.

Lemma deletion_observation_is_anonymous_witness :
  let tombstone :=
    JDict [("from", JDict [("id", JStr "deleted_account");
                           ("first_name", JStr "Ann")])]%string in
  _extract_user_from_message init tombstone (Some (naive 5)) (JInt 1) = (init, Some deleted_user) /\
  user_id deleted_user = 0.
Proof.
  split; [reflexivity|].
  apply (deletion_observation_is_anonymous init init
           (JDict [("from", JDict [("id", JStr "deleted_account");
                                   ("first_name", JStr "Ann")])]%string)
           (Some (naive 5)) (JInt 1) deleted_user); reflexivity.
Defined.

(** *** The mention scanner *)

(** The character class of the regular expression is the one the
    specification lists. *)
Lemma handle_char_pattern c : handle_char c = pattern_char c.
Proof. destruct c as [[] [] [] [] [] [] [] []]; reflexivity. Qed.

#[local] Arguments pattern_char : simpl never.
#[local] Arguments handle_char : simpl never.

Lemma take_handle_cons n c s :
  take_handle (S n) (String c s) =
  if pattern_char c then String c (take_handle n s) else EmptyString.
Proof. rewrite <- handle_char_pattern. reflexivity. Qed.

Lemma take_handle_spec n s :
  exists rest,
    s = (take_handle n s ++ rest)%string /\
    handle_chars (take_handle n s) = true /\
    (String.length (take_handle n s) <= n)%nat /\
    (String.length (take_handle n s) = n \/ stops rest = true).
Proof.
  revert s. induction n as [|n IH]; intros s.
  - exists s. simpl. auto.
  - destruct s as [|c s]; [|rewrite take_handle_cons].
    + exists EmptyString. simpl. auto with arith.
    + destruct (pattern_char c) eqn:Ec.
      * destruct (IH s) as (rest & Hs & Hh & Hl & Hstop).
        exists rest. split; [|split; [|split]].
        -- simpl. f_equal. exact Hs.
        -- unfold handle_chars in *. simpl. rewrite Ec. exact Hh.
        -- simpl. lia.
        -- simpl. destruct Hstop; [left; lia | right; assumption].
      * exists (String c s). split; [|split; [|split]]; simpl; auto with arith.
        right. rewrite Ec. reflexivity.
Qed.

(** Passing over the characters of a match. *)
Lemma findall_from_skip h rest :
  findall_from (String.length h) (h ++ rest) = findall_from 0 rest.
Proof.
  induction h as [|c h IH]; simpl.
  - destruct rest; reflexivity.
  - exact IH.
Qed.

Lemma findall_from_cons c s :
  findall_from 0 (String c s) =
  if Ascii.eqb c "@" then
    if (5 <=? String.length (take_handle 32 s))%nat
    then take_handle 32 s :: findall_from (String.length (take_handle 32 s)) s
    else findall_from 0 s
  else findall_from 0 s.
Proof. reflexivity. Qed.

Lemma scan_findall text : scan text (findall text).
Proof.
  unfold findall.
  remember (String.length text) as n eqn:Hn.
  assert (String.length text <= n)%nat as Hle by lia. clear Hn.
  revert text Hle. induction n as [|n IH]; intros text Hle.
  - destruct text; simpl in Hle; [constructor | lia].
  - destruct text as [|c s]; [constructor|]. simpl in Hle.
    rewrite findall_from_cons.
    destruct (Ascii.eqb c "@") eqn:Ec.
    + apply Ascii.eqb_eq in Ec. subst c.
      destruct (take_handle_spec 32 s) as (rest & Hs & Hh & Hl & Hstop).
      remember (take_handle 32 s) as h eqn:Eh. clear Eh.
      assert (String.length rest <= n)%nat as Hrest.
      { assert (String.length s = String.length h + String.length rest)%nat as E.
        { rewrite Hs at 1. clear. induction h; simpl; auto. }
        lia. }
      destruct (5 <=? String.length h)%nat eqn:E5.
      * apply Nat.leb_le in E5. rewrite Hs.
        rewrite findall_from_skip. apply scan_handle; [| |apply IH; exact Hrest].
        -- unfold valid_handle. fold (handle_chars h). rewrite Hh.
           rewrite (proj2 (Nat.leb_le _ _) E5), (proj2 (Nat.leb_le _ _) Hl).
           reflexivity.
        -- exact Hstop.
      * apply Nat.leb_gt in E5. rewrite Hs at 1.
        apply scan_short; [exact Hh | exact E5 | | rewrite <- Hs; apply IH; lia].
        destruct Hstop; [lia | assumption].
    + apply scan_other; [exact Ec | apply IH; lia].
Qed.

Lemma contains_cons p c s : Py.contains p s = true -> Py.contains p (String c s) = true.
Proof. intros H. simpl. rewrite H. apply orb_true_r. Qed.

Lemma contains_app p h s : Py.contains p s = true -> Py.contains p (h ++ s) = true.
Proof. induction h; simpl; intros H; [exact H|]. rewrite (IHh H). apply orb_true_r. Qed.

Lemma prefix_app p s : String.prefix p (p ++ s) = true.
Proof.
  induction p as [|c p IH]; simpl; [destruct s; reflexivity|].
  destruct (ascii_dec c c); [exact IH | congruence].
Qed.

Lemma contains_prefix p s : Py.contains p (p ++ s) = true.
Proof.
  destruct p as [|c p]; [destruct s; reflexivity|].
  change (Py.contains (String c p) (String c p ++ s))
    with (String.prefix (String c p) (String c p ++ s) || Py.contains (String c p) (p ++ s)).
  rewrite prefix_app. reflexivity.
Qed.

(** The run of handle characters that the regular expression takes is
    the one of the scan. *)
Lemma take_handle_app n h rest :
  handle_chars h = true -> (String.length h <= n)%nat ->
  String.length h = n \/ stops rest = true ->
  take_handle n (h ++ rest) = h.
Proof.
  revert h. induction n as [|n IH]; intros h Hh Hl Hstop.
  - destruct h; [reflexivity | simpl in Hl; lia].
  - destruct h as [|c h].
    + destruct Hstop as [Hs|Hs]; [discriminate Hs|].
      destruct rest as [|c r]; [reflexivity|].
      change (EmptyString ++ String c r)%string with (String c r).
      rewrite take_handle_cons. simpl in Hs. apply negb_true_iff in Hs. rewrite Hs.
      reflexivity.
    + change (String c h ++ rest)%string with (String c (h ++ rest)).
      rewrite take_handle_cons. unfold handle_chars in Hh. simpl in Hh.
      apply andb_true_iff in Hh. destruct Hh as [Hc Hh]. rewrite Hc. f_equal.
      apply IH; [exact Hh | simpl in Hl; lia|].
      destruct Hstop as [Hs|Hs]; [left; simpl in Hs; lia | right; exact Hs].
Qed.

Lemma length_take_handle n s : (String.length (take_handle n s) <= n)%nat.
Proof. destruct (take_handle_spec n s) as (_ & _ & _ & H & _). exact H. Qed.

(** The scan has one result. *)
Lemma scan_unique text l : scan text l -> l = findall text.
Proof.
  unfold findall.
  induction 1 as [|c s l Hc Hs IH|h rest l Hv Hstop Hs IH|h rest l Hh Hl Hstop Hs IH].
  - reflexivity.
  - rewrite findall_from_cons, Hc. exact IH.
  - rewrite findall_from_cons. change (Ascii.eqb "@" "@") with true. cbv iota.
    unfold valid_handle in Hv. apply andb_true_iff in Hv. destruct Hv as [Hv Hh].
    apply andb_true_iff in Hv. destruct Hv as [H5 H32].
    apply Nat.leb_le in H32.
    rewrite (take_handle_app 32 h rest Hh H32 Hstop), H5, findall_from_skip.
    f_equal. exact IH.
  - rewrite findall_from_cons. change (Ascii.eqb "@" "@") with true. cbv iota.
    rewrite (take_handle_app 32 h rest Hh) by (auto; lia).
    apply Nat.leb_gt in Hl. rewrite Hl. exact IH.
Qed.

(** Every match of a scan is a handle of the pattern and stands in the
    text after an [@]. *)
Lemma scan_sound text l :
  scan text l ->
  List.Forall (fun h => valid_handle h = true /\
                        Py.contains (String "@" h) text = true) l.
Proof.
  induction 1 as [|c s l Hc Hs IH|h rest l Hv Hstop Hs IH|h rest l Hh Hl Hstop Hs IH].
  - constructor.
  - revert IH. apply List.Forall_impl. intros h [Hv Hin]. split; [exact Hv|].
    apply contains_cons. exact Hin.
  - constructor.
    + split; [exact Hv|]. apply (contains_prefix (String "@" h) rest).
    + revert IH. apply List.Forall_impl. intros h' [Hv' Hin]. split; [exact Hv'|].
      apply contains_cons. apply contains_app. exact Hin.
  - revert IH. apply List.Forall_impl. intros h' [Hv' Hin]. split; [exact Hv'|].
    apply contains_cons. exact Hin.
Qed.

(** The removal of repetitions. *)

Lemma filter_filter_comm {A} (p q : A -> bool) l :
  List.filter p (List.filter q l) = List.filter q (List.filter p l).
Proof.
  induction l as [|x l IH]; simpl; [reflexivity|].
  destruct (p x) eqn:Ep, (q x) eqn:Eq; simpl; rewrite ?Ep, ?Eq, IH; reflexivity.
Qed.

Lemma filter_drop_rejected (p : string -> bool) y l :
  p y = false ->
  List.filter p (List.filter (fun z => negb (String.eqb z y)) l) = List.filter p l.
Proof.
  intros Hy. induction l as [|x l IH]; simpl; [reflexivity|].
  destruct (String.eqb x y) eqn:E; simpl.
  - apply String.eqb_eq in E. subst x. rewrite Hy. exact IH.
  - rewrite IH. reflexivity.
Qed.

Lemma first_occurrences_filter p l :
  first_occurrences (List.filter p l) = List.filter p (first_occurrences l).
Proof.
  induction l as [|x l IH]; simpl; [reflexivity|].
  destruct (p x) eqn:Ep; simpl.
  - rewrite IH. f_equal. apply filter_filter_comm.
  - rewrite IH. symmetry. apply filter_drop_rejected. exact Ep.
Qed.

Lemma mem_app x acc y : mem x (acc ++ [y]) = mem x acc || String.eqb x y.
Proof.
  unfold mem. rewrite existsb_app. simpl. rewrite orb_false_r. reflexivity.
Qed.

Lemma filter_not_mem_app acc x l :
  List.filter (fun y => negb (mem y (acc ++ [x]))) l =
  List.filter (fun y => negb (String.eqb y x))
              (List.filter (fun y => negb (mem y acc)) l).
Proof.
  induction l as [|y l IH]; simpl; [reflexivity|].
  rewrite mem_app. destruct (mem y acc); simpl; [exact IH|].
  destruct (String.eqb y x); simpl; rewrite IH; reflexivity.
Qed.

Lemma append_new_spec acc l :
  append_new acc l =
  acc ++ first_occurrences (List.filter (fun y => negb (mem y acc)) l).
Proof.
  unfold append_new. revert acc.
  induction l as [|x l IH]; intros acc; simpl; [rewrite app_nil_r; reflexivity|].
  destruct (mem x acc) eqn:Em; simpl; [apply IH|].
  rewrite IH, <- List.app_assoc. simpl. do 2 f_equal.
  rewrite <- first_occurrences_filter, filter_not_mem_app. reflexivity.
Qed.

Lemma In_first_occurrences x l : In x (first_occurrences l) <-> In x l.
Proof.
  induction l as [|y l IH]; simpl; [tauto|].
  rewrite List.filter_In, IH. destruct (String.eqb x y) eqn:E.
  - apply String.eqb_eq in E. subst. intuition.
  - apply String.eqb_neq in E. intuition congruence.
Qed.

Lemma NoDup_first_occurrences l : List.NoDup (first_occurrences l).
Proof.
  induction l as [|x l IH]; simpl; constructor.
  - rewrite List.filter_In. intros [_ H]. rewrite String.eqb_refl in H. discriminate.
  - apply List.NoDup_filter. exact IH.
Qed.

Lemma extract_mentioned_users_spec text :
  _extract_mentioned_users (Some text) = first_occurrences (findall text).
Proof.
  unfold _extract_mentioned_users. destruct text as [|c s]; [reflexivity|].
  change (Py.nonempty (String c s)) with true. cbv iota.
  rewrite append_new_spec. simpl app.
  f_equal. induction (findall (String c s)) as [|y l IH]; simpl; congruence.
Qed.

(** C8.  The scanner returns the handles that the pattern matches in the
    text, each once, in the order of their first occurrence.  The matches
    are those of a scan from the left ([scan], stated with the letters,
    digits and underscore of the specification): the scan has one result
    only, and the scanner returns its first occurrences; every handle
    returned has 5 to 32 characters among letters, digits and underscore
    and follows an [@] in the text; an empty or absent text gives the
    empty list.  So a handle in a sentence is found, a run of fewer than 5
    characters is not, a run of 40 characters gives its first 32, a
    repeated handle comes once, and handles that differ in case are two.
    The JSON parser's copy of the function returns the same. *)
Theorem mention_scanner_contract (text : string) :
  _extract_mentioned_users None = [] /\
  _extract_mentioned_users (Some EmptyString) = [] /\
  scan text (findall text) /\
  (forall l, scan text l -> l = findall text) /\
  (forall l, scan text l -> _extract_mentioned_users (Some text) = first_occurrences l) /\
  _extract_mentioned_users (Some text) = first_occurrences (findall text) /\
  List.NoDup (_extract_mentioned_users (Some text)) /\
  (forall h, In h (_extract_mentioned_users (Some text)) <-> In h (findall text)) /\
  List.Forall (fun h => valid_handle h = true /\
                        Py.contains (String "@" h) text = true)
              (_extract_mentioned_users (Some text)) /\
  _extract_mentioned_users (Some "hi @alice_w") = ["alice_w"] /\
  _extract_mentioned_users (Some "@abcd") = [] /\
  _extract_mentioned_users (Some "@abc@defgh") = ["defgh"] /\
  _extract_mentioned_users (Some "@bob_the_builder and @bob_the_builder")
  = ["bob_the_builder"] /\
  _extract_mentioned_users (Some "@aaaaaaaaaaaaaaaaaaaaaaaaaaaaaaaaaaaaaaaa")
  = ["aaaaaaaaaaaaaaaaaaaaaaaaaaaaaaaa"] /\
  _extract_mentioned_users (Some "mail a@bcdefg.com, @Zed_09 @zed_09")
  = ["bcdefg"; "Zed_09"; "zed_09"] /\
  (forall t, _extract_mentioned_usernames_from_text t = _extract_mentioned_users t).
Proof.
  rewrite (extract_mentioned_users_spec text).
  split; [reflexivity|]. split; [reflexivity|].
  split; [apply scan_findall|].
  split; [apply scan_unique|].
  split; [intros l Hl; rewrite (scan_unique _ _ Hl); reflexivity|].
  split; [reflexivity|].
  split; [apply NoDup_first_occurrences|].
  split; [intros h; apply In_first_occurrences|].
  split.
  { rewrite List.Forall_forall. intros h Hh. rewrite In_first_occurrences in Hh.
    pose proof (scan_sound _ _ (scan_findall text)) as Hs.
    rewrite List.Forall_forall in Hs. exact (Hs h Hh). }
  repeat split; vm_compute; reflexivity.
Qed.

(** *** Display names and identifiers *)

Lemma lstrip_spec s :
  exists lead,
    s = (lead ++ Py.lstrip s)%string /\ all_space lead = true /\
    starts_with_space (Py.lstrip s) = false.
Proof.
  induction s as [|c s IH]; simpl.
  - exists EmptyString. auto.
  - destruct (Py.isspace c) eqn:Ec.
    + destruct IH as (lead & Hs & Hl & Hn). exists (String c lead).
      split; [simpl; f_equal; exact Hs|]. split; [|exact Hn].
      unfold all_space in *. simpl. rewrite Ec. exact Hl.
    + exists EmptyString. simpl. rewrite Ec. auto.
Qed.

Lemma take_word_spec s :
  s = (fst (Py.take_word s) ++ snd (Py.take_word s))%string /\
  no_space (fst (Py.take_word s)) = true /\
  (snd (Py.take_word s) = EmptyString \/
   starts_with_space (snd (Py.take_word s)) = true).
Proof.
  induction s as [|c s IH]; simpl.
  - auto.
  - destruct (Py.isspace c) eqn:Ec; simpl.
    + rewrite Ec. auto.
    + destruct (Py.take_word s) as [w r]. simpl in *.
      destruct IH as (Hs & Hw & Hr).
      split; [f_equal; exact Hs|]. split; [|exact Hr].
      unfold no_space in *. simpl. rewrite Ec. exact Hw.
Qed.

Lemma all_space_lstrip s : Py.lstrip s = EmptyString -> all_space s = true.
Proof.
  induction s as [|c s IH]; simpl; [reflexivity|].
  unfold all_space in *. simpl.
  destruct (Py.isspace c); [exact IH | discriminate].
Qed.

(** The name parts the decoding of a display name assigns. *)
Lemma split1_spec name :
  split_at_first_space name
    (Some match Py.split1 name with p :: _ => p | [] => name end)
    match Py.split1 name with _ :: p :: _ => Some p | _ => None end.
Proof.
  unfold Py.split1, split_at_first_space.
  destruct (lstrip_spec name) as (lead & Hname & Hlead & Hns).
  destruct (Py.lstrip name) as [|c s1] eqn:El.
  - left. split; [apply all_space_lstrip; exact El | auto].
  - right.
    pose proof (take_word_spec (String c s1)) as (Hw & Hnw & Hr).
    destruct (Py.take_word (String c s1)) as [w r] eqn:Et. simpl in Hw, Hnw, Hr.
    destruct (lstrip_spec r) as (gap & Hgap & Hg & Hnr).
    assert (Py.nonempty w = true) as Hwn.
    { simpl in Et, Hns. rewrite Hns in Et. destruct (Py.take_word s1).
      injection Et as <- _. reflexivity. }
    exists lead, w, gap, (Py.lstrip r).
    split; [rewrite <- Hgap, <- Hw; exact Hname|].
    split; [exact Hlead|]. split; [exact Hwn|]. split; [exact Hnw|].
    split; [exact Hg|]. split; [exact Hnr|].
    split.
    + intros Hne. destruct gap; [|reflexivity]. simpl in Hgap.
      destruct Hr as [Hr|Hr]; rewrite <- Hgap in *.
      * rewrite Hr in Hne. discriminate.
      * congruence.
    + destruct (Py.lstrip r); auto.
Qed.

Lemma digit_not_int_space c : Py.isdigit c = true -> Py.int_space c = false.
Proof.
  unfold Py.isdigit, Py.int_space, Py.between. intros H.
  apply andb_true_iff in H. destruct H as [H1 H2].
  apply Z.leb_le in H1, H2.
  repeat (apply orb_false_iff; split);
    try (apply andb_false_iff); lia.
Qed.

Lemma digit_not_char c (x : ascii) :
  Py.isdigit c = true -> Py.isdigit x = false -> Ascii.eqb c x = false.
Proof.
  intros Hc Hx. apply Ascii.eqb_neq. intros ->. congruence.
Qed.

Lemma int_lstrip_digits s : forallb Py.isdigit (chars s) = true -> Py.int_lstrip s = s.
Proof.
  destruct s as [|c s]; simpl; [reflexivity|].
  intros H. apply andb_true_iff in H. destruct H as [Hc _].
  rewrite (digit_not_int_space c Hc). reflexivity.
Qed.

Lemma int_rstrip_digits s : forallb Py.isdigit (chars s) = true -> Py.int_rstrip s = s.
Proof.
  induction s as [|c s IH]; simpl; [reflexivity|].
  intros H. apply andb_true_iff in H. destruct H as [Hc Hs].
  rewrite (IH Hs), (digit_not_int_space c Hc). destruct s; reflexivity.
Qed.

Lemma int_digits_digits acc n s :
  forallb Py.isdigit (chars s) = true ->
  Py.int_digits acc n true s
  = Some (fold_left (fun a c => a * 10 + Py.digit_value c) (chars s) acc,
          n + Z.of_nat (String.length s)).
Proof.
  revert acc n. induction s as [|c s IH]; intros acc n H.
  - simpl. rewrite Z.add_0_r. reflexivity.
  - simpl in H. apply andb_true_iff in H. destruct H as [Hc Hs].
    cbn [Py.int_digits]. rewrite Hc, (IH _ _ Hs).
    cbn [chars list_ascii_of_string fold_left String.length]. do 2 f_equal. lia.
Qed.

(** [int] of a string of digits, of a length that the interpreter
    accepts, is the number they denote. *)
Lemma int_digits_value limit s :
  all_digits s = true ->
  Py.too_long limit (Z.of_nat (String.length s)) = false ->
  Py.int limit s = Some (decimal s).
Proof.
  unfold all_digits, Py.int, decimal. intros H Hlen.
  apply andb_true_iff in H. destruct H as [Hne Hd].
  rewrite (int_lstrip_digits s Hd), (int_rstrip_digits s Hd).
  destruct s as [|c s]; [discriminate|].
  pose proof Hd as Hd'. simpl in Hd'.
  apply andb_true_iff in Hd'. destruct Hd' as [Hc Hs].
  rewrite (digit_not_char c "+" Hc eq_refl), (digit_not_char c "-" Hc eq_refl).
  cbn [Py.int_digits]. rewrite Hc, (int_digits_digits _ _ s Hs).
  replace (0 + 1 + Z.of_nat (String.length s)) with (Z.of_nat (String.length (String c s)))
    by (cbn [String.length]; lia).
  rewrite Hlen. reflexivity.
Qed.

(** A character that no integer literal has. *)
Lemma literal_char_false c :
  literal_char c = false ->
  Py.isdigit c = false /\ Ascii.eqb c "+" = false /\ Ascii.eqb c "-" = false /\
  Ascii.eqb c "_" = false /\ Py.int_space c = false.
Proof.
  destruct c as [[] [] [] [] [] [] [] []];
    intros H; try discriminate H; repeat split; reflexivity.
Qed.

Lemma In_int_lstrip c s :
  Py.int_space c = false -> In c (chars s) -> In c (chars (Py.int_lstrip s)).
Proof.
  intros Hc. induction s as [|x s IH]; simpl; [tauto|].
  destruct (Py.int_space x) eqn:Ex; simpl; [|tauto].
  intros [->|H]; [congruence | auto].
Qed.

Lemma In_int_rstrip c s :
  Py.int_space c = false -> In c (chars s) -> In c (chars (Py.int_rstrip s)).
Proof.
  intros Hc. induction s as [|x s IH]; simpl; [tauto|].
  intros [->|H].
  - destruct (Py.int_rstrip s); [rewrite Hc|]; simpl; auto.
  - specialize (IH H). destruct (Py.int_rstrip s); [destruct IH | simpl; auto].
Qed.

Lemma int_digits_other c acc n after s :
  Py.isdigit c = false -> Ascii.eqb c "_" = false -> In c (chars s) ->
  Py.int_digits acc n after s = None.
Proof.
  intros Hd Hu. revert acc n after.
  induction s as [|x s IH]; simpl; intros acc n after Hin; [tauto|].
  destruct Hin as [->|Hin].
  - rewrite Hd, Hu. reflexivity.
  - destruct (Py.isdigit x); [auto|]. destruct (Ascii.eqb x "_" && after); auto.
Qed.

(** [int] raises on a text with a character that no literal has. *)
Lemma int_other_char limit c s :
  literal_char c = false -> In c (chars s) -> Py.int limit s = None.
Proof.
  intros Hc Hin. destruct (literal_char_false c Hc) as (Hd & Hp & Hm & Hu & Hs).
  apply (In_int_lstrip c s Hs), (In_int_rstrip c _ Hs) in Hin.
  unfold Py.int. destruct (Py.int_rstrip (Py.int_lstrip s)) as [|x r]; [reflexivity|].
  assert (forall t, In c (chars t) -> Py.int_digits 0 0 false t = None) as Hbody
    by (intros t; apply int_digits_other; assumption).
  destruct (Ascii.eqb x "+") eqn:Ex.
  - apply Ascii.eqb_eq in Ex. subst x. destruct Hin as [<-|Hin]; [discriminate Hp|].
    rewrite (Hbody r Hin). reflexivity.
  - destruct (Ascii.eqb x "-") eqn:Ey.
    + apply Ascii.eqb_eq in Ey. subst x. destruct Hin as [<-|Hin]; [discriminate Hm|].
      rewrite (Hbody r Hin). reflexivity.
    + rewrite (Hbody (String x r) Hin). reflexivity.
Qed.

Lemma prefix_nil s : String.prefix EmptyString s = true.
Proof. destruct s; reflexivity. Qed.

Lemma prefix_cons_ne a p b s : a <> b -> String.prefix (String a p) (String b s) = false.
Proof. intros Hne. simpl. destruct (ascii_dec a b); [contradiction | reflexivity]. Qed.

Lemma remove_from_cons pat c s :
  Py.remove_from pat 0 (String c s) =
  if String.prefix pat (String c s)
  then Py.remove_from pat (Nat.pred (String.length pat)) s
  else String c (Py.remove_from pat 0 s).
Proof. reflexivity. Qed.

Lemma remove_from_digits s :
  forallb Py.isdigit (chars s) = true -> Py.remove_from "user" 0 s = s.
Proof.
  induction s as [|c s IH]; [reflexivity|].
  intros H. simpl in H. apply andb_true_iff in H. destruct H as [Hc Hs].
  rewrite remove_from_cons, prefix_cons_ne, (IH Hs); [reflexivity|].
  intros <-. discriminate.
Qed.

(** Removing ["user"] from [user<digits>] leaves the digits. *)
Lemma remove_user_digits s :
  all_digits s = true -> Py.remove "user" ("user" ++ s) = s.
Proof.
  unfold all_digits. intros H. apply andb_true_iff in H. destruct H as [_ Hd].
  unfold Py.remove.
  cbn. rewrite prefix_nil. apply remove_from_digits. exact Hd.
Qed.

(** The first message of a key is noted when its date can be compared
    with the one on record, and only then. *)
Lemma note_first_message_comparable st uid d i :
  comparable st uid d = true ->
  note_first_message st uid d i = Returned (note_total st uid d i).
Proof.
  unfold comparable, comparable_with, note_first_message, note_total.
  destruct d as [t|]; [|reflexivity].
  destruct (uid =? 0); [reflexivity|]. cbv zeta.
  destruct (user_first_message_date st !! uid) as [old|]; [|reflexivity].
  simpl. intros H. apply Bool.eqb_prop in H. rewrite (before_one_kind _ _ H). reflexivity.
Qed.

Lemma save_first_reaction_comparable st uid d e :
  comparable_with (user_first_reaction_date st) uid d = true ->
  _save_first_reaction st uid d e = Returned (save_total st uid d e).
Proof.
  unfold comparable_with, _save_first_reaction, save_total.
  destruct d as [t|]; [|reflexivity].
  destruct (uid =? 0); [reflexivity|]. cbv zeta.
  destruct (user_first_reaction_date st !! uid) as [old|]; [|reflexivity].
  simpl. intros H. apply Bool.eqb_prop in H. rewrite (before_one_kind _ _ H). reflexivity.
Qed.

Lemma note_first_message_incomparable st uid d i :
  comparable st uid d = false -> note_first_message st uid d i = Raised.
Proof.
  unfold comparable, comparable_with, note_first_message.
  destruct d as [t|]; [|discriminate].
  destruct (user_first_message_date st !! uid) as [old|] eqn:Eo; [|discriminate].
  destruct (uid =? 0); [discriminate|]. simpl. intros H.
  rewrite before_two_kinds; [reflexivity|].
  intros E. rewrite E, Bool.eqb_reflx in H. discriminate.
Qed.

Section Author.
Context `{RT : Runtime}.

Lemma author_by_name_str name fid :
  author_by_name name (JStr fid) =
  if Py.startswith fid "user" then
    match Py.int int_max_str_digits (Py.remove "user" fid) with
    | Some n => Returned (Built (named n name))
    | None => Raised
    end
  else if Py.startswith fid "channel" then Returned (Early None)
  else Returned (Built (named (hash fid) name)).
Proof.
  unfold author_by_name.
  destruct (Py.startswith fid "user"); simpl.
  - destruct (Py.int _ _); reflexivity.
  - destruct (Py.startswith fid "channel"); reflexivity.
Qed.

Lemma extract_built st md d i u :
  decode_author md = Returned (Built u) ->
  snd (_extract_user_from_message st md d i)
  = if comparable st (user_id u) d then Some u else None.
Proof.
  intros Hd. unfold _extract_user_from_message. rewrite Hd.
  destruct (comparable st (user_id u) d) eqn:Ec.
  - rewrite note_first_message_comparable by exact Ec. reflexivity.
  - rewrite note_first_message_incomparable by exact Ec. reflexivity.
Qed.

Lemma extract_author_message st name ident d i :
  snd (_extract_user_from_message st (author_message name ident) d i) =
  if Py.startswith ident "user"
  then match Py.int int_max_str_digits (Py.remove "user" ident) with
       | Some n => sighted st d n name
       | None => None
       end
  else if Py.startswith ident "channel" then None
  else sighted st d (hash ident) name.
Proof.
  pose proof (author_by_name_str name ident) as Ha.
  change (author_by_name name (JStr ident))
    with (decode_author (author_message name ident)) in Ha.
  destruct (Py.startswith ident "user").
  - destruct (Py.int _ _) as [n|].
    + apply (extract_built st _ d i) in Ha. exact Ha.
    + unfold _extract_user_from_message. rewrite Ha. reflexivity.
  - destruct (Py.startswith ident "channel").
    + unfold _extract_user_from_message. rewrite Ha. reflexivity.
    + apply (extract_built st _ d i) in Ha. exact Ha.
Qed.

Lemma decoded_as_named key name : decoded_as (Some (named key name)) key name.
Proof.
  exists (named key name). split; [reflexivity|]. split; [reflexivity|].
  apply split1_spec.
Qed.

Lemma decoded_as_sighted st d key name :
  comparable st key d = true -> decoded_as (sighted st d key name) key name.
Proof. unfold sighted. intros ->. apply decoded_as_named. Qed.

End Author.

(** C7, as the code has it.  The identifier beside a display name is
    decoded by its prefix.  With the prefix [user], what is left after
    removing [user] is read as an integer and is the key, so
    [user<digits>] gives the number [<digits>] (for digits within the
    interpreter's limit on the length of a literal), and so do the other
    literals of [int] (a sign, white space around, single underscores
    between digits); when it is not an integer, as when it has a character
    that no integer literal has, the record is dropped.  With the prefix
    [channel] the record is dropped.
    With neither prefix the key is the hash of the identifier.  In every
    case that gives a key, the date of the message being one that can be
    compared with the date on record for the key, the extraction gives an
    observation, and the display name is split at its first run of white
    space into given and family name. *)
Theorem author_decoding_by_prefix `{RT : Runtime}
    (st : Parser) (name ident : string) (d : option datetime) (i : json) :
  let r := snd (_extract_user_from_message st (author_message name ident) d i) in
  (forall digits,
      all_digits digits = true ->
      Py.too_long int_max_str_digits (Z.of_nat (String.length digits)) = false ->
      ident = ("user" ++ digits)%string ->
      comparable st (decimal digits) d = true ->
      decoded_as r (decimal digits) name) /\
  (Py.startswith ident "user" = true ->
   forall n, Py.int int_max_str_digits (Py.remove "user" ident) = Some n ->
             comparable st n d = true -> decoded_as r n name) /\
  (Py.startswith ident "user" = true ->
   Py.int int_max_str_digits (Py.remove "user" ident) = None -> r = None) /\
  (Py.startswith ident "user" = true ->
   forall c, In c (chars (Py.remove "user" ident)) -> literal_char c = false ->
             r = None) /\
  (Py.startswith ident "user" = false ->
   Py.startswith ident "channel" = true -> r = None) /\
  (Py.startswith ident "user" = false ->
   Py.startswith ident "channel" = false ->
   comparable st (hash ident) d = true -> decoded_as r (hash ident) name) /\
  (forall lit key,
      In (lit, key) [("user42", 42); ("user007", 7); ("user 12", 12);
                     ("user1_000", 1000); ("user-5", -5); ("user+5", 5);
                     ("user1user2", 12)]%string ->
      comparable st key d = true ->
      decoded_as (snd (_extract_user_from_message st (author_message name lit) d i))
                 key name) /\
  (forall lit,
      In lit ["user"; "userabc"; "user1__0"; "user_1"; "user1_"; "user+-1"; "user1 2";
              "user12.0"; "user0x1f"; "user+ 1"; "channel5"; "channel"]%string ->
      snd (_extract_user_from_message st (author_message name lit) d i) = None).
Proof.
  intros r. subst r. rewrite extract_author_message.
  split; [|split; [|split; [|split; [|split; [|split; [|split]]]]]];
    [| | | | | |
     intros lit key Hin Hc; rewrite extract_author_message; simpl in Hin;
     repeat (destruct Hin as [Hin|Hin];
             [injection Hin as <- <-;
              match goal with
              | |- decoded_as (if _ then match ?e with _ => _ end else _) ?k _ =>
                  replace e with (Some k) by (vm_compute; reflexivity)
              end;
              apply decoded_as_sighted; exact Hc|]);
     destruct Hin
    | intros lit Hin; rewrite extract_author_message; simpl in Hin;
      repeat (destruct Hin as [<-|Hin]; [vm_compute; reflexivity|]);
      destruct Hin].
  - intros digits Hd Hlen -> Hc.
    replace (Py.startswith ("user" ++ digits) "user") with true
      by (symmetry; apply (prefix_app "user" digits)).
    rewrite (remove_user_digits digits Hd), (int_digits_value _ digits Hd Hlen).
    apply decoded_as_sighted. exact Hc.
  - intros -> n -> Hc. apply decoded_as_sighted. exact Hc.
  - intros -> ->. reflexivity.
  - intros -> c Hin Hc. rewrite (int_other_char _ c _ Hc Hin). reflexivity.
  - intros -> ->. reflexivity.
  - intros -> -> Hc. apply decoded_as_sighted. exact Hc.
Qed.

Lemma author_decoding_by_prefix_witness :
  decoded_as
    (snd (_extract_user_from_message init (author_message "Bob Lee" "user42") None JNull))
    42 "Bob Lee" /\
  snd (_extract_user_from_message init
         (author_message "Bob Lee" ("user" ++ String "028" "12")) None JNull)
  = None.
Proof.
  split.
  - exact (proj1 (author_decoding_by_prefix init "Bob Lee" "user42" None JNull)
                 "42"%string eq_refl eq_refl eq_refl eq_refl).
  - exact (proj1 (proj2 (proj2 (proj2
             (author_decoding_by_prefix init "Bob Lee" ("user" ++ String "028" "12")
                                        None JNull))))
             eq_refl "028"%char (or_introl eq_refl) eq_refl).
Defined.

(** C7, as the specification has it, fails on an identifier that begins
    with [user] and does not go on with digits: it is neither
    [user<digits>] nor [channel<digits>], and the record is dropped where
    the specification gives it the hash of the identifier as key. *)
Lemma author_decoding_counterexample : ~ author_decoding_claim "Bob Lee" "userabc".
Proof.
  unfold author_decoding_claim. cbv zeta.
  change (user_digits "userabc") with false.
  change (channel_digits "userabc") with false. cbv iota.
  intros (u & Hu & _). rewrite extract_author_message in Hu. discriminate Hu.
Qed.

(** *** The earliest message and the earliest reaction of a key *)

Lemma earlier_le new old t :
  old = Some t -> instant (earlier new old) <= instant t.
Proof.
  intros ->. unfold earlier. destruct (instant new <? instant t) eqn:E; [|lia].
  apply Z.ltb_lt in E. lia.
Qed.

Lemma earlier_no_later new t : aware new = aware t -> no_later (earlier new (Some t)) t.
Proof.
  intros Hk. split; [|apply earlier_le; reflexivity].
  unfold earlier. destruct (instant new <? instant t); auto.
Qed.

Lemma earlier_min new t :
  aware new = aware t -> earlier new (Some t) = min_date t new.
Proof.
  unfold earlier, min_date. destruct new as [a i], t as [b j]. simpl. intros ->.
  destruct (i <? j) eqn:E; f_equal.
  - apply Z.ltb_lt in E. lia.
  - apply Z.ltb_ge in E. lia.
Qed.

Lemma no_later_refl t : no_later t t.
Proof. split; [reflexivity | lia]. Qed.

Lemma dates_note_first_message st uid d i k :
  user_first_message_date (note_total st uid d i) !! k =
  match d with
  | Some t =>
      if negb (uid =? 0) && (k =? uid)
      then Some (earlier t (user_first_message_date st !! k))
      else user_first_message_date st !! k
  | None => user_first_message_date st !! k
  end.
Proof.
  unfold note_total. destruct d as [t|]; [|reflexivity].
  destruct (uid =? 0); simpl; [reflexivity|].
  destruct (k =? uid) eqn:Ek.
  - apply Z.eqb_eq in Ek. subst k. unfold earlier.
    destruct (user_first_message_date st !! uid) as [old|] eqn:Eo; simpl.
    + destruct (instant t <? instant old); simpl; [apply lookup_insert_eq | exact Eo].
    + apply lookup_insert_eq.
  - apply Z.eqb_neq in Ek.
    destruct (user_first_message_date st !! uid) as [old|]; simpl.
    + destruct (instant t <? instant old); simpl; [apply lookup_insert_ne; congruence | reflexivity].
    + apply lookup_insert_ne. congruence.
Qed.

Lemma dates_save_first_reaction st uid d e k :
  user_first_reaction_date (save_total st uid d e) !! k =
  match d with
  | Some t =>
      if negb (uid =? 0) && (k =? uid)
      then Some (earlier t (user_first_reaction_date st !! k))
      else user_first_reaction_date st !! k
  | None => user_first_reaction_date st !! k
  end.
Proof.
  unfold save_total. destruct d as [t|]; [|reflexivity].
  destruct (uid =? 0); simpl; [reflexivity|].
  destruct (k =? uid) eqn:Ek.
  - apply Z.eqb_eq in Ek. subst k. unfold earlier.
    destruct (user_first_reaction_date st !! uid) as [old|] eqn:Eo; simpl.
    + destruct (instant t <? instant old); simpl; [apply lookup_insert_eq | exact Eo].
    + apply lookup_insert_eq.
  - apply Z.eqb_neq in Ek.
    destruct (user_first_reaction_date st !! uid) as [old|]; simpl.
    + destruct (instant t <? instant old); simpl; [apply lookup_insert_ne; congruence | reflexivity].
    + apply lookup_insert_ne. congruence.
Qed.

(** The symbol kept for a key after a reaction with a symbol. *)
Lemma emoji_save_first_reaction st uid t e :
  uid <> 0 -> truthy e = true ->
  user_first_reaction_emoji (save_total st uid (Some t) e) !! uid =
  if match user_first_reaction_date st !! uid with
     | None => true
     | Some old => instant t <? instant old
     end
  then Some e else user_first_reaction_emoji st !! uid.
Proof.
  intros Hne He. unfold save_total.
  destruct (uid =? 0) eqn:E0; [apply Z.eqb_eq in E0; contradiction|].
  rewrite He. destruct (user_first_reaction_date st !! uid) as [old|]; simpl.
  - destruct (instant t <? instant old); simpl; [apply lookup_insert_eq | reflexivity].
  - apply lookup_insert_eq.
Qed.

Lemma message_dates_save_first_reaction st uid d e :
  user_first_message_date (save_total st uid d e) = user_first_message_date st.
Proof. unfold save_total. cases. Qed.

Lemma reaction_dates_note_first_message st uid d i :
  user_first_reaction_date (note_total st uid d i) = user_first_reaction_date st.
Proof. unfold note_total. cases. Qed.

Lemma message_dates_observe st o k :
  user_first_message_date (observe_total st o) !! k =
  match message_date o with
  | Some t =>
      if negb (user_id (seen o) =? 0) && (k =? user_id (seen o))
      then Some (earlier t (user_first_message_date st !! k))
      else user_first_message_date st !! k
  | None => user_first_message_date st !! k
  end.
Proof.
  unfold observe_total. rewrite (proj1 (maps_add_user _ _)).
  rewrite message_dates_save_first_reaction. apply dates_note_first_message.
Qed.

Lemma reaction_dates_observe st o k :
  user_first_reaction_date (observe_total st o) !! k =
  match reaction_date o with
  | Some t =>
      if negb (user_id (seen o) =? 0) && (k =? user_id (seen o))
      then Some (earlier t (user_first_reaction_date st !! k))
      else user_first_reaction_date st !! k
  | None => user_first_reaction_date st !! k
  end.
Proof.
  unfold observe_total. rewrite (proj1 (proj2 (proj2 (maps_add_user _ _)))).
  rewrite dates_save_first_reaction, reaction_dates_note_first_message. reflexivity.
Qed.

(** The users after an observation. *)
Lemma users_observe st o :
  users (observe_total st o) =
  if is_deleted (seen o) then users st
  else users_set (users st) (user_id (seen o))
         (recorded (save_total
                      (note_total st (user_id (seen o)) (message_date o) (message_id o))
                      (user_id (seen o)) (reaction_date o) (reaction_emoji o))
                   (seen o)).
Proof.
  unfold observe_total. destruct (is_deleted (seen o)) eqn:Ed.
  - rewrite add_user_deleted by exact Ed.
    rewrite users_save_first_reaction. apply users_note_first_message.
  - rewrite users_add_user by exact Ed.
    rewrite users_save_first_reaction, users_note_first_message. reflexivity.
Qed.

Lemma first_reaction_emoji_take_first_reaction st k e :
  first_reaction_emoji (first_reaction_total st k e) =
  match user_first_reaction_date st !! k with
  | Some new =>
      if match first_reaction_date e with
         | None => true
         | Some old => instant new <? instant old
         end
      then match user_first_reaction_emoji st !! k with
           | Some x => Some x
           | None => first_reaction_emoji e
           end
      else first_reaction_emoji e
  | None =>
      match user_first_reaction_emoji st !! k with
      | Some x => if negb (filled_json (first_reaction_emoji e))
                  then Some x else first_reaction_emoji e
      | None => first_reaction_emoji e
      end
  end.
Proof. unfold first_reaction_total. cases. Qed.

Lemma first_reaction_emoji_merge_existing st e user :
  first_reaction_emoji (merge_total st e user) =
  first_reaction_emoji (first_reaction_total st (user_id user) e).
Proof.
  unfold merge_total. cbv zeta. autorewrite with fields.
  rewrite !first_reaction_emoji_take_first_reaction. autorewrite with fields.
  reflexivity.
Qed.

Lemma first_reaction_emoji_first_sighting st user :
  first_reaction_emoji (first_sighting st user) =
  match user_first_reaction_emoji st !! user_id user with
  | Some x => Some x
  | None => first_reaction_emoji user
  end.
Proof. frame first_sighting. Qed.

Lemma users_get_add_user st u :
  is_deleted u = false ->
  users_get (users (add_total st u)) (user_id u) = Some (recorded st u).
Proof. intros Hd. rewrite users_add_user by exact Hd. apply users_get_set_eq. Qed.

(** [observe] is what [parse] does with a reactor, and with the author of
    a message whose date can be compared with the one on record, once
    [_extract_user_from_message] has built the user; the author of a
    message whose date cannot be compared is passed over. *)
Lemma author_is_observed `{RT : Runtime} st message d i u :
  decode_author message = Returned (Built u) ->
  (let (st1, r) := _extract_user_from_message st message d i in
   match r with
   | Some u' => _add_user st1 u'
   | None => Returned st1
   end)
  = if comparable st (user_id u) d
    then observe st (mkObservation u d i None JNull)
    else Returned st.
Proof.
  intros Hd. unfold _extract_user_from_message, observe. rewrite Hd. simpl.
  destruct (comparable st (user_id u) d) eqn:Ec.
  - rewrite note_first_message_comparable by exact Ec. reflexivity.
  - rewrite note_first_message_incomparable by exact Ec. reflexivity.
Qed.

Lemma reactor_is_observed `{RT : Runtime} emoji st reaction_user u :
  decode_author reaction_user = Returned (Built u) ->
  react emoji st reaction_user
  = observe st (mkObservation u None JNull (_extract_reaction_date reaction_user) emoji).
Proof.
  intros Hd. unfold react, _extract_user_from_message. rewrite Hd. reflexivity.
Qed.

(** One reaction with a symbol, for a key that is not 0: what the parser
    records, given what it had recorded. *)
Lemma observe_reaction st u t e :
  user_id u <> 0 -> is_deleted u = false -> truthy e = true ->
  let k := user_id u in
  let st' := observe_total st (reaction u t e) in
  let improves := match user_first_reaction_date st !! k with
                  | None => true
                  | Some old => instant t <? instant old
                  end in
  user_first_reaction_date st' !! k = Some (earlier t (user_first_reaction_date st !! k)) /\
  user_first_reaction_emoji st' !! k =
    (if improves then Some e else user_first_reaction_emoji st !! k) /\
  users_get (users st') k =
    Some (recorded (save_total st k (Some t) e) u).
Proof.
  intros Hk Hd He k st' improves. subst st'. split; [|split].
  - rewrite reaction_dates_observe. simpl. fold k.
    rewrite Z.eqb_refl. destruct (k =? 0) eqn:E; [apply Z.eqb_eq in E; contradiction|].
    reflexivity.
  - unfold observe_total. simpl. fold k.
    rewrite (proj2 (proj2 (proj2 (maps_add_user _ _)))).
    apply emoji_save_first_reaction; assumption.
  - unfold observe_total. simpl. fold k. apply users_get_add_user. exact Hd.
Qed.

Lemma first_reaction_date_recorded s u :
  first_reaction_date (recorded s u) =
  match user_first_reaction_date s !! user_id u with
  | Some new =>
      Some match users_get (users s) (user_id u) with
           | Some x => earlier new (first_reaction_date x)
           | None => new
           end
  | None =>
      match users_get (users s) (user_id u) with
      | Some x => first_reaction_date x
      | None => first_reaction_date u
      end
  end.
Proof.
  unfold recorded. destruct (users_get (users s) (user_id u)) as [x|].
  - rewrite first_reaction_date_merge_existing.
    destruct (user_first_reaction_date s !! user_id u); reflexivity.
  - rewrite first_reaction_date_first_sighting.
    destruct (user_first_reaction_date s !! user_id u); reflexivity.
Qed.

Lemma first_message_date_recorded s u :
  first_message_date (recorded s u) =
  match user_first_message_date s !! user_id u with
  | Some new =>
      Some match users_get (users s) (user_id u) with
           | Some x => earlier new (first_message_date x)
           | None => new
           end
  | None =>
      match users_get (users s) (user_id u) with
      | Some x => first_message_date x
      | None => first_message_date u
      end
  end.
Proof.
  unfold recorded. destruct (users_get (users s) (user_id u)) as [x|].
  - rewrite first_message_date_merge_existing.
    destruct (user_first_message_date s !! user_id u); reflexivity.
  - rewrite first_message_date_first_sighting.
    destruct (user_first_message_date s !! user_id u); reflexivity.
Qed.

Lemma first_reaction_emoji_recorded s u :
  first_reaction_emoji (recorded s u) =
  match users_get (users s) (user_id u) with
  | Some x => first_reaction_emoji (first_reaction_total s (user_id u) x)
  | None =>
      match user_first_reaction_emoji s !! user_id u with
      | Some y => Some y
      | None => first_reaction_emoji u
      end
  end.
Proof.
  unfold recorded. destruct (users_get (users s) (user_id u)) as [x|].
  - apply first_reaction_emoji_merge_existing.
  - apply first_reaction_emoji_first_sighting.
Qed.

Lemma earlier_twice new t : earlier (earlier new (Some t)) (Some t) = earlier new (Some t).
Proof.
  unfold earlier. destruct (instant new <? instant t) eqn:E; [rewrite E; reflexivity|].
  rewrite Z.ltb_irrefl. reflexivity.
Qed.

Lemma earlier_wins new t :
  (instant (earlier new (Some t)) <? instant t) = (instant new <? instant t).
Proof.
  unfold earlier. destruct (instant new <? instant t) eqn:E; [exact E|].
  apply Z.ltb_irrefl.
Qed.

(** Two reactions with symbols, in a row, for a key without a reaction so
    far. *)
Lemma two_reactions st u1 u2 t1 t2 e1 e2 :
  let k := user_id u1 in
  let st' := observe_total (observe_total st (reaction u1 t1 e1)) (reaction u2 t2 e2) in
  k <> 0 -> user_id u2 = k ->
  is_deleted u1 = false -> is_deleted u2 = false ->
  truthy e1 = true -> truthy e2 = true ->
  aware t1 = aware t2 ->
  user_first_reaction_date st !! k = None ->
  (forall x, users_get (users st) k = Some x -> first_reaction_date x = None) ->
  user_first_reaction_date st' !! k = Some (min_date t1 t2) /\
  user_first_reaction_emoji st' !! k = Some (winner t1 t2 e1 e2) /\
  exists u, users_get (users st') k = Some u /\
            first_reaction_date u = Some (min_date t1 t2) /\
            first_reaction_emoji u = Some (winner t1 t2 e1 e2).
Proof.
  intros k st' Hk Hk2 Hd1 Hd2 He1 He2 Hkind Hnone Hfresh. subst st'.
  assert ((k =? 0) = false) as E by (apply Z.eqb_neq; exact Hk).
  destruct (observe_reaction st u1 t1 e1 Hk Hd1 He1) as (Hdate1 & Hemo1 & Hu1).
  fold k in Hdate1, Hemo1, Hu1. rewrite Hnone in Hdate1, Hemo1. simpl in Hdate1, Hemo1.
  set (st1 := observe_total st (reaction u1 t1 e1)) in *.
  assert (user_id u2 <> 0) as Hk' by congruence.
  destruct (observe_reaction st1 u2 t2 e2 Hk' Hd2 He2) as (Hdate2 & Hemo2 & Hu2).
  rewrite Hk2 in Hdate2, Hemo2, Hu2. rewrite Hdate1 in Hdate2, Hemo2.
  rewrite Hemo1 in Hemo2.
  assert (earlier t2 (Some t1) = min_date t1 t2) as Hmin
    by (apply earlier_min; symmetry; exact Hkind).
  set (x1 := recorded (save_total st k (Some t1) e1) u1) in *.
  assert (first_reaction_date x1 = Some t1 /\ first_reaction_emoji x1 = Some e1) as [Hx1d Hx1e].
  { subst x1. rewrite first_reaction_date_recorded, first_reaction_emoji_recorded.
    fold k. rewrite users_save_first_reaction.
    rewrite dates_save_first_reaction, Z.eqb_refl, Hnone, E. cbn [negb andb].
    pose proof (emoji_save_first_reaction st k t1 e1 Hk He1) as Hm.
    rewrite Hnone in Hm.
    destruct (users_get (users st) k) as [x|] eqn:Ex.
    - rewrite first_reaction_emoji_take_first_reaction.
      rewrite dates_save_first_reaction, Z.eqb_refl, Hnone, E. cbn [negb andb].
      rewrite (Hfresh x eq_refl), Hm. auto.
    - rewrite Hm. auto. }
  split; [rewrite Hdate2; f_equal; exact Hmin|]. split.
  { rewrite Hemo2. unfold winner. destruct (instant t2 <? instant t1); reflexivity. }
  eexists. split; [exact Hu2|].
  rewrite first_reaction_date_recorded, first_reaction_emoji_recorded, Hk2.
  rewrite users_save_first_reaction, Hu1.
  rewrite first_reaction_emoji_take_first_reaction.
  rewrite dates_save_first_reaction, Z.eqb_refl, Hdate1, E. cbn [negb andb].
  rewrite Hx1d, Hx1e. rewrite earlier_twice, earlier_wins, Hmin.
  pose proof (emoji_save_first_reaction st1 k t2 e2 Hk He2) as Hm.
  rewrite Hdate1, Hemo1 in Hm. rewrite Hm.
  unfold winner. split; [reflexivity|].
  destruct (instant t2 <? instant t1); reflexivity.
Qed.

(** Once recorded, the earliest message and the earliest reaction of a key
    move to earlier times only. *)

Lemma note_first_message_kind st uid d i st' old :
  note_first_message st uid (Some d) i = Returned st' -> uid <> 0 ->
  user_first_message_date st !! uid = Some old -> aware d = aware old.
Proof.
  unfold note_first_message. intros Hr Hk Ho.
  destruct (uid =? 0) eqn:E; [apply Z.eqb_eq in E; contradiction|].
  cbv zeta in Hr. rewrite Ho in Hr. inv_bind Hr. apply before_returned in Hx. tauto.
Qed.

Lemma save_first_reaction_kind st uid d e st' old :
  _save_first_reaction st uid (Some d) e = Returned st' -> uid <> 0 ->
  user_first_reaction_date st !! uid = Some old -> aware d = aware old.
Proof.
  unfold _save_first_reaction. intros Hr Hk Ho.
  destruct (uid =? 0) eqn:E; [apply Z.eqb_eq in E; contradiction|].
  cbv zeta in Hr. rewrite Ho in Hr. inv_bind Hr. apply before_returned in Hx. tauto.
Qed.

Lemma take_first_message_kind st k e e' new old :
  take_first_message st k e = Returned e' ->
  user_first_message_date st !! k = Some new -> first_message_date e = Some old ->
  aware new = aware old.
Proof.
  unfold take_first_message. intros Hr Hn Ho. rewrite Hn in Hr. cbv zeta in Hr.
  inv_bind Hr. simpl in Hx. rewrite Ho in Hx. apply before_returned in Hx. tauto.
Qed.

Lemma take_first_reaction_kind st k e e' new old :
  take_first_reaction st k e = Returned e' ->
  user_first_reaction_date st !! k = Some new -> first_reaction_date e = Some old ->
  aware new = aware old.
Proof.
  unfold take_first_reaction. intros Hr Hn Ho. rewrite Hn in Hr.
  inv_bind Hr. rewrite Ho in Hx. apply before_returned in Hx. tauto.
Qed.

Lemma merge_existing_kind st e u e' :
  merge_existing st e u = Returned e' ->
  (forall new old, user_first_message_date st !! user_id u = Some new ->
                   first_message_date e = Some old -> aware new = aware old) /\
  (forall new old, user_first_reaction_date st !! user_id u = Some new ->
                   first_reaction_date e = Some old -> aware new = aware old).
Proof.
  unfold merge_existing. cbv zeta. intros Hr. do 2 inv_bind Hr. split; intros new old Hn Ho.
  - apply (take_first_message_kind _ _ _ _ new old Hx); [exact Hn|].
    rewrite first_message_date_clear_mention_only. exact Ho.
  - apply take_first_message_total in Hx. subst x.
    apply (take_first_reaction_kind _ _ _ _ new old Hx0); [exact Hn|].
    rewrite first_reaction_date_take_first_message, first_reaction_date_clear_mention_only.
    exact Ho.
Qed.

Lemma add_user_kind st u st' e :
  _add_user st u = Returned st' -> is_deleted u = false ->
  users_get (users st) (user_id u) = Some e ->
  (forall new old, user_first_message_date st !! user_id u = Some new ->
                   first_message_date e = Some old -> aware new = aware old) /\
  (forall new old, user_first_reaction_date st !! user_id u = Some new ->
                   first_reaction_date e = Some old -> aware new = aware old).
Proof.
  unfold _add_user. intros Hr Hd He. rewrite Hd in Hr. cbv zeta in Hr.
  rewrite He in Hr. inv_bind Hr.
  exact (merge_existing_kind _ _ _ _ Hx).
Qed.

Lemma message_date_never_later st o st' k t :
  observe st o = Returned st' ->
  user_first_message_date st !! k = Some t ->
  exists t', user_first_message_date st' !! k = Some t' /\ no_later t' t.
Proof.
  intros Hr Ht. pose proof (observe_sound _ _ _ Hr) as ->.
  rewrite message_dates_observe.
  destruct (message_date o) as [d|] eqn:Ed; [|exists t; split; [exact Ht | apply no_later_refl]].
  destruct (negb _ && _) eqn:Ec; [|exists t; split; [exact Ht | apply no_later_refl]].
  apply andb_true_iff in Ec. destruct Ec as [E0 Ek].
  apply negb_true_iff, Z.eqb_neq in E0. apply Z.eqb_eq in Ek. subst k.
  eexists. split; [reflexivity|]. rewrite Ht. apply earlier_no_later.
  unfold observe in Hr. inv_bind Hr. rewrite Ed in Hx.
  exact (note_first_message_kind _ _ _ _ _ _ Hx E0 Ht).
Qed.

Lemma reaction_date_never_later st o st' k t :
  observe st o = Returned st' ->
  user_first_reaction_date st !! k = Some t ->
  exists t', user_first_reaction_date st' !! k = Some t' /\ no_later t' t.
Proof.
  intros Hr Ht. pose proof (observe_sound _ _ _ Hr) as ->.
  rewrite reaction_dates_observe.
  destruct (reaction_date o) as [d|] eqn:Ed; [|exists t; split; [exact Ht | apply no_later_refl]].
  destruct (negb _ && _) eqn:Ec; [|exists t; split; [exact Ht | apply no_later_refl]].
  apply andb_true_iff in Ec. destruct Ec as [E0 Ek].
  apply negb_true_iff, Z.eqb_neq in E0. apply Z.eqb_eq in Ek. subst k.
  eexists. split; [reflexivity|]. rewrite Ht. apply earlier_no_later.
  unfold observe in Hr. do 2 inv_bind Hr. rewrite Ed in Hx0.
  apply note_first_message_total in Hx. subst x.
  apply (save_first_reaction_kind _ _ _ _ _ _ Hx0 E0).
  rewrite reaction_dates_note_first_message. exact Ht.
Qed.

(** The author of a message whose date cannot be compared is passed
    over, and the table is as it was. *)
Lemma extract_never_later `{RT : Runtime} st md d i st' r k t :
  _extract_user_from_message st md d i = (st', r) ->
  user_first_message_date st !! k = Some t ->
  exists t', user_first_message_date st' !! k = Some t' /\ no_later t' t.
Proof.
  unfold _extract_user_from_message. intros He Ht.
  assert (st' = st -> exists t', user_first_message_date st' !! k = Some t' /\ no_later t' t)
    as Hsame by (intros ->; exists t; split; [exact Ht | apply no_later_refl]).
  destruct (decode_author md) as [[r0|u]|]; try (injection He as <- _; auto; fail).
  destruct (note_first_message st (user_id u) d i) as [st1|] eqn:En;
    injection He as <- _; [|auto].
  apply (message_date_never_later st (mkObservation (set_is_deleted true u) d i None JNull));
    [|exact Ht].
  unfold observe. simpl. rewrite En. reflexivity.
Qed.

Lemma users_get_observe st o k :
  users_get (users (observe_total st o)) k =
  if negb (is_deleted (seen o)) && (k =? user_id (seen o))
  then Some (recorded (save_total
                         (note_total st (user_id (seen o)) (message_date o) (message_id o))
                         (user_id (seen o)) (reaction_date o) (reaction_emoji o))
                      (seen o))
  else users_get (users st) k.
Proof.
  rewrite users_observe. destruct (is_deleted (seen o)); simpl; [reflexivity|].
  destruct (k =? user_id (seen o)) eqn:E.
  - apply Z.eqb_eq in E. subst k. apply users_get_set_eq.
  - apply Z.eqb_neq in E. apply users_get_set_ne. congruence.
Qed.

(** The comparisons that the addition of a user has made, once an
    observation has returned. *)
Lemma observe_kind st o st' e :
  observe st o = Returned st' -> is_deleted (seen o) = false ->
  users_get (users st) (user_id (seen o)) = Some e ->
  (forall new old, user_first_message_date st' !! user_id (seen o) = Some new ->
                   first_message_date e = Some old -> aware new = aware old) /\
  (forall new old, user_first_reaction_date st' !! user_id (seen o) = Some new ->
                   first_reaction_date e = Some old -> aware new = aware old).
Proof.
  intros Hr Hd He. unfold observe in Hr. do 2 inv_bind Hr.
  pose proof (add_user_total _ _ _ Hr) as ->.
  destruct (maps_add_user x0 (seen o)) as (-> & _ & -> & _).
  apply note_first_message_total in Hx. apply save_first_reaction_total in Hx0.
  apply (add_user_kind _ _ _ e Hr Hd). subst x0 x.
  rewrite users_save_first_reaction, users_note_first_message. exact He.
Qed.

Lemma identity_message_never_later st o st' k u t :
  observe st o = Returned st' ->
  users_get (users st) k = Some u -> first_message_date u = Some t ->
  exists u' t', users_get (users st') k = Some u' /\
                first_message_date u' = Some t' /\ no_later t' t.
Proof.
  intros Hr Hu Ht. pose proof (observe_sound _ _ _ Hr) as E'.
  rewrite E', users_get_observe.
  destruct (negb _ && (k =? _)) eqn:E;
    [|exists u, t; repeat split; auto; apply no_later_refl].
  apply andb_true_iff in E. destruct E as [Ed E]. apply negb_true_iff in Ed.
  apply Z.eqb_eq in E. subst k.
  destruct (observe_kind _ _ _ u Hr Ed Hu) as [Hkind _].
  rewrite E' in Hkind. unfold observe_total in Hkind.
  rewrite (proj1 (maps_add_user _ _)) in Hkind.
  match goal with |- exists u' t', Some ?r = Some u' /\ _ => exists r end.
  rewrite first_message_date_recorded.
  rewrite users_save_first_reaction, users_note_first_message, Hu, Ht.
  destruct (user_first_message_date (save_total _ _ _ _) !! _) as [new|].
  - eexists. split; [reflexivity|]. split; [reflexivity|]. apply earlier_no_later.
    apply (Hkind new t); [reflexivity | exact Ht].
  - exists t. repeat split. apply no_later_refl.
Qed.

Lemma identity_reaction_never_later st o st' k u t :
  observe st o = Returned st' ->
  users_get (users st) k = Some u -> first_reaction_date u = Some t ->
  exists u' t', users_get (users st') k = Some u' /\
                first_reaction_date u' = Some t' /\ no_later t' t.
Proof.
  intros Hr Hu Ht. pose proof (observe_sound _ _ _ Hr) as E'.
  rewrite E', users_get_observe.
  destruct (negb _ && (k =? _)) eqn:E;
    [|exists u, t; repeat split; auto; apply no_later_refl].
  apply andb_true_iff in E. destruct E as [Ed E]. apply negb_true_iff in Ed.
  apply Z.eqb_eq in E. subst k.
  destruct (observe_kind _ _ _ u Hr Ed Hu) as [_ Hkind].
  rewrite E' in Hkind. unfold observe_total in Hkind.
  rewrite (proj1 (proj2 (proj2 (maps_add_user _ _)))) in Hkind.
  match goal with |- exists u' t', Some ?r = Some u' /\ _ => exists r end.
  rewrite first_reaction_date_recorded.
  rewrite users_save_first_reaction, users_note_first_message, Hu, Ht.
  destruct (user_first_reaction_date (save_total _ _ _ _) !! _) as [new|].
  - eexists. split; [reflexivity|]. split; [reflexivity|]. apply earlier_no_later.
    apply (Hkind new t); [reflexivity | exact Ht].
  - exists t. repeat split. apply no_later_refl.
Qed.

(** Key 0 stands for a missing id: nothing is recorded for it. *)
Lemma key_zero_has_no_times st o :
  user_id (seen o) = 0 ->
  user_first_message_date (observe_total st o) = user_first_message_date st /\
  user_first_reaction_date (observe_total st o) = user_first_reaction_date st.
Proof.
  intros H0. split; apply map_eq; intros k.
  - rewrite message_dates_observe, H0. destruct (message_date o); reflexivity.
  - rewrite reaction_dates_observe, H0. destruct (reaction_date o); reflexivity.
Qed.

(** The example of the specification: two messages of author 100, the
    first with handle [a] at 10:00, the second without handle at 09:00,
    resolve to one identity with the earlier time and the handle. *)
Example end_to_end_example :
  let first :=
    JDict [("id", JInt 1); ("date", JStr "2024-01-01T10:00:00");
           ("from", JDict [("id", JInt 100); ("username", JStr "a")])]%string in
  let second :=
    JDict [("id", JInt 2); ("date", JStr "2024-01-01T09:00:00");
           ("from", JDict [("id", JInt 100)])]%string in
  map (fun u => (user_id u, username u, first_message_date u))
      (returned (JSONParser_parse (Some (export [first; second]))))
  = [(100, Some "a"%string, Some (naive 20240101090000))].
Proof. reflexivity. Qed.

(** *** The keys of the roster *)

Lemma Forall_pairs_users_set (P : Z * TelegramUser -> Prop) us k u :
  List.Forall P us -> P (k, u) -> List.Forall P (users_set us k u).
Proof.
  intros Hus Hu. induction us as [|[k0 u0] us IH]; simpl.
  - repeat constructor. exact Hu.
  - inversion Hus; subst. destruct (k =? k0); constructor; auto.
Qed.

Lemma user_id_recorded st u : keyed st -> user_id (recorded st u) = user_id u.
Proof.
  unfold keyed, recorded. intros Hk.
  destruct (users_get (users st) (user_id u)) as [x|] eqn:Ex.
  - rewrite user_id_merge_existing. apply users_get_In in Ex.
    rewrite List.Forall_forall in Hk. exact (Hk _ Ex).
  - apply user_id_first_sighting.
Qed.

Lemma keyed_observe st o : keyed st -> keyed (observe_total st o).
Proof.
  intros Hk. unfold keyed. rewrite users_observe.
  destruct (is_deleted (seen o)); [exact Hk|].
  apply Forall_pairs_users_set; [exact Hk|]. simpl.
  apply user_id_recorded. unfold keyed.
  rewrite users_save_first_reaction, users_note_first_message. exact Hk.
Qed.

Lemma NoDup_keys_observe st o :
  List.NoDup (keys (users st)) -> List.NoDup (keys (users (observe_total st o))).
Proof.
  intros Hnd. rewrite users_observe.
  destruct (is_deleted (seen o)); [exact Hnd|]. apply NoDup_keys_users_set. exact Hnd.
Qed.

Lemma In_keys_observe st o k :
  In k (keys (users (observe_total st o))) <->
  In k (keys (users st)) \/ (is_deleted (seen o) = false /\ user_id (seen o) = k).
Proof.
  rewrite users_observe. destruct (is_deleted (seen o)).
  - intuition discriminate.
  - rewrite In_keys_users_set. intuition.
Qed.

Lemma In_keys_observations l st k :
  In k (keys (users (fold_left observe_total l st))) <->
  In k (keys (users st)) \/
  exists o, In o l /\ is_deleted (seen o) = false /\ user_id (seen o) = k.
Proof.
  revert st. induction l as [|o l IH]; intros st; simpl.
  - split; [auto | intros [H|(o & [] & _)]; exact H].
  - rewrite IH, In_keys_observe. split.
    + intros [[H|[Hd Hk]]|(o' & Hin & Hd & Hk)]; eauto 6.
    + intros [H|(o' & [<-|Hin] & Hd & Hk)]; eauto 6.
Qed.

Lemma keyed_observations l st : keyed st -> keyed (fold_left observe_total l st).
Proof. apply fold_left_invariant. intros s o. apply keyed_observe. Qed.

Lemma NoDup_keys_observations l st :
  List.NoDup (keys (users st)) -> List.NoDup (keys (users (fold_left observe_total l st))).
Proof.
  apply (fold_left_invariant (fun s => List.NoDup (keys (users s)))).
  intros s o. apply NoDup_keys_observe.
Qed.

Lemma keys_roster st : keyed st -> map user_id (roster st) = keys (users st).
Proof.
  unfold keyed, roster, get_unique_users, keys. simpl. rewrite !map_map. simpl.
  intros Hk. apply List.map_ext_in. intros [k u] Hin. simpl.
  rewrite user_id_fill_missing. rewrite List.Forall_forall in Hk. exact (Hk _ Hin).
Qed.

Lemma keys_unique_identities obs k :
  In k (map user_id (identities_total obs)) <->
  exists o, In o obs /\ is_deleted (seen o) = false /\ user_id (seen o) = k.
Proof.
  unfold identities_total, resolve_total.
  rewrite keys_roster by (apply keyed_observations; constructor).
  rewrite In_keys_observations. simpl. tauto.
Qed.

(** C2, as the code has it.  The resolver passes over a deletion
    observation: adding a deleted user changes nothing.  So a key is in the
    final roster exactly when the resolution has ended without an
    exception and some observation that is not a deletion carried the
    key, whatever deletions came before or after. *)
Theorem deletion_is_ignored :
  (forall st u, is_deleted u = true -> _add_user st u = Returned st) /\
  (forall obs k,
      In k (map user_id (unique_identities obs)) <->
      resolves obs = true /\
      exists o, In o obs /\ is_deleted (seen o) = false /\ user_id (seen o) = k).
Proof.
  split.
  - intros st u Hd. unfold _add_user. rewrite Hd. reflexivity.
  - intros obs k.
    destruct (unique_identities_cases obs) as [[Hr ->]|(Hr & _ & ->)].
    + split; [contradiction | intros [H _]; congruence].
    + rewrite keys_unique_identities. tauto.
Qed.

Lemma deletion_is_ignored_witness : _add_user init deleted_user = Returned init.
Proof. exact (proj1 deletion_is_ignored init deleted_user eq_refl). Defined.

(** C2, as the specification has it, fails: a tombstone (key 0) followed by
    a message whose author object has no id (key 0 as well) leaves key 0 in
    the roster. *)
Lemma deletion_dominance_counterexample : ~ deletion_dominance_claim.
Proof.
  intros H.
  apply (H [] [mkObservation (set_first_name (Some "Bob"%string) (new_user 0))
                             (Some (naive 2)) (JInt 2) None JNull]
           (mkObservation deleted_user (Some (naive 1)) (JInt 1) None JNull) eq_refl).
  vm_compute. left. reflexivity.
Qed.

(** *** Independence of the order *)

Lemma message_dates_observe_step st o k :
  user_first_message_date (observe_total st o) !! k =
  min_step k (user_id (seen o)) (message_date o) (user_first_message_date st !! k).
Proof. apply message_dates_observe. Qed.

Lemma reaction_dates_observe_step st o k :
  user_first_reaction_date (observe_total st o) !! k =
  min_step k (user_id (seen o)) (reaction_date o) (user_first_reaction_date st !! k).
Proof. apply reaction_dates_observe. Qed.

Lemma earlier_same t : earlier t (Some t) = t.
Proof. unfold earlier. rewrite Z.ltb_irrefl. reflexivity. Qed.

(** A recorded time stays when the same or a later one is merged in. *)
Lemma min_step_absorbs k uid d acc :
  match min_step k uid d acc with
  | Some new => earlier new acc = new
  | None => acc = None
  end.
Proof.
  unfold min_step. destruct d as [t|].
  - destruct (negb (uid =? 0) && (k =? uid)).
    + destruct acc as [a|]; [apply earlier_twice | reflexivity].
    + destruct acc as [a|]; [apply earlier_same | reflexivity].
  - destruct acc as [a|]; [apply earlier_same | reflexivity].
Qed.

Lemma fold_left_permutation {A B} (f : A -> B -> A) l1 l2 :
  (forall a x y, f (f a x) y = f (f a y) x) ->
  Permutation l1 l2 -> forall a, fold_left f l1 a = fold_left f l2 a.
Proof.
  intros Hf. induction 1 as [|x l1 l2 Hp IH|x y l|l1 l2 l3 Hp1 IH1 Hp2 IH2];
    intros a; simpl.
  - reflexivity.
  - apply IH.
  - rewrite Hf. reflexivity.
  - rewrite IH1. apply IH2.
Qed.

Lemma message_dates_observations l st k :
  user_first_message_date (fold_left observe_total l st) !! k =
  fold_left (fun acc o => min_step k (user_id (seen o)) (message_date o) acc)
            l (user_first_message_date st !! k).
Proof.
  revert st. induction l as [|o l IH]; intros st; simpl; [reflexivity|].
  rewrite IH, message_dates_observe_step. reflexivity.
Qed.

Lemma reaction_dates_observations l st k :
  user_first_reaction_date (fold_left observe_total l st) !! k =
  fold_left (fun acc o => min_step k (user_id (seen o)) (reaction_date o) acc)
            l (user_first_reaction_date st !! k).
Proof.
  revert st. induction l as [|o l IH]; intros st; simpl; [reflexivity|].
  rewrite IH, reaction_dates_observe_step. reflexivity.
Qed.

Lemma extracted_fields o :
  extracted o = true ->
  first_message_date (seen o) = None /\ first_reaction_date (seen o) = None /\
  (is_deleted (seen o) = true -> user_id (seen o) = 0).
Proof.
  unfold extracted, unset. intros H.
  repeat (apply andb_true_iff in H; destruct H as [H ?]).
  destruct (first_message_date (seen o)); [discriminate|].
  destruct (first_reaction_date (seen o)); [discriminate|].
  repeat split. intros Hd. rewrite Hd in *. simpl in *. apply Z.eqb_eq. assumption.
Qed.

(** An observation of the extractors keeps the identities in step with the
    tables. *)
Lemma in_step_observe st o : extracted o = true -> in_step st -> in_step (observe_total st o).
Proof.
  intros Ho Hst k u. apply extracted_fields in Ho. destruct Ho as (Hm & Hr & Hdel).
  rewrite users_get_observe, message_dates_observe_step, reaction_dates_observe_step.
  destruct (is_deleted (seen o)) eqn:Ed; simpl.
  - rewrite (Hdel eq_refl). unfold min_step. simpl.
    destruct (message_date o), (reaction_date o); apply Hst.
  - destruct (k =? user_id (seen o)) eqn:Ek.
    + apply Z.eqb_eq in Ek. subst k. intros Hu. injection Hu as <-.
      rewrite first_message_date_recorded, first_reaction_date_recorded.
      rewrite users_save_first_reaction, users_note_first_message.
      rewrite message_dates_save_first_reaction, dates_note_first_message.
      rewrite dates_save_first_reaction, reaction_dates_note_first_message.
      fold (min_step (user_id (seen o)) (user_id (seen o)) (message_date o)
                     (user_first_message_date st !! user_id (seen o))).
      fold (min_step (user_id (seen o)) (user_id (seen o)) (reaction_date o)
                     (user_first_reaction_date st !! user_id (seen o))).
      pose proof (min_step_absorbs (user_id (seen o)) (user_id (seen o)) (message_date o)
                    (user_first_message_date st !! user_id (seen o))) as Am.
      pose proof (min_step_absorbs (user_id (seen o)) (user_id (seen o)) (reaction_date o)
                    (user_first_reaction_date st !! user_id (seen o))) as Ar.
      destruct (users_get (users st) (user_id (seen o))) as [x|] eqn:Ex.
      * destruct (Hst _ _ Ex) as [Hxm Hxr]. rewrite Hxm, Hxr.
        split.
        -- destruct (min_step _ _ (message_date o) _); congruence.
        -- destruct (min_step _ _ (reaction_date o) _); congruence.
      * rewrite Hm, Hr. split.
        -- destruct (min_step _ _ (message_date o) _); reflexivity.
        -- destruct (min_step _ _ (reaction_date o) _); reflexivity.
    + intros Hu. unfold min_step. rewrite Ek, andb_false_r.
      destruct (message_date o), (reaction_date o); apply Hst; exact Hu.
Qed.

Lemma in_step_observations l st :
  forallb extracted l = true -> in_step st -> in_step (fold_left observe_total l st).
Proof.
  revert st. induction l as [|o l IH]; simpl; intros st Hl Hst; [exact Hst|].
  apply andb_true_iff in Hl. destruct Hl as [Ho Hl].
  apply IH; [exact Hl|]. apply in_step_observe; assumption.
Qed.

(** The times of an identity of the roster are those of the tables. *)
Lemma roster_dates st u :
  keyed st -> List.NoDup (keys (users st)) -> in_step st -> In u (roster st) ->
  first_message_date u = user_first_message_date st !! user_id u /\
  first_reaction_date u = user_first_reaction_date st !! user_id u.
Proof.
  unfold roster, get_unique_users. simpl. rewrite map_map. simpl.
  intros Hk Hnd Hst Hin. apply List.in_map_iff in Hin.
  destruct Hin as ([k x] & <- & Hin). simpl.
  rewrite user_id_fill_missing.
  unfold keyed in Hk. rewrite List.Forall_forall in Hk.
  pose proof (Hk _ Hin) as E. simpl in E. rewrite E.
  destruct (Hst k x (In_users_get _ _ _ Hnd Hin)) as [Hm Hr].
  rewrite first_message_date_fill_missing, first_reaction_date_fill_missing, Hm, Hr.
  split.
  - destruct (user_first_message_date st !! k); reflexivity.
  - destruct (user_first_reaction_date st !! k); reflexivity.
Qed.

(** *** The aggregator against the resolver *)

(** C3 fails on the code.  The identity of key 100 comes from two files;
    the second has the earlier first message, a phone number and a profile
    text.  Replayed into one resolver, the identity takes the earlier
    message and fills phone and profile text; merged by the aggregator, it
    stays as the first file gave it: [_merge_users] copies the username and
    the name parts only. *)
Theorem aggregator_drops_fields :
  let u1 :=
    set_first_message_id (Some (JInt 1))
      (set_first_message_date (Some (naive 20240101100000))
         (set_first_name (Some "Ann"%string) (new_user 100))) in
  let u2 :=
    set_bio (Some "hi"%string)
      (set_phone_number (Some "+100"%string)
         (set_first_message_id (Some (JInt 7))
            (set_first_message_date (Some (naive 20240101090000))
               (set_first_name (Some "Ann"%string) (new_user 100))))) in
  aggregated [u1] [u2] = [u1] /\
  replayed [u1] [u2] =
    [set_registration_date (Some (naive 20240101090000))
       (set_bio (Some "hi"%string)
          (set_phone_number (Some "+100"%string)
             (set_first_message_id (Some (JInt 7))
                (set_first_message_date (Some (naive 20240101090000)) u1))))] /\
  aggregated [u1] [u2] <> replayed [u1] [u2].
Proof.
  intros u1 u2. split; [reflexivity|]. split; [vm_compute; reflexivity|].
  vm_compute. discriminate.
Qed.

(** *** The mention-only flag *)

(** In the HTML parser the author of a message is a user made of the name
    on the message, not a mere mention; the author of a message whose date
    cannot be compared with the one on record is passed over. *)
Lemma extract_user_from_html_spec `{RT : Runtime} st el d :
  _extract_user_from_html st el d =
  if Py.nonempty (Py.strip el) && comparable st (hash (Py.strip el)) d
  then (note_total st (hash (Py.strip el)) d JNull, Some (html_user (Py.strip el)))
  else (st, None).
Proof.
  unfold _extract_user_from_html.
  destruct (Py.nonempty (Py.strip el)) eqn:Hne; cbn [negb andb]; [|reflexivity].
  assert (forall m, decode_author m = Returned (Built (html_user (Py.strip el))) ->
            _extract_user_from_message st m d JNull =
            if comparable st (hash (Py.strip el)) d
            then (note_total st (hash (Py.strip el)) d JNull, Some (html_user (Py.strip el)))
            else (st, None)) as Hex.
  { intros m Hm. unfold _extract_user_from_message. rewrite Hm.
    change (user_id (html_user (Py.strip el))) with (hash (Py.strip el)).
    destruct (comparable st (hash (Py.strip el)) d) eqn:Ec.
    - rewrite note_first_message_comparable by exact Ec. reflexivity.
    - rewrite note_first_message_incomparable by exact Ec. reflexivity. }
  apply Hex. unfold decode_author. cbn [as_dict obind].
  change (dict_get [("from"%string, ?x)] "from" JNull) with x. cbv iota.
  unfold author_by_object.
  match goal with |- context [is_str ?a ?b] => change (is_str a b) with false end.
  cbv iota.
  match goal with |- context [dict_get ?d "bio" ?x] =>
    change (dict_get d "bio" x) with JNull end.
  match goal with |- context [dict_get ?d "id" ?x] =>
    change (dict_get d "id" x) with (JInt (hash (Py.strip el))) end.
  match goal with |- context [dict_get ?d "username" ?x] =>
    change (dict_get d "username" x) with JNull end.
  match goal with |- context [dict_get ?d "is_bot" ?x] =>
    change (dict_get d "is_bot" x) with (JBool false) end.
  match goal with |- context [dict_get ?d "first_name" ?x] =>
    change (dict_get d "first_name" x)
      with (JStr match Py.split1 (Py.strip el) with p :: _ => p | [] => "Unknown"%string end)
  end.
  match goal with |- context [dict_get ?d "last_name" ?x] =>
    change (dict_get d "last_name" x)
      with (match Py.split1 (Py.strip el) with _ :: p :: _ => JStr p | _ => JNull end)
  end.
  unfold _detect_channel_in_profile. cbn [truthy negb obind].
  rewrite as_int_int, as_opt_str_null, as_opt_str_str, as_bool_bool. cbn [of_option obind].
  unfold html_user.
  destruct (Py.split1 (Py.strip el)) as [|p [|q r]];
    rewrite ?as_opt_str_null, ?as_opt_str_str; reflexivity.
Qed.

(** C5 fails on the code, in the JSON parser.  A handle that only occurs
    in the text of a message gets an identity whose mention-only flag is
    false: the temporary user of the JSON parser is built without the
    flag, where the HTML parser sets it. *)
Theorem json_mention_is_not_mention_only `{RT : Runtime} :
  (forall handle, is_mention_only (temp_user handle) = false) /\
  JSONParser_parse
    (Some (export [JDict [("id", JInt 1); ("text", JStr "hi @alice_w")]%string]))
  = Returned [temp_user "alice_w"] /\
  is_mention_only (temp_user "alice_w") = false /\
  HTMLParser_parse (Some [mkHtmlMessage None None (Some "hi @alice_w"%string)])
  = Returned [mentioned_user "alice_w"] /\
  is_mention_only (mentioned_user "alice_w") = true.
Proof. repeat split. Qed.

(** *** Failures of the parsers *)

Lemma for_each_app {S A} (body : S -> A -> outcome S) l1 l2 s :
  for_each body (l1 ++ l2) s = obind (for_each body l1 s) (for_each body l2).
Proof.
  revert s. induction l1 as [|x l1 IH]; intros s; simpl; [reflexivity|].
  destruct (body s x); simpl; [apply IH | reflexivity].
Qed.

Lemma for_each_ext {S A} (f g : S -> A -> outcome S) l s :
  (forall s x, f s x = g s x) -> for_each f l s = for_each g l s.
Proof.
  intros Hfg. revert s. induction l as [|x l IH]; intros s; simpl; [reflexivity|].
  rewrite Hfg. destruct (g s x); simpl; auto.
Qed.

Lemma items_get_cons k' v d k :
  items_get ((k', v) :: d) k = if String.eqb k k' then Some v else items_get d k.
Proof. reflexivity. Qed.

Lemma without_author_cons k' v d :
  without_author ((k', v) :: d) =
  if String.eqb k' "from" then without_author d else (k', v) :: without_author d.
Proof. unfold without_author. cbn [List.filter fst]. destruct (String.eqb k' "from"); reflexivity. Qed.

Lemma items_get_without_author d k :
  String.eqb k "from" = false -> items_get (without_author d) k = items_get d k.
Proof.
  intros Hk. induction d as [|[k' v] d IH]; [reflexivity|].
  rewrite without_author_cons, items_get_cons.
  destruct (String.eqb k' "from") eqn:E.
  - apply String.eqb_eq in E. subst k'. rewrite Hk. exact IH.
  - rewrite items_get_cons, IH. reflexivity.
Qed.

Lemma items_get_without_author_from d : items_get (without_author d) "from" = None.
Proof.
  induction d as [|[k' v] d IH]; [reflexivity|].
  rewrite without_author_cons.
  destruct (String.eqb k' "from") eqn:E; [exact IH|].
  rewrite items_get_cons, String.eqb_sym, E. exact IH.
Qed.

Lemma dict_get_without_author d k default :
  String.eqb k "from" = false -> dict_get (without_author d) k default = dict_get d k default.
Proof. intros Hk. unfold dict_get. rewrite items_get_without_author by exact Hk. reflexivity. Qed.

Section Failures.
Context `{RT : Runtime}.

(** An extraction that gives no user leaves the parser as it was. *)
Lemma extract_none st md d i :
  snd (_extract_user_from_message st md d i) = None ->
  _extract_user_from_message st md d i = (st, None).
Proof.
  unfold _extract_user_from_message.
  destruct (decode_author md) as [[[u|]|u]|]; simpl; try discriminate; try reflexivity.
  destruct (note_first_message st (user_id u) d i); simpl; [discriminate | reflexivity].
Qed.

Lemma extract_built_comparable st md d i u :
  decode_author md = Returned (Built u) -> comparable st (user_id u) d = true ->
  _extract_user_from_message st md d i = (note_total st (user_id u) d i, Some u).
Proof.
  intros Hd Hc. unfold _extract_user_from_message.
  rewrite Hd, note_first_message_comparable by exact Hc. reflexivity.
Qed.

Lemma extract_undecodable st d date i :
  undecodable d = true -> _extract_user_from_message st (JDict d) date i = (st, None).
Proof.
  unfold undecodable, _extract_user_from_message.
  destruct (decode_author (JDict d)) as [[[u|]|u]|]; try discriminate; reflexivity.
Qed.

Lemma dropped_undecodable d name ident :
  items_get d "from" = Some (JStr name) ->
  items_get d "from_id" = Some (JStr ident) ->
  dropped ident = true -> undecodable d = true.
Proof.
  unfold dropped, undecodable, decode_author.
  intros Hf Hi Hd. cbn [as_dict obind]. unfold dict_get. rewrite Hf, Hi.
  rewrite author_by_name_str.
  destruct (Py.startswith ident "user").
  - destruct (Py.int _ _); [discriminate | reflexivity].
  - rewrite Hd. reflexivity.
Qed.

(** A profile text that is a number other than 0 has no method [lower]. *)
Lemma number_bio_undecodable d user_data n :
  items_get d "from" = Some (JDict user_data) ->
  is_str (dict_get user_data "id" JNull) "deleted_account" = false ->
  items_get user_data "bio" = Some (JInt n) -> n <> 0 ->
  undecodable d = true.
Proof.
  unfold undecodable, decode_author, author_by_object.
  intros Hf Hi Hb Hn. cbn [as_dict obind]. unfold dict_get at 1. rewrite Hf, Hi.
  unfold dict_get at 1. rewrite Hb. unfold _detect_channel_in_profile.
  cbn [truthy]. apply Z.eqb_neq in Hn. rewrite Hn. reflexivity.
Qed.

Lemma text_without_author d :
  _extract_text_from_message (JDict (without_author d)) = _extract_text_from_message (JDict d).
Proof.
  unfold _extract_text_from_message. cbn [as_dict obind].
  rewrite dict_get_without_author by reflexivity. reflexivity.
Qed.

Lemma mentioned_without_author st d :
  _extract_mentioned_users_from_message st (JDict (without_author d))
  = _extract_mentioned_users_from_message st (JDict d).
Proof.
  unfold _extract_mentioned_users_from_message. cbn [as_dict obind].
  rewrite !dict_get_without_author by reflexivity.
  destruct (iterate _) as [es|]; [|reflexivity]. cbn [obind].
  apply for_each_ext. intros acc e. unfold mentioned_by_entity.
  rewrite text_without_author. reflexivity.
Qed.

(** A message whose author gives no user is read as if it had no [from]
    field. *)
Lemma parse_message_skips_author st d :
  snd (_extract_user_from_message st (JDict d) (_extract_message_date (JDict d))
                                  (dict_get d "id" JNull)) = None ->
  parse_message st (JDict d) = parse_message st (JDict (without_author d)).
Proof.
  intros Hn. apply extract_none in Hn. unfold parse_message. cbn [as_dict obind].
  rewrite Hn. unfold dict_has. rewrite items_get_without_author_from.
  assert (forall o : option json,
            (if match o with Some _ => true | None => false end
             then Returned st else Returned st) = Returned st) as -> by (intros []; reflexivity).
  cbn [obind].
  rewrite mentioned_without_author, text_without_author.
  rewrite (dict_get_without_author d "reactions") by reflexivity.
  reflexivity.
Qed.

Lemma parse_body_export messages :
  parse_body (export messages) =
  obind (for_each parse_message messages init) (fun st => Returned (roster st)).
Proof. reflexivity. Qed.

Lemma parse_skips_undecodable before after d :
  undecodable d = true ->
  JSONParser_parse (Some (export (before ++ JDict d :: after)))
  = JSONParser_parse (Some (export (before ++ JDict (without_author d) :: after))).
Proof.
  intros Hd. unfold JSONParser_parse. rewrite !parse_body_export, !for_each_app.
  destruct (for_each parse_message before init) as [st|]; [|reflexivity].
  cbn [obind for_each]. rewrite (parse_message_skips_author st d); [reflexivity|].
  rewrite extract_undecodable by exact Hd. reflexivity.
Qed.

Lemma decode_message_of n :
  decode_author (message_of n)
  = Returned (Built (set_bio (Some EmptyString) (new_user n))).
Proof.
  unfold decode_author, message_of. cbn [as_dict obind].
  change (dict_get [("from"%string, ?x)] "from" JNull) with x. cbv iota.
  unfold author_by_object.
  match goal with |- context [is_str ?a ?b] => change (is_str a b) with false end.
  cbv iota.
  match goal with |- context [dict_get ?d "bio" ?x] =>
    change (dict_get d "bio" x) with (JStr "") end.
  match goal with |- context [dict_get ?d "id" ?x] =>
    change (dict_get d "id" x) with (JInt n) end.
  match goal with |- context [dict_get ?d "username" ?x] =>
    change (dict_get d "username" x) with JNull end.
  match goal with |- context [dict_get ?d "is_bot" ?x] =>
    change (dict_get d "is_bot" x) with (JBool false) end.
  match goal with |- context [dict_get ?d "first_name" ?x] =>
    change (dict_get d "first_name" x) with JNull end.
  match goal with |- context [dict_get ?d "last_name" ?x] =>
    change (dict_get d "last_name" x) with JNull end.
  unfold _detect_channel_in_profile. cbn [truthy Py.nonempty negb obind].
  rewrite as_int_int, as_opt_str_null, as_opt_str_str, as_bool_bool. reflexivity.
Qed.

Lemma comparable_init k d : comparable init k d = true.
Proof.
  unfold comparable, comparable_with. simpl. rewrite lookup_empty.
  destruct d; reflexivity.
Qed.

(** The message after a message that is skipped is read. *)
Lemma parse_after_skipped name ident n :
  dropped ident = true ->
  map user_id (returned (JSONParser_parse
                           (Some (export [author_message name ident; message_of n]))))
  = [n].
Proof.
  intros Hd.
  change [author_message name ident; message_of n]
    with ([] ++ JDict [("from", JStr name); ("from_id", JStr ident)]%string
             :: [message_of n]).
  rewrite (parse_skips_undecodable [] [message_of n]
             [("from", JStr name); ("from_id", JStr ident)]%string)
    by (apply (dropped_undecodable _ name ident); [reflexivity | reflexivity | exact Hd]).
  unfold JSONParser_parse. rewrite parse_body_export.
  change (without_author [("from", JStr name); ("from_id", JStr ident)]%string)
    with [("from_id"%string, JStr ident)].
  cbn [app for_each].
  change (parse_message init (JDict [("from_id"%string, JStr ident)])) with (Returned init).
  cbn [obind]. unfold parse_message, message_of. cbn [as_dict obind].
  change (dict_has [("from"%string, ?x)] "from") with true. cbv iota.
  fold (message_of n).
  rewrite (extract_built_comparable init (message_of n) _ _ _ (decode_message_of n))
    by apply comparable_init.
  set (st1 := note_total init _ _ _).
  assert (users st1 = []) as Hu by apply users_note_first_message.
  change (_extract_phone_from_message (message_of n)) with (@None string).
  change (_extract_mention_from_message (message_of n)) with (@None string).
  cbn [filled andb].
  unfold _add_user. cbn [is_deleted set_bio new_user user_id]. rewrite Hu.
  cbn [users_get users_set obind].
  set (st2 := with_users _ st1).
  change (_extract_mentioned_users_from_message st2 (message_of n))
    with (Returned (st2, @nil TelegramUser)).
  cbn [obind for_each].
  change (_extract_text_from_message (message_of n)) with (Returned EmptyString).
  cbn [obind Py.nonempty].
  change (iterate (dict_get [("from"%string, JDict [("id"%string, JInt n)])]
                            "reactions" (JList [])))
    with (Returned (@nil json)).
  cbn [obind for_each returned].
  unfold roster, get_unique_users. cbn [snd]. rewrite map_map.
  subst st2. cbn [users with_users map fst snd].
  rewrite user_id_fill_missing, user_id_first_sighting. reflexivity.
Qed.

End Failures.

(** C6, as the code has it.  Neither parser raises: each returns a list for
    every input, and the empty list, as for an export without messages,
    when the container cannot be read (invalid JSON, an unreadable file).
    A message whose author gives no user is not an error: it is read as if
    it had no [from] field, whatever the parser has seen before, and the
    parse goes on with the messages after it as it would without the
    author.  This is so for every author that cannot be decoded, as an
    identifier with the prefix [user] and no integer after it, or with
    the prefix [channel], or a profile text that is a number.  The
    message after a skipped one is read: its author is in the roster. *)
Theorem parsers_return_empty_on_failure `{RT : Runtime} :
  (forall content, exists us, JSONParser_parse content = Returned us) /\
  JSONParser_parse None = Returned [] /\
  JSONParser_parse (Some (export [])) = Returned [] /\
  (forall content, exists us, HTMLParser_parse content = Returned us) /\
  HTMLParser_parse None = Returned [] /\
  HTMLParser_parse (Some []) = Returned [] /\
  (forall st d,
      snd (_extract_user_from_message st (JDict d) (_extract_message_date (JDict d))
                                      (dict_get d "id" JNull)) = None ->
      parse_message st (JDict d) = parse_message st (JDict (without_author d))) /\
  (forall before after d,
      undecodable d = true ->
      JSONParser_parse (Some (export (before ++ JDict d :: after)))
      = JSONParser_parse (Some (export (before ++ JDict (without_author d) :: after)))) /\
  (forall d name ident,
      items_get d "from" = Some (JStr name) ->
      items_get d "from_id" = Some (JStr ident) ->
      dropped ident = true -> undecodable d = true) /\
  (forall d user_data n,
      items_get d "from" = Some (JDict user_data) ->
      is_str (dict_get user_data "id" JNull) "deleted_account" = false ->
      items_get user_data "bio" = Some (JInt n) -> n <> 0 ->
      undecodable d = true) /\
  (forall name ident n,
      dropped ident = true ->
      map user_id (returned (JSONParser_parse
                               (Some (export [author_message name ident; message_of n]))))
      = [n]).
Proof.
  split; [|split; [|split; [|split; [|split; [|split; [|split; [|split; [|split; [|split]]]]]]]]].
  - intros [data|]; simpl; [|eauto]. destruct (parse_body data); eauto.
  - reflexivity.
  - reflexivity.
  - intros [messages|]; simpl; [|eauto].
    destruct (for_each parse_html_message messages init); eauto.
  - reflexivity.
  - reflexivity.
  - exact parse_message_skips_author.
  - exact parse_skips_undecodable.
  - exact dropped_undecodable.
  - exact number_bio_undecodable.
  - exact parse_after_skipped.
Qed.

Lemma parsers_return_empty_on_failure_witness :
  let message :=
    JDict [("id", JInt 1); ("from", JDict [("id", JInt 100)])]%string in
  let skipped :=
    [("id", JInt 2); ("from", JDict [("id", JInt 7); ("bio", JInt 123)]);
     ("text", JStr "hi")]%string in
  JSONParser_parse (Some (export ([message] ++ JDict skipped :: [])))
  = JSONParser_parse (Some (export ([message] ++ JDict (without_author skipped) :: []))) /\
  map user_id (returned (JSONParser_parse
                           (Some (export [author_message "Bob Lee" "userabc";
                                          message_of 100]))))
  = [100].
Proof.
  intros message skipped.
  pose proof (@parsers_return_empty_on_failure Sample.runtime)
    as (_ & _ & _ & _ & _ & _ & _ & Hskip & _ & Hbio & Hafter).
  split.
  - apply Hskip.
    apply (Hbio skipped [("id", JInt 7); ("bio", JInt 123)]%string 123);
      [reflexivity | reflexivity | reflexivity | discriminate].
  - apply Hafter. reflexivity.
Defined.

(** C6, as the specification has it, fails: invalid JSON is not an error
    for the caller, the parser returns the empty list; and a record of an
    unexpected shape, such as a message that is a number, is not passed
    over: the parse of the whole file is given up and the identities
    already found are lost. *)
Lemma failure_contract_counterexample :
  ~ failure_contract_claim /\
  (let message :=
     JDict [("id", JInt 1); ("from", JDict [("id", JInt 100)])]%string in
   map user_id (returned (JSONParser_parse (Some (export [message])))) = [100] /\
   JSONParser_parse (Some (export [message; JInt 5])) = Returned []).
Proof.
  split.
  - intros [H _]. discriminate H.
  - split; reflexivity.
Qed.

(** ** Further properties of the code *)

(** *** The other fields through the updates of a record *)

Section MoreFields.
Variables (st : Parser) (k : Z) (user e : TelegramUser).

Lemma username_clear_mention_only : username (clear_mention_only user e) = username e.
Proof. frame clear_mention_only. Qed.

Lemma first_name_clear_mention_only : first_name (clear_mention_only user e) = first_name e.
Proof. frame clear_mention_only. Qed.

Lemma last_name_clear_mention_only : last_name (clear_mention_only user e) = last_name e.
Proof. frame clear_mention_only. Qed.

Lemma phone_number_clear_mention_only : phone_number (clear_mention_only user e) = phone_number e.
Proof. frame clear_mention_only. Qed.

Lemma birth_date_clear_mention_only : birth_date (clear_mention_only user e) = birth_date e.
Proof. frame clear_mention_only. Qed.

Lemma bio_clear_mention_only : bio (clear_mention_only user e) = bio e.
Proof. frame clear_mention_only. Qed.

Lemma registration_date_clear_mention_only : registration_date (clear_mention_only user e) = registration_date e.
Proof. frame clear_mention_only. Qed.

Lemma is_bot_clear_mention_only : is_bot (clear_mention_only user e) = is_bot e.
Proof. frame clear_mention_only. Qed.

Lemma is_deleted_clear_mention_only : is_deleted (clear_mention_only user e) = is_deleted e.
Proof. frame clear_mention_only. Qed.

Lemma mention_clear_mention_only : mention (clear_mention_only user e) = mention e.
Proof. frame clear_mention_only. Qed.

Lemma first_message_id_clear_mention_only : first_message_id (clear_mention_only user e) = first_message_id e.
Proof. frame clear_mention_only. Qed.

Lemma username_take_first_message : username (first_message_total st k e) = username e.
Proof. frame first_message_total. Qed.

Lemma first_name_take_first_message : first_name (first_message_total st k e) = first_name e.
Proof. frame first_message_total. Qed.

Lemma last_name_take_first_message : last_name (first_message_total st k e) = last_name e.
Proof. frame first_message_total. Qed.

Lemma phone_number_take_first_message : phone_number (first_message_total st k e) = phone_number e.
Proof. frame first_message_total. Qed.

Lemma birth_date_take_first_message : birth_date (first_message_total st k e) = birth_date e.
Proof. frame first_message_total. Qed.

Lemma bio_take_first_message : bio (first_message_total st k e) = bio e.
Proof. frame first_message_total. Qed.

Lemma is_bot_take_first_message : is_bot (first_message_total st k e) = is_bot e.
Proof. frame first_message_total. Qed.

Lemma is_deleted_take_first_message : is_deleted (first_message_total st k e) = is_deleted e.
Proof. frame first_message_total. Qed.

Lemma mention_take_first_message : mention (first_message_total st k e) = mention e.
Proof. frame first_message_total. Qed.

Lemma is_mention_only_take_first_message : is_mention_only (first_message_total st k e) = is_mention_only e.
Proof. frame first_message_total. Qed.

Lemma username_take_first_reaction : username (first_reaction_total st k e) = username e.
Proof. frame first_reaction_total. Qed.

Lemma first_name_take_first_reaction : first_name (first_reaction_total st k e) = first_name e.
Proof. frame first_reaction_total. Qed.

Lemma last_name_take_first_reaction : last_name (first_reaction_total st k e) = last_name e.
Proof. frame first_reaction_total. Qed.

Lemma phone_number_take_first_reaction : phone_number (first_reaction_total st k e) = phone_number e.
Proof. frame first_reaction_total. Qed.

Lemma birth_date_take_first_reaction : birth_date (first_reaction_total st k e) = birth_date e.
Proof. frame first_reaction_total. Qed.

Lemma bio_take_first_reaction : bio (first_reaction_total st k e) = bio e.
Proof. frame first_reaction_total. Qed.

Lemma registration_date_take_first_reaction : registration_date (first_reaction_total st k e) = registration_date e.
Proof. frame first_reaction_total. Qed.

Lemma is_bot_take_first_reaction : is_bot (first_reaction_total st k e) = is_bot e.
Proof. frame first_reaction_total. Qed.

Lemma is_deleted_take_first_reaction : is_deleted (first_reaction_total st k e) = is_deleted e.
Proof. frame first_reaction_total. Qed.

Lemma mention_take_first_reaction : mention (first_reaction_total st k e) = mention e.
Proof. frame first_reaction_total. Qed.

Lemma first_message_id_take_first_reaction : first_message_id (first_reaction_total st k e) = first_message_id e.
Proof. frame first_reaction_total. Qed.

Lemma is_mention_only_take_first_reaction : is_mention_only (first_reaction_total st k e) = is_mention_only e.
Proof. frame first_reaction_total. Qed.

Lemma first_name_take_channel_and_username : first_name (take_channel_and_username user e) = first_name e.
Proof. frame take_channel_and_username. Qed.

Lemma last_name_take_channel_and_username : last_name (take_channel_and_username user e) = last_name e.
Proof. frame take_channel_and_username. Qed.

Lemma phone_number_take_channel_and_username : phone_number (take_channel_and_username user e) = phone_number e.
Proof. frame take_channel_and_username. Qed.

Lemma birth_date_take_channel_and_username : birth_date (take_channel_and_username user e) = birth_date e.
Proof. frame take_channel_and_username. Qed.

Lemma bio_take_channel_and_username : bio (take_channel_and_username user e) = bio e.
Proof. frame take_channel_and_username. Qed.

Lemma registration_date_take_channel_and_username : registration_date (take_channel_and_username user e) = registration_date e.
Proof. frame take_channel_and_username. Qed.

Lemma is_bot_take_channel_and_username : is_bot (take_channel_and_username user e) = is_bot e.
Proof. frame take_channel_and_username. Qed.

Lemma is_deleted_take_channel_and_username : is_deleted (take_channel_and_username user e) = is_deleted e.
Proof. frame take_channel_and_username. Qed.

Lemma mention_take_channel_and_username : mention (take_channel_and_username user e) = mention e.
Proof. frame take_channel_and_username. Qed.

Lemma first_message_id_take_channel_and_username : first_message_id (take_channel_and_username user e) = first_message_id e.
Proof. frame take_channel_and_username. Qed.

Lemma is_mention_only_take_channel_and_username : is_mention_only (take_channel_and_username user e) = is_mention_only e.
Proof. frame take_channel_and_username. Qed.

Lemma username_fill_blanks : username (fill_blanks user e) = username e.
Proof. frame fill_blanks. Qed.

Lemma birth_date_fill_blanks : birth_date (fill_blanks user e) = birth_date e.
Proof. frame fill_blanks. Qed.

Lemma registration_date_fill_blanks : registration_date (fill_blanks user e) = registration_date e.
Proof. frame fill_blanks. Qed.

Lemma is_bot_fill_blanks : is_bot (fill_blanks user e) = is_bot e.
Proof. frame fill_blanks. Qed.

Lemma is_deleted_fill_blanks : is_deleted (fill_blanks user e) = is_deleted e.
Proof. frame fill_blanks. Qed.

Lemma first_message_id_fill_blanks : first_message_id (fill_blanks user e) = first_message_id e.
Proof. frame fill_blanks. Qed.

Lemma is_mention_only_fill_blanks : is_mention_only (fill_blanks user e) = is_mention_only e.
Proof. frame fill_blanks. Qed.

Lemma username_first_sighting : username (first_sighting st user) = username user.
Proof. frame first_sighting. Qed.

Lemma first_name_first_sighting : first_name (first_sighting st user) = first_name user.
Proof. frame first_sighting. Qed.

Lemma last_name_first_sighting : last_name (first_sighting st user) = last_name user.
Proof. frame first_sighting. Qed.

Lemma phone_number_first_sighting : phone_number (first_sighting st user) = phone_number user.
Proof. frame first_sighting. Qed.

Lemma birth_date_first_sighting : birth_date (first_sighting st user) = birth_date user.
Proof. frame first_sighting. Qed.

Lemma bio_first_sighting : bio (first_sighting st user) = bio user.
Proof. frame first_sighting. Qed.

Lemma is_bot_first_sighting : is_bot (first_sighting st user) = is_bot user.
Proof. frame first_sighting. Qed.

Lemma is_deleted_first_sighting : is_deleted (first_sighting st user) = is_deleted user.
Proof. frame first_sighting. Qed.

Lemma mention_first_sighting : mention (first_sighting st user) = mention user.
Proof. frame first_sighting. Qed.

Lemma is_mention_only_first_sighting : is_mention_only (first_sighting st user) = is_mention_only user.
Proof. frame first_sighting. Qed.

Lemma username_fill_missing : username (fill_missing st k user) = username user.
Proof. frame fill_missing. Qed.

Lemma first_name_fill_missing : first_name (fill_missing st k user) = first_name user.
Proof. frame fill_missing. Qed.

Lemma last_name_fill_missing : last_name (fill_missing st k user) = last_name user.
Proof. frame fill_missing. Qed.

Lemma phone_number_fill_missing : phone_number (fill_missing st k user) = phone_number user.
Proof. frame fill_missing. Qed.

Lemma birth_date_fill_missing : birth_date (fill_missing st k user) = birth_date user.
Proof. frame fill_missing. Qed.

Lemma bio_fill_missing : bio (fill_missing st k user) = bio user.
Proof. frame fill_missing. Qed.

Lemma is_bot_fill_missing : is_bot (fill_missing st k user) = is_bot user.
Proof. frame fill_missing. Qed.

Lemma is_deleted_fill_missing : is_deleted (fill_missing st k user) = is_deleted user.
Proof. frame fill_missing. Qed.

Lemma mention_fill_missing : mention (fill_missing st k user) = mention user.
Proof. frame fill_missing. Qed.

Lemma is_mention_only_fill_missing : is_mention_only (fill_missing st k user) = is_mention_only user.
Proof. frame fill_missing. Qed.

End MoreFields.

#[local] Hint Rewrite
  username_clear_mention_only first_name_clear_mention_only
  last_name_clear_mention_only phone_number_clear_mention_only
  birth_date_clear_mention_only bio_clear_mention_only
  registration_date_clear_mention_only is_bot_clear_mention_only
  is_deleted_clear_mention_only mention_clear_mention_only
  first_message_id_clear_mention_only username_take_first_message
  first_name_take_first_message last_name_take_first_message
  phone_number_take_first_message birth_date_take_first_message
  bio_take_first_message is_bot_take_first_message
  is_deleted_take_first_message mention_take_first_message
  is_mention_only_take_first_message username_take_first_reaction
  first_name_take_first_reaction last_name_take_first_reaction
  phone_number_take_first_reaction birth_date_take_first_reaction
  bio_take_first_reaction registration_date_take_first_reaction
  is_bot_take_first_reaction is_deleted_take_first_reaction
  mention_take_first_reaction first_message_id_take_first_reaction
  is_mention_only_take_first_reaction first_name_take_channel_and_username
  last_name_take_channel_and_username phone_number_take_channel_and_username
  birth_date_take_channel_and_username bio_take_channel_and_username
  registration_date_take_channel_and_username
  is_bot_take_channel_and_username is_deleted_take_channel_and_username
  mention_take_channel_and_username
  first_message_id_take_channel_and_username
  is_mention_only_take_channel_and_username username_fill_blanks
  birth_date_fill_blanks registration_date_fill_blanks is_bot_fill_blanks
  is_deleted_fill_blanks first_message_id_fill_blanks
  is_mention_only_fill_blanks username_first_sighting
  first_name_first_sighting last_name_first_sighting
  phone_number_first_sighting birth_date_first_sighting bio_first_sighting
  is_bot_first_sighting is_deleted_first_sighting mention_first_sighting
  is_mention_only_first_sighting username_fill_missing
  first_name_fill_missing last_name_fill_missing phone_number_fill_missing
  birth_date_fill_missing bio_fill_missing is_bot_fill_missing
  is_deleted_fill_missing mention_fill_missing is_mention_only_fill_missing : fields.

#[local] Hint Rewrite user_id_first_sighting has_channel_first_sighting
  user_id_fill_missing has_channel_fill_missing : fields.

Lemma is_mention_only_clear_mention_only user e :
  is_mention_only (clear_mention_only user e) = is_mention_only e && is_mention_only user.
Proof.
  unfold clear_mention_only. destruct (is_mention_only user); simpl.
  - rewrite andb_true_r. reflexivity.
  - rewrite andb_false_r. reflexivity.
Qed.

Lemma username_take_channel_and_username user e :
  username (take_channel_and_username user e) =
  if filled (username user) then username user else username e.
Proof. unfold take_channel_and_username. cases. Qed.

Lemma registration_date_take_first_message st k e :
  registration_date (first_message_total st k e) =
  match user_first_message_date st !! k with
  | Some d => Some d
  | None => registration_date e
  end.
Proof. unfold first_message_total. cases. Qed.

Lemma first_message_id_take_first_message st k e :
  first_message_id (first_message_total st k e) =
  match user_first_message_date st !! k with
  | Some new =>
      if match first_message_date e with
         | None => true
         | Some old => instant new <? instant old
         end
      then match user_first_message_id st !! k with
           | Some i => Some i
           | None => first_message_id e
           end
      else first_message_id e
  | None =>
      match user_first_message_id st !! k with
      | Some i => if negb (filled_json (first_message_id e))
                  then Some i else first_message_id e
      | None => first_message_id e
      end
  end.
Proof. unfold first_message_total. cases. Qed.

Ltac fill_field := unfold fill_blanks, fill; cbv zeta; peel; cases.

Lemma phone_number_fill_blanks user e :
  phone_number (fill_blanks user e) = fill (phone_number e) (phone_number user).
Proof. fill_field. Qed.

Lemma mention_fill_blanks user e :
  mention (fill_blanks user e) = fill (mention e) (mention user).
Proof. fill_field. Qed.

Lemma first_name_fill_blanks user e :
  first_name (fill_blanks user e) = fill (first_name e) (first_name user).
Proof. fill_field. Qed.

Lemma last_name_fill_blanks user e :
  last_name (fill_blanks user e) = fill (last_name e) (last_name user).
Proof. fill_field. Qed.

Lemma bio_fill_blanks user e :
  bio (fill_blanks user e) = fill (bio e) (bio user).
Proof. fill_field. Qed.

#[local] Hint Rewrite is_mention_only_clear_mention_only
  username_take_channel_and_username registration_date_take_first_message
  first_message_id_take_first_message first_reaction_emoji_take_first_reaction
  phone_number_fill_blanks mention_fill_blanks first_name_fill_blanks
  last_name_fill_blanks bio_fill_blanks : fields.

Ltac merged := unfold merge_total; cbv zeta; autorewrite with fields; reflexivity.

Section Merged.
Variables (st : Parser) (e user : TelegramUser).

Lemma username_merge_existing :
  username (merge_total st e user) =
  if filled (username user) then username user else username e.
Proof. merged. Qed.

Lemma first_name_merge_existing :
  first_name (merge_total st e user) = fill (first_name e) (first_name user).
Proof. merged. Qed.

Lemma last_name_merge_existing :
  last_name (merge_total st e user) = fill (last_name e) (last_name user).
Proof. merged. Qed.

Lemma phone_number_merge_existing :
  phone_number (merge_total st e user) = fill (phone_number e) (phone_number user).
Proof. merged. Qed.

Lemma bio_merge_existing :
  bio (merge_total st e user) = fill (bio e) (bio user).
Proof. merged. Qed.

Lemma mention_merge_existing :
  mention (merge_total st e user) = fill (mention e) (mention user).
Proof. merged. Qed.

Lemma birth_date_merge_existing : birth_date (merge_total st e user) = birth_date e.
Proof. merged. Qed.

Lemma is_bot_merge_existing : is_bot (merge_total st e user) = is_bot e.
Proof. merged. Qed.

Lemma is_deleted_merge_existing : is_deleted (merge_total st e user) = is_deleted e.
Proof. merged. Qed.

Lemma is_mention_only_merge_existing :
  is_mention_only (merge_total st e user) = is_mention_only e && is_mention_only user.
Proof. merged. Qed.

Lemma registration_date_merge_existing :
  registration_date (merge_total st e user) =
  match user_first_message_date st !! user_id user with
  | Some d => Some d
  | None => registration_date e
  end.
Proof. merged. Qed.

Lemma first_message_id_merge_existing :
  first_message_id (merge_total st e user) =
  first_message_id (first_message_total st (user_id user) e).
Proof. merged. Qed.

End Merged.

(** *** Resolutions that end without an exception *)

Lemma comparable_of_kind a (table : gmap Z datetime) k d :
  (forall k, kind_of a (table !! k) = true) -> kind_of a d = true ->
  comparable_with table k d = true.
Proof.
  intros Ht Hd. unfold comparable_with. destruct d as [t|]; [|reflexivity].
  specialize (Ht k). destruct (table !! k) as [old|]; [|reflexivity].
  simpl in *. apply Bool.eqb_prop in Ht, Hd. rewrite Ht, Hd, Bool.eqb_reflx.
  apply orb_true_r.
Qed.

Lemma take_first_message_returns st k e :
  (forall new old, user_first_message_date st !! k = Some new ->
                   first_message_date e = Some old -> aware new = aware old) ->
  take_first_message st k e = Returned (first_message_total st k e).
Proof.
  intros H. unfold take_first_message, first_message_total. cbv zeta.
  destruct (user_first_message_date st !! k) as [new|]; [|reflexivity].
  cbn [first_message_date set_registration_date].
  destruct (first_message_date e) as [old|]; [|reflexivity].
  rewrite (before_one_kind new old) by (apply H; reflexivity). cbn [obind].
  destruct (instant new <? instant old); reflexivity.
Qed.

Lemma take_first_reaction_returns st k e :
  (forall new old, user_first_reaction_date st !! k = Some new ->
                   first_reaction_date e = Some old -> aware new = aware old) ->
  take_first_reaction st k e = Returned (first_reaction_total st k e).
Proof.
  intros H. unfold take_first_reaction, first_reaction_total.
  destruct (user_first_reaction_date st !! k) as [new|]; [|reflexivity].
  destruct (first_reaction_date e) as [old|]; [|reflexivity].
  rewrite (before_one_kind new old) by (apply H; reflexivity). cbn [obind].
  destruct (instant new <? instant old); reflexivity.
Qed.

Lemma merge_existing_returns st e u :
  one_kind st (user_id u) e -> merge_existing st e u = Returned (merge_total st e u).
Proof.
  intros [Hm Hr]. unfold merge_existing, merge_total. cbv zeta.
  rewrite take_first_message_returns
    by (intros new old; rewrite first_message_date_clear_mention_only; apply Hm).
  cbn [obind].
  rewrite take_first_reaction_returns; [reflexivity|].
  intros new old.
  rewrite first_reaction_date_take_first_message, first_reaction_date_clear_mention_only.
  apply Hr.
Qed.

Lemma add_user_returns st u :
  (forall e, users_get (users st) (user_id u) = Some e -> one_kind st (user_id u) e) ->
  _add_user st u = Returned (add_total st u).
Proof.
  intros H. unfold _add_user, add_total. destruct (is_deleted u); [reflexivity|]. cbv zeta.
  destruct (users_get (users st) (user_id u)) as [e|]; [|reflexivity].
  rewrite merge_existing_returns by (apply H; reflexivity). reflexivity.
Qed.

(** An observation whose dates can be compared with those on record, in a
    state whose identities are in step with the tables, returns. *)
Lemma observe_returns st o :
  in_step st ->
  comparable st (user_id (seen o)) (message_date o) = true ->
  comparable_with (user_first_reaction_date st) (user_id (seen o)) (reaction_date o) = true ->
  observe st o = Returned (observe_total st o).
Proof.
  intros Hstep Hm Hr. unfold observe, observe_total.
  rewrite note_first_message_comparable by exact Hm. cbn [obind].
  rewrite save_first_reaction_comparable
    by (rewrite reaction_dates_note_first_message; exact Hr).
  cbn [obind]. apply add_user_returns. intros e He.
  rewrite users_save_first_reaction, users_note_first_message in He.
  destruct (Hstep _ _ He) as [Em Er]. split; intros new old Hn Ho.
  - rewrite message_dates_save_first_reaction, dates_note_first_message in Hn.
    rewrite Em in Ho. rewrite Ho in Hn.
    unfold comparable, comparable_with in Hm. rewrite Ho in Hm.
    destruct (message_date o) as [t|]; [|injection Hn as <-; reflexivity].
    rewrite Z.eqb_refl, andb_true_r in Hn.
    destruct (user_id (seen o) =? 0); simpl in Hn, Hm; [injection Hn as <-; reflexivity|].
    apply Bool.eqb_prop in Hm. injection Hn as <-.
    destruct (instant t <? instant old); [exact Hm | reflexivity].
  - rewrite dates_save_first_reaction, reaction_dates_note_first_message in Hn.
    rewrite Er in Ho. rewrite Ho in Hn.
    unfold comparable_with in Hr. rewrite Ho in Hr.
    destruct (reaction_date o) as [t|]; [|injection Hn as <-; reflexivity].
    rewrite Z.eqb_refl, andb_true_r in Hn.
    destruct (user_id (seen o) =? 0); simpl in Hn, Hr; [injection Hn as <-; reflexivity|].
    apply Bool.eqb_prop in Hr. injection Hn as <-.
    destruct (instant t <? instant old); [exact Hr | reflexivity].
Qed.

Lemma kind_of_min_step a k uid d acc :
  kind_of a d = true -> kind_of a acc = true -> kind_of a (min_step k uid d acc) = true.
Proof.
  intros Hd Ha. unfold min_step. destruct d as [t|]; [|exact Ha].
  destruct (negb (uid =? 0) && (k =? uid)); [|exact Ha].
  destruct acc as [old|]; [|exact Hd]. simpl in *.
  destruct (instant t <? instant old); assumption.
Qed.

Lemma tables_of_kind_observe a st o :
  tables_of_kind a st -> of_kind a o = true -> tables_of_kind a (observe_total st o).
Proof.
  intros [Hm Hr] Ho. apply andb_true_iff in Ho. destruct Ho as [Hom Hor].
  split; intros k.
  - rewrite message_dates_observe_step. apply kind_of_min_step; auto.
  - rewrite reaction_dates_observe_step. apply kind_of_min_step; auto.
Qed.

Lemma in_step_init : in_step init.
Proof. intros k u Hu. discriminate Hu. Qed.

Lemma tables_of_kind_init a : tables_of_kind a init.
Proof. split; intros k; simpl; rewrite lookup_empty; reflexivity. Qed.

(** Observations of the extractors with dates of one kind are resolved
    without an exception. *)
Lemma observations_return a obs st :
  in_step st -> tables_of_kind a st ->
  forallb extracted obs = true -> forallb (of_kind a) obs = true ->
  for_each observe obs st = Returned (fold_left observe_total obs st) /\
  in_step (fold_left observe_total obs st) /\
  tables_of_kind a (fold_left observe_total obs st).
Proof.
  revert st. induction obs as [|o obs IH]; simpl; intros st Hs Ht He Hk; [auto|].
  apply andb_true_iff in He, Hk. destruct He as [Heo He], Hk as [Hko Hk].
  pose proof Hko as Hko'. apply andb_true_iff in Hko'. destruct Hko' as [Hkm Hkr].
  rewrite observe_returns;
    [|exact Hs
     |apply (comparable_of_kind a); [apply Ht | exact Hkm]
     |apply (comparable_of_kind a); [apply Ht | exact Hkr]].
  cbn [obind]. apply IH; auto.
  - apply in_step_observe; assumption.
  - apply tables_of_kind_observe; assumption.
Qed.

Lemma resolve_returns a obs :
  forallb extracted obs = true -> forallb (of_kind a) obs = true ->
  resolve obs = Returned (resolve_total obs).
Proof.
  intros He Hk.
  apply (observations_return a obs init in_step_init (tables_of_kind_init a) He Hk).
Qed.

Lemma unique_identities_returned a obs :
  forallb extracted obs = true -> forallb (of_kind a) obs = true ->
  resolves obs = true /\ unique_identities obs = identities_total obs.
Proof.
  intros He Hk. unfold resolves, unique_identities.
  rewrite (resolve_returns a obs He Hk). auto.
Qed.

(** *** The earliest reaction of a key *)

Lemma new_sighting_not_deleted u : new_sighting u = true -> user_id u <> 0 -> is_deleted u = false.
Proof.
  intros Hn Hk. apply (extracted_fields (mkObservation u None JNull None JNull)) in Hn.
  destruct Hn as (_ & _ & Hd). simpl in Hd.
  destruct (is_deleted u); [exfalso; auto | reflexivity].
Qed.

(** Two reactions of one kind with symbols, in a row, for a key without a
    reaction so far, in a state in step with its tables: both are
    recorded without an exception. *)
Lemma two_reactions_return st u1 u2 t1 t2 e1 e2 :
  let k := user_id u1 in
  k <> 0 -> user_id u2 = k ->
  new_sighting u1 = true -> new_sighting u2 = true ->
  aware t1 = aware t2 ->
  in_step st ->
  user_first_reaction_date st !! k = None ->
  observe st (reaction u1 t1 e1) = Returned (observe_total st (reaction u1 t1 e1)) /\
  observe (observe_total st (reaction u1 t1 e1)) (reaction u2 t2 e2)
  = Returned (observe_total (observe_total st (reaction u1 t1 e1)) (reaction u2 t2 e2)).
Proof.
  intros k Hk Hk2 Hn1 Hn2 Hkind Hstep Hnone.
  assert (observe st (reaction u1 t1 e1) = Returned (observe_total st (reaction u1 t1 e1)))
    as H1.
  { apply observe_returns; [exact Hstep | reflexivity|].
    unfold comparable_with. cbn [reaction_date reaction seen]. fold k. rewrite Hnone.
    reflexivity. }
  split; [exact H1|].
  apply observe_returns.
  - apply in_step_observe; [exact Hn1 | exact Hstep].
  - reflexivity.
  - unfold comparable_with. cbn [reaction_date reaction seen].
    rewrite reaction_dates_observe. cbn [reaction_date reaction seen].
    rewrite Hk2. fold k. rewrite Hnone, Z.eqb_refl.
    assert ((k =? 0) = false) as -> by (apply Z.eqb_neq; exact Hk).
    cbn [negb andb orb earlier]. rewrite Hkind, Bool.eqb_reflx. reflexivity.
Qed.

(** C4, as the code has it.  For a key other than 0 and two dates of one
    kind (both naive or both aware): after a reaction at [t1] and one at
    [t2], each with a symbol, of users as the extractors make them, for a
    key without a reaction before them, in a state whose identities are
    in step with the tables (as the state of a new parser, and every
    state that observations of the extractors lead to), both observations
    return, and the time recorded for the key, in the parser's table and
    in the identity, is [min t1 t2], and the symbol is the one that came
    with it (the first on a tie).  For every key: a recorded earliest
    message or reaction time, in the tables and in the identities, is
    followed by an equal or earlier one of its kind after any observation
    that returns and after any extraction of an author, and
    [get_unique_users] leaves it as it is.  For key 0 no time is
    recorded at all. *)
Theorem earliest_reaction_of_nonzero_key :
  (forall st u1 u2 t1 t2 e1 e2,
      let k := user_id u1 in
      k <> 0 -> user_id u2 = k ->
      new_sighting u1 = true -> new_sighting u2 = true ->
      truthy e1 = true -> truthy e2 = true ->
      aware t1 = aware t2 ->
      in_step st ->
      user_first_reaction_date st !! k = None ->
      exists st1 st',
        observe st (reaction u1 t1 e1) = Returned st1 /\
        observe st1 (reaction u2 t2 e2) = Returned st' /\
        user_first_reaction_date st' !! k = Some (min_date t1 t2) /\
        user_first_reaction_emoji st' !! k = Some (winner t1 t2 e1 e2) /\
        exists u, users_get (users st') k = Some u /\
                  first_reaction_date u = Some (min_date t1 t2) /\
                  first_reaction_emoji u = Some (winner t1 t2 e1 e2)) /\
  in_step init /\
  (forall st o st',
      in_step st -> extracted o = true -> observe st o = Returned st' -> in_step st') /\
  (forall st o st' k t,
      observe st o = Returned st' ->
      user_first_message_date st !! k = Some t ->
      exists t', user_first_message_date st' !! k = Some t' /\ no_later t' t) /\
  (forall st o st' k t,
      observe st o = Returned st' ->
      user_first_reaction_date st !! k = Some t ->
      exists t', user_first_reaction_date st' !! k = Some t' /\ no_later t' t) /\
  (forall st o st' k u t,
      observe st o = Returned st' ->
      users_get (users st) k = Some u -> first_message_date u = Some t ->
      exists u' t', users_get (users st') k = Some u' /\
                    first_message_date u' = Some t' /\ no_later t' t) /\
  (forall st o st' k u t,
      observe st o = Returned st' ->
      users_get (users st) k = Some u -> first_reaction_date u = Some t ->
      exists u' t', users_get (users st') k = Some u' /\
                    first_reaction_date u' = Some t' /\ no_later t' t) /\
  (forall (RT : Runtime) st message_data d i st' r k t,
      _extract_user_from_message st message_data d i = (st', r) ->
      user_first_message_date st !! k = Some t ->
      exists t', user_first_message_date st' !! k = Some t' /\ no_later t' t) /\
  (forall st k u t,
      first_message_date u = Some t -> first_message_date (fill_missing st k u) = Some t) /\
  (forall st k u t,
      first_reaction_date u = Some t -> first_reaction_date (fill_missing st k u) = Some t) /\
  (forall st d i e,
      note_first_message st 0 d i = Returned st /\
      _save_first_reaction st 0 d e = Returned st) /\
  (forall st o st',
      user_id (seen o) = 0 -> observe st o = Returned st' ->
      user_first_message_date st' = user_first_message_date st /\
      user_first_reaction_date st' = user_first_reaction_date st).
Proof.
  split; [|split; [exact in_step_init|]].
  { intros st u1 u2 t1 t2 e1 e2 k Hk Hk2 Hn1 Hn2 He1 He2 Hkind Hstep Hnone.
    destruct (two_reactions_return st u1 u2 t1 t2 e1 e2 Hk Hk2 Hn1 Hn2 Hkind Hstep Hnone)
      as [H1 H2].
    eexists. eexists. split; [exact H1|]. split; [exact H2|].
    apply two_reactions; try assumption.
    - apply new_sighting_not_deleted; assumption.
    - apply new_sighting_not_deleted; [assumption | congruence].
    - intros x Hx. destruct (Hstep _ _ Hx) as [_ ->]. exact Hnone. }
  split.
  { intros st o st' Hstep Ho Hr. apply observe_sound in Hr. subst st'.
    apply in_step_observe; assumption. }
  split; [exact message_date_never_later|].
  split; [exact reaction_date_never_later|].
  split; [exact identity_message_never_later|].
  split; [exact identity_reaction_never_later|].
  split; [exact @extract_never_later|].
  split; [|split; [|split]].
  - intros st k u t Ht. rewrite first_message_date_fill_missing, Ht. reflexivity.
  - intros st k u t Ht. rewrite first_reaction_date_fill_missing, Ht. reflexivity.
  - intros st d i e. split; [destruct d | destruct d]; reflexivity.
  - intros st o st' H0 Hr. apply observe_sound in Hr. subst st'.
    apply key_zero_has_no_times. exact H0.
Qed.

Lemma earliest_reaction_of_nonzero_key_witness :
  exists st1 st',
    observe init (reaction (new_user 7) (naive 5) (JStr "a")) = Returned st1 /\
    observe st1 (reaction (new_user 7) (naive 3) (JStr "b")) = Returned st' /\
    user_first_reaction_date st' !! 7 = Some (naive 3) /\
    user_first_reaction_emoji st' !! 7 = Some (JStr "b") /\
    exists u, users_get (users st') 7 = Some u /\
              first_reaction_date u = Some (naive 3) /\
              first_reaction_emoji u = Some (JStr "b").
Proof.
  apply (proj1 earliest_reaction_of_nonzero_key init (new_user 7) (new_user 7)
               (naive 5) (naive 3) (JStr "a") (JStr "b")); try reflexivity.
  - discriminate.
  - exact in_step_init.
Defined.

(** C4, as the specification has it, fails for the key 0, which the
    parser treats as no key: two reactions with symbols leave the identity
    of key 0 without a reaction time. *)
Lemma reaction_minimum_counterexample :
  ~ reaction_minimum_claim 0 (naive 5) (naive 3) (JStr "a") (JStr "b").
Proof.
  intros (u & Hin & _ & Hd & _). vm_compute in Hin.
  destruct Hin as [<-|[]]. discriminate Hd.
Qed.

(** *** A parse is a resolution of observations *)

Lemma add_user_is_observe st u :
  add_total st u = observe_total st (mkObservation u None JNull None JNull).
Proof. reflexivity. Qed.

Lemma resolve_snoc obs o : resolve_total (obs ++ [o]) = observe_total (resolve_total obs) o.
Proof. unfold resolve_total. rewrite fold_left_app. reflexivity. Qed.

Lemma resolved_json_init : resolved_json init.
Proof. exists []. split; [constructor | reflexivity]. Qed.

Lemma resolved_json_observe st o :
  resolved_json st -> json_observation o -> resolved_json (observe_total st o).
Proof.
  intros (obs & Hobs & ->) Ho. exists (obs ++ [o]). split; [|symmetry; apply resolve_snoc].
  apply List.Forall_app. split; [exact Hobs|].
  apply List.Forall_cons; [exact Ho | constructor].
Qed.

Lemma resolved_json_add_user st u :
  resolved_json st -> json_sighting u -> resolved_json (add_total st u).
Proof. intros Hst Hu. rewrite add_user_is_observe. apply resolved_json_observe; assumption. Qed.

Lemma resolved_json_add_users st us :
  resolved_json st -> List.Forall json_sighting us ->
  resolved_json (fold_left add_total us st).
Proof.
  intros Hst Hus. revert st Hst.
  induction Hus as [|u us Hu Hus IH]; simpl; intros st Hst; [exact Hst|].
  apply IH. apply resolved_json_add_user; assumption.
Qed.

Lemma json_sighting_deleted_user : json_sighting deleted_user.
Proof. split; [reflexivity | left; reflexivity]. Qed.

Lemma json_sighting_temp_user `{RT : Runtime} handle : json_sighting (temp_user handle).
Proof. split; [reflexivity | right; repeat split]. Qed.

Section Bridge.
Context `{RT : Runtime}.

(** The fields that the decoding of an author leaves as they are in a new
    user. *)
Lemma decode_author_fields md u :
  decode_author md = Returned (Built u) ->
  mention u = None /\ birth_date u = None /\ is_mention_only u = false /\
  phone_number u = None.
Proof.
  unfold decode_author. intros Hr. inv_bind Hr.
  destruct (dict_get x "from" JNull);
    try (unfold author_by_object in Hr;
         match type of Hr with context [if ?c then _ else _] => destruct c end;
         [discriminate|]; repeat inv_bind Hr; injection Hr as <-; repeat split; reflexivity).
  unfold author_by_name in Hr. inv_bind Hr.
  destruct x0; [|discriminate]. injection Hr as <-. repeat split; reflexivity.
Qed.

Lemma decode_author_built md u :
  decode_author md = Returned (Built u) -> new_sighting u = true /\ is_deleted u = false.
Proof.
  unfold decode_author. intros Hr. inv_bind Hr.
  destruct (dict_get x "from" JNull);
    try (unfold author_by_object in Hr;
         match type of Hr with context [if ?c then _ else _] => destruct c end;
         [discriminate|]; repeat inv_bind Hr; injection Hr as <-; split; reflexivity).
  unfold author_by_name in Hr. inv_bind Hr.
  destruct x0; [|discriminate]. injection Hr as <-. split; reflexivity.
Qed.

Lemma decode_author_json_user md u :
  decode_author md = Returned (Built u) -> json_user u.
Proof.
  intros Hd. destruct (decode_author_fields md u Hd) as (Hm & Hb & Ho & _).
  destruct (decode_author_result md _ Hd) as [H|[H|(u' & H & Hc & _)]]; try discriminate H.
  injection H as <-. unfold json_user, mention_ok. rewrite Hm. auto.
Qed.

(** The three ways [_extract_user_from_message] ends. *)
Lemma extract_cases st md d i :
  _extract_user_from_message st md d i = (st, None) \/
  _extract_user_from_message st md d i = (st, Some deleted_user) \/
  exists u,
    _extract_user_from_message st md d i = (note_total st (user_id u) d i, Some u) /\
    new_sighting u = true /\ is_deleted u = false /\ json_user u.
Proof.
  unfold _extract_user_from_message.
  destruct (decode_author md) as [r|] eqn:Ed; [|auto].
  pose proof (decode_author_result md r Ed) as Hc.
  destruct Hc as [Hc|[Hc|(u & Hc & _)]]; subst r; auto.
  destruct (note_first_message st (user_id u) d i) as [st1|] eqn:En; [|auto].
  apply note_first_message_total in En. subst st1.
  right; right. exists u. split; [reflexivity|].
  destruct (decode_author_built md u Ed) as [Hn Hd].
  split; [exact Hn|]. split; [exact Hd|]. exact (decode_author_json_user md u Ed).
Qed.

Lemma mentioned_by_entity_state message acc entity acc' :
  List.Forall json_sighting (snd acc) ->
  mentioned_by_entity message acc entity = Returned acc' ->
  fst acc' = fst acc /\ List.Forall json_sighting (snd acc').
Proof.
  destruct acc as [st us]. simpl. intros Hus Hr.
  assert (forall u, json_sighting u -> List.Forall json_sighting (us ++ [u])) as Happ.
  { intros u Hu. apply List.Forall_app. split; [exact Hus|].
    apply List.Forall_cons; [exact Hu | constructor]. }
  unfold mentioned_by_entity in Hr. inv_bind Hr.
  destruct (is_str _ "mention").
  - inv_bind Hr. destruct (Py.nonempty x0).
    + do 2 inv_bind Hr. destruct (Py.startswith _ _); injection Hr as <-; simpl; [|auto].
      split; [reflexivity|]. apply Happ, json_sighting_temp_user.
    + injection Hr as <-. auto.
  - destruct (is_str _ "text_mention"); [|injection Hr as <-; auto].
    destruct (truthy _); [|injection Hr as <-; auto].
    match type of Hr with context [_extract_user_from_message ?s ?m ?d ?i] =>
      destruct (extract_cases s m d i) as [E|[E|(u & E & Hu & _ & Hj)]]; rewrite E in Hr end;
      injection Hr as <-; simpl; auto.
    + split; [reflexivity|]. apply Happ, json_sighting_deleted_user.
    + split; [reflexivity|]. apply Happ. split; [exact Hu | right; exact Hj].
Qed.

Lemma mentioned_users_state st message st' us :
  _extract_mentioned_users_from_message st message = Returned (st', us) ->
  st' = st /\ List.Forall json_sighting us.
Proof.
  unfold _extract_mentioned_users_from_message. intros Hr. do 2 inv_bind Hr.
  assert (fst (st', us) = st /\ List.Forall json_sighting (snd (st', us))) as H; [|exact H].
  revert Hr. apply (for_each_invariant
    (fun acc => fst acc = st /\ List.Forall json_sighting (snd acc))).
  - intros acc e acc' [Hst Hus] Hr.
    destruct (mentioned_by_entity_state _ _ _ _ Hus Hr) as [H1 H2].
    split; [congruence | exact H2].
  - split; [reflexivity | constructor].
Qed.

Lemma resolved_json_react emoji st reaction_user st' :
  resolved_json st -> react emoji st reaction_user = Returned st' -> resolved_json st'.
Proof.
  unfold react. intros Hst.
  destruct (extract_cases st reaction_user None JNull) as [E|[E|(u & E & Hu & Hd & Hj)]];
    rewrite E; intros Hr.
  - injection Hr as <-. exact Hst.
  - inv_bind Hr. total Hx. total Hr. subst.
    apply (resolved_json_observe st
             (mkObservation deleted_user None JNull (_extract_reaction_date reaction_user) emoji));
      [exact Hst | split; [reflexivity | left; reflexivity]].
  - inv_bind Hr. total Hx. total Hr. subst.
    apply (resolved_json_observe st
             (mkObservation u None JNull (_extract_reaction_date reaction_user) emoji));
      [exact Hst | split; [exact Hu | right; exact Hj]].
Qed.

Lemma resolved_json_reactions_of st reaction st' :
  resolved_json st -> reactions_of st reaction = Returned st' -> resolved_json st'.
Proof.
  unfold reactions_of. intros Hst Hr. do 2 inv_bind Hr.
  revert Hst Hr. apply for_each_invariant. intros s ru s'. apply resolved_json_react.
Qed.

Lemma extract_mention_at (message : json) (s : string) :
  _extract_mention_from_message message = Some s -> Py.startswith s "@" = true.
Proof.
  unfold _extract_mention_from_message. intros H.
  destruct message; try discriminate H.
  destruct (dict_get _ "text" _); try discriminate H.
  destruct (first_typed_text _ _) as [[]|]; try discriminate H.
  destruct (Py.startswith s0 "@") eqn:E; injection H as <-; [exact E|].
  destruct s0; reflexivity.
Qed.

(** The author of a message with the phone number and the mention that
    [parse] gives it. *)
Lemma json_sighting_author message u phone :
  json_sighting u ->
  json_sighting
    (let u := if filled phone && negb (filled (phone_number u))
              then set_phone_number phone u else u in
     if filled (_extract_mention_from_message message) && negb (filled (mention u))
     then set_mention (_extract_mention_from_message message) u else u).
Proof.
  intros [Hn Hp]. cbv zeta.
  assert (json_sighting (if filled phone && negb (filled (phone_number u))
                         then set_phone_number phone u else u)) as [Hn1 Hp1].
  { destruct (filled phone && negb (filled (phone_number u))); [|split; assumption].
    split; [exact Hn|]. destruct Hp as [Hd|Hj]; [left; exact Hd | right; exact Hj]. }
  destruct (filled (_extract_mention_from_message message) && negb _); [|split; assumption].
  split; [exact Hn1|]. destruct Hp1 as [Hd|(Hc & _ & Ho & Hb)]; [left; exact Hd | right].
  repeat split; try assumption. unfold mention_ok. simpl.
  destruct (_extract_mention_from_message message) as [s|] eqn:E; [|exact I].
  apply (extract_mention_at message). exact E.
Qed.

Lemma resolved_json_parse_message st message st' :
  resolved_json st -> parse_message st message = Returned st' -> resolved_json st'.
Proof.
  unfold parse_message. intros Hst Hr. do 2 inv_bind Hr.
  assert (resolved_json x0) as Hs.
  { destruct (dict_has x "from"); [|injection Hx0 as <-; exact Hst].
    destruct (extract_cases st message (_extract_message_date message) (dict_get x "id" JNull))
      as [E|[E|(u & E & Hu & Hd & Hj)]]; rewrite E in Hx0.
    - injection Hx0 as <-. exact Hst.
    - total Hx0. subst x0. apply resolved_json_add_user; [exact Hst|].
      apply json_sighting_author, json_sighting_deleted_user.
    - total Hx0. subst x0.
      match goal with |- resolved_json (add_total _ ?v) =>
        assert (json_sighting v /\ user_id v = user_id u) as [[Hv Hp] Hk] end.
      { split; [apply json_sighting_author; split; [exact Hu | right; exact Hj]|].
        repeat match goal with |- context [if ?c then _ else _] => destruct c end;
          reflexivity. }
      rewrite <- Hk.
      match goal with |- resolved_json (add_total (note_total _ _ ?d ?i) ?v) =>
        apply (resolved_json_observe st (mkObservation v d i None JNull));
          [exact Hst | split; [exact Hv | exact Hp]] end. }
  inv_bind Hr. destruct x1 as [st2 mentioned].
  destruct (mentioned_users_state _ _ _ _ Hx1) as [-> Hm].
  inv_bind Hr. total Hx2. subst x1.
  do 3 inv_bind Hr.
  revert Hr. apply for_each_invariant.
  - intros s r s'. apply resolved_json_reactions_of.
  - pose proof (resolved_json_add_users _ _ Hs Hm) as Hs2.
    destruct (Py.nonempty x1); [|injection Hx3 as <-; exact Hs2].
    total Hx3. subst x2.
    apply (fold_left_invariant resolved_json); [|exact Hs2].
    intros s n Hsn. apply resolved_json_add_user; [exact Hsn | apply json_sighting_temp_user].
Qed.

(** Whatever the input, the roster that the JSON parser returns is the
    roster of the resolver after some sequence of observations of the kind
    its extractors make; the empty sequence when the parse gives up. *)
Lemma json_parse_resolves content :
  exists obs, List.Forall json_observation obs /\
              returned (JSONParser_parse content) = identities_total obs.
Proof.
  assert (exists obs : list Observation,
            List.Forall json_observation obs /\ [] = identities_total obs) as Hnil
    by (exists []; split; [constructor | reflexivity]).
  destruct content as [data|]; simpl; [|exact Hnil].
  destruct (parse_body data) as [us|] eqn:Ep; simpl; [|exact Hnil].
  unfold parse_body in Ep. do 3 inv_bind Ep. injection Ep as <-.
  assert (resolved_json x1) as (obs & Hobs & ->).
  { revert Hx1. apply for_each_invariant.
    - intros s m s'. apply resolved_json_parse_message.
    - exact resolved_json_init. }
  exists obs. split; [exact Hobs | reflexivity].
Qed.

(** The dates of the HTML export are naive: none of its formats has the
    directive of an offset. *)
Lemma first_format_naive formats s :
  forallb (fun fmt => negb (Py.contains "%z" fmt)) formats = true ->
  kind_of false (first_format formats s) = true.
Proof.
  induction formats as [|fmt formats IH]; simpl; [reflexivity|].
  intros H. apply andb_true_iff in H. destruct H as [Hf Hr].
  apply negb_true_iff in Hf.
  destruct (strptime s fmt) as [d|] eqn:Es; [|auto].
  simpl. rewrite (strptime_naive s fmt d Hf Es). reflexivity.
Qed.

Lemma html_date_naive m : kind_of false (_extract_message_date_from_html m) = true.
Proof.
  unfold _extract_message_date_from_html.
  destruct (date_element m) as [[title text]|]; [|reflexivity].
  destruct (Py.nonempty (if Py.nonempty title then title else text)); [|reflexivity].
  apply first_format_naive. reflexivity.
Qed.

Lemma html_observations_made m :
  forallb extracted (html_observations m) = true /\
  forallb (of_kind false) (html_observations m) = true.
Proof.
  unfold html_observations. rewrite !forallb_app.
  assert (forall l : list string,
            forallb extracted
              (map (fun h => mkObservation (mentioned_user h) None JNull None JNull) l) = true /\
            forallb (of_kind false)
              (map (fun h => mkObservation (mentioned_user h) None JNull None JNull) l) = true)
    as Hm by (induction l as [|h l [IH1 IH2]]; simpl; auto).
  split; apply andb_true_iff; split;
    try (destruct (text_element m); [apply Hm | reflexivity]);
    destruct (from_name_element m) as [el|]; try reflexivity;
    destruct (Py.nonempty (Py.strip el)); try reflexivity.
  cbn [forallb]. unfold of_kind. cbn [message_date reaction_date].
  rewrite html_date_naive. reflexivity.
Qed.

(** One message of the HTML export, read in a state whose dates are naive,
    is the resolution of its observations. *)
Lemma parse_html_message_observes st m :
  tables_of_kind false st ->
  parse_html_message st m = for_each observe (html_observations m) st.
Proof.
  intros Ht. unfold parse_html_message, html_observations. cbv zeta.
  rewrite for_each_app.
  assert (forall s (l : list string),
            for_each (fun st uname => _add_user st (mentioned_user uname)) l s
            = for_each observe
                (map (fun h => mkObservation (mentioned_user h) None JNull None JNull) l) s)
    as Hmentions.
  { intros s l. revert s. induction l as [|h l IH]; intros s; [reflexivity|].
    cbn [for_each map]. change (observe s (mkObservation (mentioned_user h) None JNull None JNull))
      with (_add_user s (mentioned_user h)).
    destruct (_add_user s (mentioned_user h)); [apply IH | reflexivity]. }
  match goal with |- obind ?A _ = obind ?B _ => assert (A = B) as -> end.
  { destruct (from_name_element m) as [el|]; [|reflexivity].
    rewrite extract_user_from_html_spec.
    destruct (Py.nonempty (Py.strip el)); [|reflexivity].
    assert (forall k, comparable st k (_extract_message_date_from_html m) = true) as Hc
      by (intros k; apply (comparable_of_kind false); [apply Ht | apply html_date_naive]).
    rewrite Hc. cbn [andb for_each]. unfold observe.
    cbn [message_date message_id reaction_date reaction_emoji seen].
    change (user_id (html_user (Py.strip el))) with (hash (Py.strip el)).
    rewrite note_first_message_comparable by apply Hc.
    cbn [obind _save_first_reaction]. destruct (_add_user _ _); reflexivity. }
  match goal with |- obind ?B _ = _ => destruct B as [s|]; [cbn [obind] | reflexivity] end.
  destruct (text_element m) as [text|]; [apply Hmentions | reflexivity].
Qed.

Lemma parse_html_messages_observe messages st :
  in_step st -> tables_of_kind false st ->
  for_each parse_html_message messages st
  = Returned (fold_left observe_total (flat_map html_observations messages) st).
Proof.
  revert st. induction messages as [|m messages IH]; intros st Hs Ht; [reflexivity|].
  cbn [for_each flat_map]. rewrite fold_left_app, (parse_html_message_observes st m Ht).
  destruct (html_observations_made m) as [He Hk].
  destruct (observations_return false _ st Hs Ht He Hk) as (-> & Hs' & Ht').
  cbn [obind]. apply IH; assumption.
Qed.

(** The roster of the HTML parser is the roster of the resolver after the
    observations of the messages of the export. *)
Lemma html_parse_resolves messages :
  HTMLParser_parse (Some messages)
  = Returned (identities_total (flat_map html_observations messages)).
Proof.
  unfold HTMLParser_parse.
  rewrite (parse_html_messages_observe messages init in_step_init (tables_of_kind_init false)).
  reflexivity.
Qed.

Lemma html_observations_extracted messages :
  forallb extracted (flat_map html_observations messages) = true.
Proof.
  induction messages as [|m messages IH]; [reflexivity|].
  cbn [flat_map]. rewrite forallb_app, IH, (proj1 (html_observations_made m)). reflexivity.
Qed.

End Bridge.

(** Whatever the input, the roster that a parser returns is the roster of
    the resolver after some sequence of observations of the kind the
    extractors make: a new user per observation, key 0 for a tombstone.
    This holds for the JSON parser and for the HTML parser, also when the
    parse gives up (the empty sequence). *)
Lemma parsers_resolve_observations `{RT : Runtime} :
  (forall content, exists obs,
      forallb extracted obs = true /\
      returned (JSONParser_parse content) = identities_total obs) /\
  (forall content, exists obs,
      forallb extracted obs = true /\
      returned (HTMLParser_parse content) = identities_total obs).
Proof.
  split.
  - intros content. destruct (json_parse_resolves content) as (obs & Hobs & E).
    exists obs. split; [|exact E]. apply forallb_forall. intros o Ho.
    rewrite List.Forall_forall in Hobs. apply (Hobs o Ho).
  - intros [messages|]; [|exists []; split; reflexivity].
    exists (flat_map html_observations messages).
    split; [apply html_observations_extracted|].
    rewrite html_parse_resolves. reflexivity.
Qed.


(** *** What every roster satisfies *)

Lemma NoDup_keys_unique_identities obs : List.NoDup (map user_id (identities_total obs)).
Proof.
  unfold identities_total, resolve_total.
  rewrite keys_roster by (apply keyed_observations; constructor).
  apply NoDup_keys_observations. constructor.
Qed.

(** X1.  A roster returned by [JSONParser.parse] or by [HTMLParser.parse]
    has at most one identity per key: the keys of its identities are
    pairwise distinct. *)
Theorem parsed_roster_has_distinct_keys `{RT : Runtime} :
  (forall content, List.NoDup (map user_id (returned (JSONParser_parse content)))) /\
  (forall content, List.NoDup (map user_id (returned (HTMLParser_parse content)))).
Proof.
  destruct parsers_resolve_observations as [Hj Hh]. split; intros content.
  - destruct (Hj content) as (obs & _ & ->). apply NoDup_keys_unique_identities.
  - destruct (Hh content) as (obs & _ & ->). apply NoDup_keys_unique_identities.
Qed.

Lemma is_deleted_recorded st u :
  List.Forall (fun kv => is_deleted (snd kv) = false) (users st) ->
  is_deleted u = false -> is_deleted (recorded st u) = false.
Proof.
  intros Hst Hu. unfold recorded.
  destruct (users_get (users st) (user_id u)) as [x|] eqn:Ex.
  - rewrite is_deleted_merge_existing. apply users_get_In in Ex.
    rewrite List.Forall_forall in Hst. exact (Hst _ Ex).
  - rewrite is_deleted_first_sighting. exact Hu.
Qed.

Lemma not_deleted_observe st o :
  List.Forall (fun kv => is_deleted (snd kv) = false) (users st) ->
  List.Forall (fun kv => is_deleted (snd kv) = false) (users (observe_total st o)).
Proof.
  intros Hst. rewrite users_observe. destruct (is_deleted (seen o)) eqn:Ed; [exact Hst|].
  apply Forall_pairs_users_set; [exact Hst|]. simpl.
  apply is_deleted_recorded; [|exact Ed].
  rewrite users_save_first_reaction, users_note_first_message. exact Hst.
Qed.

Lemma not_deleted_unique_identities obs :
  List.Forall (fun u => is_deleted u = false) (identities_total obs).
Proof.
  unfold identities_total, resolve_total, roster, get_unique_users. simpl. rewrite map_map. simpl.
  apply List.Forall_map.
  assert (List.Forall (fun kv => is_deleted (snd kv) = false)
                      (users (fold_left observe_total obs init))) as H.
  { apply (fold_left_invariant
      (fun st => List.Forall (fun kv => is_deleted (snd kv) = false) (users st))).
    - intros s o. apply not_deleted_observe.
    - constructor. }
  revert H. apply List.Forall_impl. intros [k u]. simpl.
  rewrite is_deleted_fill_missing. auto.
Qed.

(** X2.  No roster returned by a parser holds a deleted identity: every
    identity of it has the deletion flag unset. *)
Theorem parsed_roster_has_no_deleted_identity `{RT : Runtime} :
  (forall content,
      List.Forall (fun u => is_deleted u = false) (returned (JSONParser_parse content))) /\
  (forall content,
      List.Forall (fun u => is_deleted u = false) (returned (HTMLParser_parse content))).
Proof.
  destruct parsers_resolve_observations as [Hj Hh]. split; intros content.
  - destruct (Hj content) as (obs & _ & ->). apply not_deleted_unique_identities.
  - destruct (Hh content) as (obs & _ & ->). apply not_deleted_unique_identities.
Qed.

(** The registration date follows the table of the earliest message. *)

Lemma registration_date_first_sighting st user :
  registration_date (first_sighting st user) =
  match user_first_message_date st !! user_id user with
  | Some d => Some d
  | None => registration_date user
  end.
Proof. frame first_sighting. Qed.

Lemma registration_date_fill_missing st k user :
  registration_date (fill_missing st k user) =
  match registration_date user with
  | Some t => Some t
  | None => user_first_message_date st !! k
  end.
Proof. frame fill_missing. Qed.

Lemma registration_date_recorded s u :
  registration_date (recorded s u) =
  match user_first_message_date s !! user_id u with
  | Some d => Some d
  | None =>
      match users_get (users s) (user_id u) with
      | Some x => registration_date x
      | None => registration_date u
      end
  end.
Proof.
  unfold recorded. destruct (users_get (users s) (user_id u)) as [x|].
  - apply registration_date_merge_existing.
  - apply registration_date_first_sighting.
Qed.

Lemma extracted_registration o : extracted o = true -> registration_date (seen o) = None.
Proof.
  unfold extracted, unset. intros H.
  repeat (apply andb_true_iff in H; destruct H as [H ?]).
  destruct (registration_date (seen o)); [discriminate | reflexivity].
Qed.

Lemma registered_in_step_observe st o :
  extracted o = true -> registered_in_step st -> registered_in_step (observe_total st o).
Proof.
  intros Ho Hst k u. pose proof (extracted_registration o Ho) as Hreg.
  apply extracted_fields in Ho. destruct Ho as (_ & _ & Hdel).
  rewrite users_get_observe, message_dates_observe_step.
  destruct (is_deleted (seen o)) eqn:Ed; simpl.
  - rewrite (Hdel eq_refl). unfold min_step. simpl.
    destruct (message_date o); apply Hst.
  - destruct (k =? user_id (seen o)) eqn:Ek.
    + apply Z.eqb_eq in Ek. subst k. intros Hu. injection Hu as <-.
      rewrite registration_date_recorded.
      rewrite users_save_first_reaction, users_note_first_message.
      rewrite message_dates_save_first_reaction, dates_note_first_message.
      fold (min_step (user_id (seen o)) (user_id (seen o)) (message_date o)
                     (user_first_message_date st !! user_id (seen o))).
      pose proof (min_step_absorbs (user_id (seen o)) (user_id (seen o)) (message_date o)
                    (user_first_message_date st !! user_id (seen o))) as Am.
      destruct (min_step _ _ (message_date o) _) as [new|]; [reflexivity|].
      destruct (users_get (users st) (user_id (seen o))) as [x|] eqn:Ex.
      * rewrite (Hst _ _ Ex). exact Am.
      * exact Hreg.
    + intros Hu. unfold min_step. rewrite Ek, andb_false_r.
      destruct (message_date o); apply Hst; exact Hu.
Qed.

Lemma registered_in_step_observations l st :
  forallb extracted l = true -> registered_in_step st ->
  registered_in_step (fold_left observe_total l st).
Proof.
  revert st. induction l as [|o l IH]; simpl; intros st Hl Hst; [exact Hst|].
  apply andb_true_iff in Hl. destruct Hl as [Ho Hl].
  apply IH; [exact Hl|]. apply registered_in_step_observe; assumption.
Qed.

Lemma registration_is_first_message obs :
  forallb extracted obs = true ->
  List.Forall (fun u => registration_date u = first_message_date u) (identities_total obs).
Proof.
  intros Hobs. rewrite List.Forall_forall. intros u Hu.
  assert (keyed (resolve_total obs)) as Hk by (apply keyed_observations; constructor).
  assert (List.NoDup (keys (users (resolve_total obs)))) as Hn
    by (apply NoDup_keys_observations; constructor).
  assert (in_step (resolve_total obs)) as Hs
    by (apply in_step_observations; [exact Hobs | intros k x Hx; discriminate Hx]).
  assert (registered_in_step (resolve_total obs)) as Hr
    by (apply registered_in_step_observations; [exact Hobs | intros k x Hx; discriminate Hx]).
  destruct (roster_dates _ _ Hk Hn Hs Hu) as [Hm _]. rewrite Hm.
  unfold identities_total, roster, get_unique_users in Hu. simpl in Hu.
  rewrite map_map in Hu. simpl in Hu. apply List.in_map_iff in Hu.
  destruct Hu as ([k x] & <- & Hin). simpl.
  rewrite user_id_fill_missing, registration_date_fill_missing.
  unfold keyed in Hk. rewrite List.Forall_forall in Hk.
  pose proof (Hk _ Hin) as E. simpl in E. rewrite E.
  rewrite (Hr k x (In_users_get _ _ _ Hn Hin)).
  destruct (user_first_message_date (resolve_total obs) !! k); reflexivity.
Qed.

(** X3.  In every roster returned by a parser, the registration date of an
    identity is the date of its first message (both unset, or both the
    same time). *)
Theorem parsed_registration_is_first_message `{RT : Runtime} :
  (forall content,
      List.Forall (fun u => registration_date u = first_message_date u)
                  (returned (JSONParser_parse content))) /\
  (forall content,
      List.Forall (fun u => registration_date u = first_message_date u)
                  (returned (HTMLParser_parse content))).
Proof.
  destruct parsers_resolve_observations as [Hj Hh]. split; intros content.
  - destruct (Hj content) as (obs & Hobs & ->). apply registration_is_first_message, Hobs.
  - destruct (Hh content) as (obs & Hobs & ->). apply registration_is_first_message, Hobs.
Qed.

(** *** The earliest times are minima *)

Lemma kind_of_date a t : kind_of a (Some t) = true -> mkDate a (instant t) = t.
Proof. destruct t as [b i]. simpl. intros H. apply Bool.eqb_prop in H. subst b. reflexivity. Qed.

Lemma min_steps_least a (date : Observation -> option datetime) k l acc :
  k <> 0 ->
  forallb (fun o => kind_of a (date o)) l = true -> kind_of a acc = true ->
  fold_left (fun acc o => min_step k (user_id (seen o)) (date o) acc) l acc =
  let times :=
    map instant (omap (fun o => if user_id (seen o) =? k then date o else None) l) in
  match acc with
  | Some t => Some (mkDate a (fold_left Z.min times (instant t)))
  | None => mkDate a <$> least times
  end.
Proof.
  intros Hk. revert acc. induction l as [|o l IH]; intros acc Hl Ha.
  - destruct acc as [t|]; [|reflexivity]. simpl. f_equal. symmetry.
    apply kind_of_date. exact Ha.
  - cbn [forallb] in Hl. apply andb_true_iff in Hl. destruct Hl as [Ho Hl].
    cbn [fold_left].
    rewrite IH by (try exact Hl; apply kind_of_min_step; assumption). clear IH.
    simpl. unfold min_step. rewrite (Z.eqb_sym k).
    destruct (user_id (seen o) =? k) eqn:E.
    + apply Z.eqb_eq in E. rewrite E.
      assert ((k =? 0) = false) as -> by (apply Z.eqb_neq; exact Hk).
      destruct (date o) as [t|]; [|destruct acc; reflexivity].
      cbn [negb andb]. destruct acc as [old|]; [|reflexivity].
      simpl in Ho, Ha. apply Bool.eqb_prop in Ho, Ha.
      rewrite earlier_min by congruence. reflexivity.
    + rewrite andb_false_r. destruct (date o); destruct acc; reflexivity.
Qed.

Lemma min_steps_zero (date : Observation -> option datetime) l acc :
  fold_left (fun acc o => min_step 0 (user_id (seen o)) (date o) acc) l acc = acc.
Proof.
  revert acc. induction l as [|o l IH]; intros acc; simpl; [reflexivity|].
  rewrite IH. unfold min_step. destruct (date o); [|reflexivity].
  rewrite (Z.eqb_sym 0). destruct (user_id (seen o) =? 0); reflexivity.
Qed.

Lemma unique_identities_dates obs u :
  forallb extracted obs = true -> In u (identities_total obs) ->
  first_message_date u = user_first_message_date (resolve_total obs) !! user_id u /\
  first_reaction_date u = user_first_reaction_date (resolve_total obs) !! user_id u.
Proof.
  intros Hobs Hu. apply roster_dates; [| | |exact Hu].
  - apply keyed_observations. constructor.
  - apply NoDup_keys_observations. constructor.
  - apply in_step_observations; [exact Hobs | intros k x Hx; discriminate Hx].
Qed.

(** X4.  After observations as the extractors make them, with dates of
    one kind (all naive or all aware), the first message date of an
    identity with a key other than 0 is the least of the message dates
    observed for its key, and its first reaction date is the least of the
    reaction dates observed for its key; each is unset when no such date
    was observed. *)
Theorem earliest_times_are_minima (a : bool) (obs : list Observation) (u : TelegramUser) :
  forallb extracted obs = true ->
  forallb (of_kind a) obs = true ->
  In u (unique_identities obs) ->
  user_id u <> 0 ->
  first_message_date u = least_date a (message_times (user_id u) obs) /\
  first_reaction_date u = least_date a (reaction_times (user_id u) obs).
Proof.
  intros Hobs Hkind Hu Hk. apply In_unique_identities in Hu.
  destruct (unique_identities_dates obs u Hobs Hu) as [-> ->].
  unfold resolve_total. rewrite message_dates_observations, reaction_dates_observations.
  assert (forallb (fun o => kind_of a (message_date o)) obs = true /\
          forallb (fun o => kind_of a (reaction_date o)) obs = true) as [Hm Hr].
  { clear -Hkind. induction obs as [|o obs IH]; [auto|]. cbn [forallb] in *.
    apply andb_true_iff in Hkind. destruct Hkind as [Ho Hkind].
    apply andb_true_iff in Ho. destruct Ho as [-> ->]. apply IH. exact Hkind. }
  rewrite (min_steps_least a message_date), (min_steps_least a reaction_date)
    by (try assumption; simpl; rewrite lookup_empty; reflexivity).
  simpl. rewrite !lookup_empty. split; reflexivity.
Qed.

Lemma earliest_times_are_minima_witness :
  let obs := [mkObservation (new_user 7) (Some (naive 30)) (JInt 1) None JNull;
              mkObservation (new_user 7) (Some (naive 10)) (JInt 2)
                            (Some (naive 25)) (JStr "+");
              mkObservation (new_user 7) (Some (naive 20)) (JInt 3)
                            (Some (naive 15)) (JStr "-")] in
  let u := set_first_reaction_emoji (Some (JStr "-"))
             (set_first_reaction_date (Some (naive 15))
                (set_first_message_id (Some (JInt 2))
                   (set_first_message_date (Some (naive 10))
                      (set_registration_date (Some (naive 10)) (new_user 7))))) in
  In u (unique_identities obs) /\
  first_message_date u = least_date false (message_times (user_id u) obs) /\
  first_reaction_date u = least_date false (reaction_times (user_id u) obs).
Proof.
  intros obs u.
  assert (In u (unique_identities obs)) as Hu by (vm_compute; left; reflexivity).
  split; [exact Hu|]. apply (earliest_times_are_minima false obs u).
  - reflexivity.
  - reflexivity.
  - exact Hu.
  - vm_compute. discriminate.
Defined.

(** X5.  Key 0 stands for a missing id: after observations as the
    extractors make them, an identity with key 0 has neither a first
    message date nor a first reaction date, whatever dates came with its
    observations. *)
Theorem key_zero_identity_has_no_times (obs : list Observation) (u : TelegramUser) :
  forallb extracted obs = true ->
  In u (unique_identities obs) ->
  user_id u = 0 ->
  first_message_date u = None /\ first_reaction_date u = None.
Proof.
  intros Hobs Hu Hk. apply In_unique_identities in Hu. destruct (unique_identities_dates obs u Hobs Hu) as [-> ->].
  unfold resolve_total. rewrite message_dates_observations, reaction_dates_observations, Hk.
  rewrite (min_steps_zero message_date), (min_steps_zero reaction_date).
  split; reflexivity.
Qed.

Lemma key_zero_identity_has_no_times_witness :
  let obs := [mkObservation (new_user 0) (Some (naive 30)) (JInt 1)
                            (Some (naive 5)) (JStr "+")] in
  first_message_date (new_user 0) = None /\ first_reaction_date (new_user 0) = None.
Proof.
  intros obs. apply (key_zero_identity_has_no_times obs (new_user 0)).
  - reflexivity.
  - vm_compute. left. reflexivity.
  - reflexivity.
Defined.

(** *** How the fields of an identity follow its sightings *)

Lemma sightings_app k l1 l2 : sightings k (l1 ++ l2) = sightings k l1 ++ sightings k l2.
Proof. unfold sightings. rewrite map_app. apply List.filter_app. Qed.

Lemma sightings_cons k o l :
  sightings k (o :: l) =
  if negb (is_deleted (seen o)) && (user_id (seen o) =? k)
  then seen o :: sightings k l else sightings k l.
Proof. reflexivity. Qed.

Section Field.
Context {A : Type} (P : TelegramUser -> A) (c : A -> TelegramUser -> A).
Hypothesis P_merge : forall st e u, P (merge_total st e u) = c (P e) u.
Hypothesis P_first : forall st u, P (first_sighting st u) = P u.
Hypothesis P_fill : forall st k u, P (fill_missing st k u) = P u.

(** The field of an identity is that of its first sighting, updated by
    the later ones in turn. *)
Lemma field_observations l st k u :
  users_get (users (fold_left observe_total l st)) k = Some u ->
  match users_get (users st) k with
  | Some x => P u = fold_left c (sightings k l) (P x)
  | None =>
      match sightings k l with
      | s :: rest => P u = fold_left c rest (P s)
      | [] => False
      end
  end.
Proof.
  revert st. induction l as [|o l IH]; intros st Hu.
  - simpl in Hu. rewrite Hu. reflexivity.
  - simpl in Hu. apply IH in Hu. clear IH.
    rewrite users_get_observe in Hu. rewrite sightings_cons, (Z.eqb_sym _ k).
    destruct (negb (is_deleted (seen o)) && (k =? user_id (seen o))) eqn:E; [|exact Hu].
    apply andb_true_iff in E. destruct E as [_ E]. apply Z.eqb_eq in E. subst k.
    unfold recorded in Hu.
    rewrite users_save_first_reaction, users_note_first_message in Hu.
    destruct (users_get (users st) (user_id (seen o))) as [x|].
    + rewrite P_merge in Hu. exact Hu.
    + rewrite P_first in Hu. exact Hu.
Qed.

Lemma field_unique_identities obs u :
  In u (identities_total obs) ->
  match sightings (user_id u) obs with
  | s :: rest => P u = fold_left c rest (P s)
  | [] => False
  end.
Proof.
  intros Hu.
  assert (keyed (resolve_total obs)) as Hk by (apply keyed_observations; constructor).
  assert (List.NoDup (keys (users (resolve_total obs)))) as Hn
    by (apply NoDup_keys_observations; constructor).
  unfold identities_total, roster, get_unique_users in Hu. simpl in Hu.
  rewrite map_map in Hu. simpl in Hu. apply List.in_map_iff in Hu.
  destruct Hu as ([k x] & <- & Hin). simpl.
  rewrite user_id_fill_missing, P_fill.
  unfold keyed in Hk. rewrite List.Forall_forall in Hk.
  pose proof (Hk _ Hin) as E. simpl in E. rewrite E.
  apply (field_observations obs init k x). apply In_users_get; assumption.
Qed.

(** The same, seen from one sighting [o]. *)
Lemma field_around before o after u :
  is_deleted (seen o) = false ->
  In u (identities_total (before ++ o :: after)) ->
  user_id u = user_id (seen o) ->
  P u = fold_left c (sightings (user_id (seen o)) after)
          match sightings (user_id (seen o)) before with
          | [] => P (seen o)
          | s :: rest => c (fold_left c rest (P s)) (seen o)
          end.
Proof.
  intros Hd Hu Hk. apply field_unique_identities in Hu. rewrite Hk in Hu.
  rewrite sightings_app, sightings_cons, Hd, Z.eqb_refl in Hu. simpl in Hu.
  destruct (sightings (user_id (seen o)) before) as [|s rest]; simpl in Hu.
  - exact Hu.
  - rewrite fold_left_app in Hu. exact Hu.
Qed.

End Field.

Lemma fold_last_wins {A} (good : TelegramUser -> bool) (val : TelegramUser -> A) l a :
  forallb (fun s => negb (good s)) l = true ->
  fold_left (fun old s => if good s then val s else old) l a = a.
Proof.
  revert a. induction l as [|s l IH]; intros a H; simpl in *; [reflexivity|].
  apply andb_true_iff in H. destruct H as [Hs Hl].
  apply negb_true_iff in Hs. rewrite Hs. apply IH, Hl.
Qed.

(** X6.  The username of an identity is the last non-empty one seen: when
    [o] is a sighting with a non-empty username and no later sighting of
    its key has one, the identity of the key has the username of [o]. *)
Theorem username_is_last_one_seen (before after : list Observation) (o : Observation)
    (u : TelegramUser) :
  is_deleted (seen o) = false ->
  filled (username (seen o)) = true ->
  forallb (fun s => negb (filled (username s))) (sightings (user_id (seen o)) after) = true ->
  In u (unique_identities (before ++ o :: after)) ->
  user_id u = user_id (seen o) ->
  username u = username (seen o).
Proof.
  intros Hd Hf Hafter Hu Hk. apply In_unique_identities in Hu.
  rewrite (field_around username
             (fun old s => if filled (username s) then username s else old)
             username_merge_existing username_first_sighting username_fill_missing
             before o after u Hd Hu Hk).
  rewrite (fold_last_wins (fun s => filled (username s)) username) by exact Hafter.
  destruct (sightings _ before); rewrite ?Hf; reflexivity.
Qed.

Lemma username_is_last_one_seen_witness :
  let name k s := set_username (Some s) (new_user k) in
  username (name 7 "bob"%string) = username (name 7 "bob"%string).
Proof.
  intros name.
  apply (username_is_last_one_seen
           [mkObservation (name 7 "alice"%string) None JNull None JNull]
           [mkObservation (new_user 7) None JNull None JNull;
            mkObservation (name 8 "carol"%string) None JNull None JNull]
           (mkObservation (name 7 "bob"%string) None JNull None JNull)
           (name 7 "bob"%string)).
  - reflexivity.
  - reflexivity.
  - reflexivity.
  - vm_compute. left. reflexivity.
  - reflexivity.
Defined.

Lemma fill_keeps old new : filled old = true -> fill old new = old.
Proof. unfold fill. intros ->. reflexivity. Qed.

Lemma fill_takes old new : filled old = false -> filled new = true -> fill old new = new.
Proof. unfold fill. intros -> ->. reflexivity. Qed.

Lemma fill_blank old new : filled old = false -> filled new = false -> fill old new = old.
Proof. unfold fill. intros -> ->. reflexivity. Qed.

Lemma fold_fill_keeps (P : TelegramUser -> option string) l a :
  filled a = true -> fold_left (fun old s => fill old (P s)) l a = a.
Proof.
  revert a. induction l as [|s l IH]; intros a Ha; simpl; [reflexivity|].
  rewrite fill_keeps by exact Ha. apply IH, Ha.
Qed.

Lemma fold_fill_blank (P : TelegramUser -> option string) l a :
  filled a = false -> forallb (fun s => negb (filled (P s))) l = true ->
  fold_left (fun old s => fill old (P s)) l a = a.
Proof.
  revert a. induction l as [|s l IH]; intros a Ha H; simpl in *; [reflexivity|].
  apply andb_true_iff in H. destruct H as [Hs Hl]. apply negb_true_iff in Hs.
  rewrite fill_blank by assumption. apply IH; assumption.
Qed.

Lemma blank_filled_fields (P : TelegramUser -> option string) :
  In P blank_filled ->
  (forall st e u, P (merge_total st e u) = fill (P e) (P u)) /\
  (forall st u, P (first_sighting st u) = P u) /\
  (forall st k u, P (fill_missing st k u) = P u).
Proof.
  unfold blank_filled. simpl.
  intros [<-|[<-|[<-|[<-|[<-|[]]]]]]; repeat split; intros.
  - apply phone_number_merge_existing.
  - apply phone_number_first_sighting.
  - apply phone_number_fill_missing.
  - apply mention_merge_existing.
  - apply mention_first_sighting.
  - apply mention_fill_missing.
  - apply first_name_merge_existing.
  - apply first_name_first_sighting.
  - apply first_name_fill_missing.
  - apply last_name_merge_existing.
  - apply last_name_first_sighting.
  - apply last_name_fill_missing.
  - apply bio_merge_existing.
  - apply bio_first_sighting.
  - apply bio_fill_missing.
Qed.

(** X7.  Phone number, mention, first name, last name and bio keep the
    first non-empty value seen: when [o] is a sighting with a non-empty
    value of such a field and no earlier sighting of its key has one, the
    identity of the key has the value of [o], whatever comes later. *)
Theorem blank_field_is_first_one_seen (P : TelegramUser -> option string)
    (before after : list Observation) (o : Observation) (u : TelegramUser) :
  In P blank_filled ->
  is_deleted (seen o) = false ->
  filled (P (seen o)) = true ->
  forallb (fun s => negb (filled (P s))) (sightings (user_id (seen o)) before) = true ->
  In u (unique_identities (before ++ o :: after)) ->
  user_id u = user_id (seen o) ->
  P u = P (seen o).
Proof.
  intros HP Hd Hf Hbefore Hu Hk. apply In_unique_identities in Hu.
  destruct (blank_filled_fields P HP) as (Hm & Hs & Hg).
  rewrite (field_around P (fun old s => fill old (P s)) Hm Hs Hg before o after u Hd Hu Hk).
  destruct (sightings (user_id (seen o)) before) as [|s rest].
  - apply fold_fill_keeps, Hf.
  - simpl in Hbefore. apply andb_true_iff in Hbefore. destruct Hbefore as [Hs0 Hrest].
    apply negb_true_iff in Hs0.
    rewrite (fold_fill_blank P rest (P s)) by assumption.
    rewrite fill_takes by assumption. apply fold_fill_keeps, Hf.
Qed.

Lemma blank_field_is_first_one_seen_witness :
  let name k s := set_first_name s (new_user k) in
  first_name (set_username (Some "bob"%string) (name 7 (Some "Bob"%string)))
  = first_name (name 7 (Some "Bob"%string)).
Proof.
  intros name.
  apply (blank_field_is_first_one_seen first_name
           [mkObservation (name 7 None) None JNull None JNull;
            mkObservation (name 8 (Some "Carol"%string)) None JNull None JNull]
           [mkObservation (set_username (Some "bob"%string) (name 7 (Some "Robert"%string)))
                          None JNull None JNull]
           (mkObservation (name 7 (Some "Bob"%string)) None JNull None JNull)
           (set_username (Some "bob"%string) (name 7 (Some "Bob"%string)))).
  - right. right. left. reflexivity.
  - reflexivity.
  - reflexivity.
  - reflexivity.
  - vm_compute. left. reflexivity.
  - reflexivity.
Defined.

Lemma fold_left_const {A B} (l : list B) (a : A) : fold_left (fun old _ => old) l a = a.
Proof. induction l as [|x l IH]; simpl; [reflexivity | exact IH]. Qed.

(** X8.  The bot flag is never merged: the bot flag of an identity is the
    one of the first sighting of its key. *)
Theorem bot_flag_is_first_one_seen (obs : list Observation) (u : TelegramUser) :
  In u (unique_identities obs) ->
  option_map is_bot (head (sightings (user_id u) obs)) = Some (is_bot u).
Proof.
  intros Hu. apply In_unique_identities in Hu.
  pose proof (field_unique_identities is_bot (fun old _ => old)
                is_bot_merge_existing is_bot_first_sighting is_bot_fill_missing
                obs u Hu) as H.
  destruct (sightings (user_id u) obs) as [|s rest]; [destruct H|].
  simpl. rewrite H, fold_left_const. reflexivity.
Qed.

Lemma bot_flag_is_first_one_seen_witness :
  let obs := [mkObservation (set_is_bot true (new_user 7)) None JNull None JNull;
              mkObservation (new_user 7) None JNull None JNull] in
  let u := set_is_bot true (new_user 7) in
  option_map is_bot (head (sightings (user_id u) obs)) = Some (is_bot u).
Proof.
  intros obs u. apply (bot_flag_is_first_one_seen obs u). vm_compute. left. reflexivity.
Defined.

Lemma fold_left_andb (l : list TelegramUser) a :
  fold_left (fun old s => old && is_mention_only s) l a = a && forallb is_mention_only l.
Proof.
  revert a. induction l as [|s l IH]; intros a; simpl.
  - rewrite andb_true_r. reflexivity.
  - rewrite IH, andb_assoc. reflexivity.
Qed.

(** X9.  An identity is marked as mentioned only exactly when every
    sighting of its key was a mere mention. *)
Theorem mention_only_iff_all_sightings (obs : list Observation) (u : TelegramUser) :
  In u (unique_identities obs) ->
  is_mention_only u = forallb is_mention_only (sightings (user_id u) obs).
Proof.
  intros Hu. apply In_unique_identities in Hu.
  pose proof (field_unique_identities is_mention_only
                (fun old s => old && is_mention_only s)
                is_mention_only_merge_existing is_mention_only_first_sighting
                is_mention_only_fill_missing obs u Hu) as H.
  destruct (sightings (user_id u) obs) as [|s rest]; [destruct H|].
  rewrite H, fold_left_andb. reflexivity.
Qed.

Lemma mention_only_iff_all_sightings_witness :
  let obs := [mkObservation (set_is_mention_only true (new_user 7)) None JNull None JNull;
              mkObservation (new_user 7) None JNull None JNull;
              mkObservation (set_is_mention_only true (new_user 7)) None JNull None JNull] in
  is_mention_only (new_user 7) = forallb is_mention_only (sightings (user_id (new_user 7)) obs).
Proof.
  intros obs. apply (mention_only_iff_all_sightings obs (new_user 7)).
  vm_compute. left. reflexivity.
Defined.

Lemma fold_last_known (l : list TelegramUser) a :
  forallb (fun s => unset (has_channel s)) l = true ->
  fold_left (fun old s => match has_channel s with Some c => Some c | None => old end) l a = a.
Proof.
  revert a. induction l as [|s l IH]; intros a H; simpl in *; [reflexivity|].
  apply andb_true_iff in H. destruct H as [Hs Hl].
  destruct (has_channel s); [discriminate Hs|]. apply IH, Hl.
Qed.

(** X10.  The channel flag of an identity is the last known one: when [o]
    is a sighting with a known channel flag and no later sighting of its
    key has one, the identity of the key has the flag of [o]. *)
Theorem channel_flag_is_last_known (before after : list Observation) (o : Observation)
    (u : TelegramUser) :
  is_deleted (seen o) = false ->
  unset (has_channel (seen o)) = false ->
  forallb (fun s => unset (has_channel s)) (sightings (user_id (seen o)) after) = true ->
  In u (unique_identities (before ++ o :: after)) ->
  user_id u = user_id (seen o) ->
  has_channel u = has_channel (seen o).
Proof.
  intros Hd Hf Hafter Hu Hk. apply In_unique_identities in Hu.
  rewrite (field_around has_channel
             (fun old s => match has_channel s with Some c => Some c | None => old end)
             has_channel_merge_existing has_channel_first_sighting has_channel_fill_missing
             before o after u Hd Hu Hk).
  rewrite fold_last_known by exact Hafter.
  destruct (has_channel (seen o)); [|discriminate Hf].
  destruct (sightings _ before); reflexivity.
Qed.

Lemma channel_flag_is_last_known_witness :
  let flag c := set_has_channel c (new_user 7) in
  has_channel (flag (Some true)) = has_channel (flag (Some true)).
Proof.
  intros flag.
  apply (channel_flag_is_last_known
           [mkObservation (flag None) None JNull None JNull]
           [mkObservation (flag None) None JNull None JNull]
           (mkObservation (flag (Some true)) None JNull None JNull)
           (flag (Some true))).
  - reflexivity.
  - reflexivity.
  - reflexivity.
  - vm_compute. left. reflexivity.
  - reflexivity.
Defined.

(** *** Observations in another order *)

Lemma least_fold l :
  least l = fold_left (fun acc t => Some match acc with Some m => Z.min m t | None => t end)
                      l None.
Proof.
  assert (forall l t,
            fold_left (fun acc t => Some match acc with Some m => Z.min m t | None => t end)
                      l (Some t) = Some (fold_left Z.min l t)) as H.
  { clear l. induction l as [|x l IH]; intros t; simpl; [reflexivity | apply IH]. }
  destruct l as [|t l]; simpl; [reflexivity|]. symmetry. apply H.
Qed.

Lemma least_permutation l1 l2 : Permutation l1 l2 -> least l1 = least l2.
Proof.
  intros Hp. rewrite !least_fold. apply fold_left_permutation; [|exact Hp].
  intros [m|] x y; f_equal; lia.
Qed.

Lemma least_date_permutation a l1 l2 : Permutation l1 l2 -> least_date a l1 = least_date a l2.
Proof.
  intros Hp. unfold least_date. f_equal. apply least_permutation, Permutation_map, Hp.
Qed.

Lemma filter_permutation {A} (p : A -> bool) l1 l2 :
  Permutation l1 l2 -> Permutation (List.filter p l1) (List.filter p l2).
Proof.
  induction 1 as [|x l1 l2 Hp IH|x y l|l1 l2 l3 Hp1 IH1 Hp2 IH2]; simpl.
  - constructor.
  - destruct (p x); [constructor|]; exact IH.
  - destruct (p x), (p y); try reflexivity. constructor.
  - etransitivity; eassumption.
Qed.

Lemma forallb_permutation {A} (p : A -> bool) l1 l2 :
  Permutation l1 l2 -> forallb p l1 = forallb p l2.
Proof.
  induction 1 as [|x l1 l2 Hp IH|x y l|l1 l2 l3 Hp1 IH1 Hp2 IH2]; simpl.
  - reflexivity.
  - rewrite IH. reflexivity.
  - destruct (p x), (p y); reflexivity.
  - congruence.
Qed.

Lemma existsb_permutation {A} (p : A -> bool) l1 l2 :
  Permutation l1 l2 -> existsb p l1 = existsb p l2.
Proof.
  induction 1 as [|x l1 l2 Hp IH|x y l|l1 l2 l3 Hp1 IH1 Hp2 IH2]; simpl.
  - reflexivity.
  - rewrite IH. reflexivity.
  - destruct (p x), (p y); reflexivity.
  - congruence.
Qed.

Lemma sightings_permutation k l1 l2 :
  Permutation l1 l2 -> Permutation (sightings k l1) (sightings k l2).
Proof. intros Hp. apply filter_permutation, Permutation_map, Hp. Qed.

Lemma sightings_seen k obs s : In s (sightings k obs) -> exists o, In o obs /\ seen o = s.
Proof.
  unfold sightings. rewrite List.filter_In, List.in_map_iff.
  intros [(o & Ho & Hin) _]. exists o. auto.
Qed.

(** The dates of an identity, after observations of one kind. *)
Lemma identities_total_dates a obs u :
  forallb extracted obs = true -> forallb (of_kind a) obs = true ->
  In u (identities_total obs) ->
  first_message_date u
  = (if user_id u =? 0 then None else least_date a (message_times (user_id u) obs)) /\
  first_reaction_date u
  = (if user_id u =? 0 then None else least_date a (reaction_times (user_id u) obs)).
Proof.
  intros Hobs Hkind Hu.
  destruct (unique_identities_dates obs u Hobs Hu) as [-> ->].
  unfold resolve_total. rewrite message_dates_observations, reaction_dates_observations.
  destruct (user_id u =? 0) eqn:Hk.
  - apply Z.eqb_eq in Hk. rewrite Hk.
    rewrite (min_steps_zero message_date), (min_steps_zero reaction_date).
    split; reflexivity.
  - apply Z.eqb_neq in Hk.
    assert (forallb (fun o => kind_of a (message_date o)) obs = true /\
            forallb (fun o => kind_of a (reaction_date o)) obs = true) as [Hm Hr].
    { clear -Hkind. induction obs as [|o obs IH]; [auto|]. cbn [forallb] in *.
      apply andb_true_iff in Hkind. destruct Hkind as [Ho Hkind].
      apply andb_true_iff in Ho. destruct Ho as [-> ->]. apply IH. exact Hkind. }
    rewrite (min_steps_least a message_date), (min_steps_least a reaction_date)
      by (try assumption; simpl; rewrite lookup_empty; reflexivity).
    simpl. rewrite !lookup_empty. split; reflexivity.
Qed.

(** The flag of a mere mention of an identity. *)
Lemma identities_total_mention_only obs u :
  In u (identities_total obs) ->
  is_mention_only u = forallb is_mention_only (sightings (user_id u) obs).
Proof.
  intros Hu.
  pose proof (field_unique_identities is_mention_only
                (fun old s => old && is_mention_only s)
                is_mention_only_merge_existing is_mention_only_first_sighting
                is_mention_only_fill_missing obs u Hu) as H.
  destruct (sightings (user_id u) obs) as [|s rest]; [destruct H|].
  rewrite H, fold_left_andb. reflexivity.
Qed.

Lemma fold_channel (l : list TelegramUser) a :
  forallb channel_ok l = true -> (a = None \/ a = Some true) ->
  fold_left (fun old s => match has_channel s with Some c => Some c | None => old end) l a
  = if existsb (fun s => negb (unset (has_channel s))) l then Some true else a.
Proof.
  revert a. induction l as [|s l IH]; intros a Hl Ha; [reflexivity|].
  cbn [forallb] in Hl. apply andb_true_iff in Hl. destruct Hl as [Hs Hl].
  cbn [fold_left existsb]. unfold channel_ok in Hs.
  destruct (has_channel s) as [[|]|]; try discriminate Hs.
  - rewrite IH by auto. simpl. destruct (existsb _ l); reflexivity.
  - rewrite IH by auto. reflexivity.
Qed.

(** The channel flag of an identity, when no sighting has the flag
    false (no extractor gives it). *)
Lemma identities_total_channel obs u :
  forallb (fun o => channel_ok (seen o)) obs = true ->
  In u (identities_total obs) ->
  has_channel u
  = if existsb (fun s => negb (unset (has_channel s))) (sightings (user_id u) obs)
    then Some true else None.
Proof.
  intros Hc Hu.
  assert (forallb channel_ok (sightings (user_id u) obs) = true) as Hs.
  { rewrite forallb_forall in *. intros s Hin.
    apply sightings_seen in Hin. destruct Hin as (o & Ho & <-). apply Hc, Ho. }
  pose proof (field_unique_identities has_channel
                (fun old s => match has_channel s with Some c => Some c | None => old end)
                has_channel_merge_existing has_channel_first_sighting
                has_channel_fill_missing obs u Hu) as H.
  destruct (sightings (user_id u) obs) as [|s rest]; [destruct H|].
  cbn [forallb] in Hs. apply andb_true_iff in Hs. destruct Hs as [Hs Hrest].
  rewrite H. unfold channel_ok in Hs. cbn [existsb].
  destruct (has_channel s) as [[|]|]; try discriminate Hs.
  - rewrite fold_channel by auto. simpl. destruct (existsb _ rest); reflexivity.
  - rewrite fold_channel by auto. reflexivity.
Qed.

(** C1, as the code has it.  For observations as the extractors make
    them, with time stamps of one kind (all naive or all aware), in any
    two orders: both resolutions end without an exception, the rosters
    have the same keys, each once, and the identities of one key have the
    same earliest-message and earliest-reaction times, the same
    registration date, the same flag of a mere mention and the same
    deletion flag, and, when no observation has the channel flag false (no
    extractor gives it), the same channel flag.  (The username is the last
    one seen, the name parts and the bot flag are the first ones seen: they
    follow the order.) *)
Theorem roster_keys_and_times_order_independent (a : bool) (l1 l2 : list Observation) :
  Permutation l1 l2 ->
  forallb extracted l1 = true ->
  forallb (of_kind a) l1 = true ->
  resolves l1 = true /\ resolves l2 = true /\
  Permutation (map user_id (unique_identities l1)) (map user_id (unique_identities l2)) /\
  List.NoDup (map user_id (unique_identities l1)) /\
  (forall u1 u2,
     In u1 (unique_identities l1) -> In u2 (unique_identities l2) ->
     user_id u1 = user_id u2 ->
     first_message_date u1 = first_message_date u2 /\
     first_reaction_date u1 = first_reaction_date u2 /\
     registration_date u1 = registration_date u2 /\
     is_mention_only u1 = is_mention_only u2 /\
     is_deleted u1 = is_deleted u2 /\
     (forallb (fun o => channel_ok (seen o)) l1 = true -> has_channel u1 = has_channel u2)).
Proof.
  intros Hp He1 Hk1.
  assert (forall p : Observation -> bool, forallb p l1 = true -> forallb p l2 = true) as Hto.
  { intros p H. rewrite <- (forallb_permutation p l1 l2 Hp). exact H. }
  pose proof (Hto _ He1) as He2. pose proof (Hto _ Hk1) as Hk2.
  destruct (unique_identities_returned a l1 He1 Hk1) as [R1 E1].
  destruct (unique_identities_returned a l2 He2 Hk2) as [R2 E2].
  rewrite E1, E2. split; [exact R1|]. split; [exact R2|].
  split; [|split].
  - apply NoDup_Permutation; try apply NoDup_keys_unique_identities.
    intros k. rewrite !keys_unique_identities. split; intros (o & Hin & H).
    + exists o. split; [eapply Permutation_in; eassumption | exact H].
    + exists o. split; [eapply Permutation_in; [symmetry|]; eassumption | exact H].
  - apply NoDup_keys_unique_identities.
  - intros u1 u2 H1 H2 Hk.
    destruct (identities_total_dates a l1 u1 He1 Hk1 H1) as [Hm1 Hr1].
    destruct (identities_total_dates a l2 u2 He2 Hk2 H2) as [Hm2 Hr2].
    pose proof (registration_is_first_message l1 He1) as G1.
    pose proof (registration_is_first_message l2 He2) as G2.
    rewrite List.Forall_forall in G1, G2.
    pose proof (not_deleted_unique_identities l1) as D1.
    pose proof (not_deleted_unique_identities l2) as D2.
    rewrite List.Forall_forall in D1, D2.
    assert (first_message_date u1 = first_message_date u2) as Em.
    { rewrite Hm1, Hm2, <- Hk. destruct (user_id u1 =? 0); [reflexivity|].
      apply least_date_permutation. unfold message_times. apply omap_Permutation, Hp. }
    split; [exact Em|]. split.
    { rewrite Hr1, Hr2, <- Hk. destruct (user_id u1 =? 0); [reflexivity|].
      apply least_date_permutation. unfold reaction_times. apply omap_Permutation, Hp. }
    split; [rewrite (G1 _ H1), (G2 _ H2); exact Em|].
    split.
    { rewrite (identities_total_mention_only l1 u1 H1),
              (identities_total_mention_only l2 u2 H2), <- Hk.
      apply forallb_permutation, sightings_permutation, Hp. }
    split; [rewrite (D1 _ H1), (D2 _ H2); reflexivity|].
    intros Hc1. pose proof (Hto _ Hc1) as Hc2.
    rewrite (identities_total_channel l1 u1 Hc1 H1),
            (identities_total_channel l2 u2 Hc2 H2), <- Hk.
    rewrite (existsb_permutation _ _ _ (sightings_permutation (user_id u1) l1 l2 Hp)).
    reflexivity.
Qed.

Lemma roster_keys_and_times_order_independent_witness :
  let a := mkObservation (set_username (Some "alice1"%string) (new_user 1))
                         (Some (naive 10)) (JInt 1) None JNull in
  let b := mkObservation (set_username (Some "alice2"%string) (new_user 1))
                         (Some (naive 9)) (JInt 2) None JNull in
  resolves [a; b] = true /\ resolves [b; a] = true /\
  Permutation (map user_id (unique_identities [a; b]))
              (map user_id (unique_identities [b; a])) /\
  List.NoDup (map user_id (unique_identities [a; b])) /\
  (forall u1 u2,
      In u1 (unique_identities [a; b]) -> In u2 (unique_identities [b; a]) ->
      user_id u1 = user_id u2 ->
      first_message_date u1 = first_message_date u2 /\
      first_reaction_date u1 = first_reaction_date u2 /\
      registration_date u1 = registration_date u2 /\
      is_mention_only u1 = is_mention_only u2 /\
      is_deleted u1 = is_deleted u2 /\
      (forallb (fun o => channel_ok (seen o)) [a; b] = true ->
       has_channel u1 = has_channel u2)).
Proof.
  intros a b.
  exact (roster_keys_and_times_order_independent false [a; b] [b; a] (perm_swap b a [])
           eq_refl eq_refl).
Defined.

(** C1, as the specification has it, fails: two observations of one key
    with different usernames give, in the two orders, identities with
    different usernames (the last one seen stays). *)
Lemma order_independence_counterexample : ~ order_independence_claim.
Proof.
  intros H.
  pose (a := mkObservation (set_username (Some "alice1"%string) (new_user 1))
                           (Some (naive 10)) (JInt 1) None JNull).
  pose (b := mkObservation (set_username (Some "alice2"%string) (new_user 1))
                           (Some (naive 9)) (JInt 2) None JNull).
  specialize (H [a; b] [b; a] (perm_swap b a [])).
  destruct (H (hd (new_user 0) (unique_identities [a; b]))) as [H1 _].
  vm_compute in H1. destruct (H1 (or_introl eq_refl)) as [E|[]]. discriminate E.
Qed.

(** *** The order of a roster *)

Lemma keys_users_set us k u : keys (users_set us k u) = add_key (keys us) k.
Proof.
  unfold add_key, has_key. induction us as [|[k' u'] us IH]; simpl; [reflexivity|].
  destruct (k =? k') eqn:E; simpl.
  - apply Z.eqb_eq in E. subst k'. reflexivity.
  - rewrite IH. destruct (existsb (Z.eqb k) (keys us)); reflexivity.
Qed.

Lemma has_key_users_get us k : has_key (keys us) k = negb (unset (users_get us k)).
Proof.
  unfold has_key. induction us as [|[k' u'] us IH]; simpl; [reflexivity|].
  destruct (k =? k'); simpl; [reflexivity | exact IH].
Qed.

Lemma has_key_app ks ks' k : has_key (ks ++ ks') k = has_key ks k || has_key ks' k.
Proof. unfold has_key. apply existsb_app. Qed.

Lemma filter_all {A} (p : A -> bool) l :
  (forall x, In x l -> p x = true) -> List.filter p l = l.
Proof.
  induction l as [|x l IH]; intros H; simpl; [reflexivity|].
  rewrite (H x) by (left; reflexivity). f_equal. apply IH.
  intros y Hy. apply H. right. exact Hy.
Qed.

(** Adding keys to a dict keeps its keys in place and appends the new
    ones in the order of their first appearance. *)
Lemma add_keys_spec l ks :
  fold_left add_key l ks
  = ks ++ List.filter (fun k => negb (has_key ks k)) (first_keys l).
Proof.
  revert ks. induction l as [|k l IH]; intros ks.
  - simpl. rewrite app_nil_r. reflexivity.
  - cbn [fold_left first_keys List.filter]. rewrite IH. unfold add_key.
    destruct (has_key ks k) eqn:E; cbn [negb].
    + f_equal. rewrite filter_filter_comm. symmetry.
      apply filter_all. intros x Hx. apply List.filter_In in Hx.
      destruct Hx as [_ Hx]. destruct (Z.eqb_spec x k) as [->|]; [|reflexivity].
      rewrite E in Hx. discriminate Hx.
    + rewrite <- app_assoc. cbn [app]. f_equal. f_equal.
      rewrite filter_filter_comm. symmetry.
      rewrite (List.filter_ext_in
                 (fun x => negb (has_key (ks ++ [k]) x))
                 (fun x => negb (has_key ks x) && negb (x =? k))).
      * clear. induction (first_keys l) as [|x r IHr]; simpl; [reflexivity|].
        destruct (has_key ks x); simpl; [exact IHr|].
        destruct (x =? k); simpl; [exact IHr | f_equal; exact IHr].
      * intros x _. rewrite has_key_app. unfold has_key at 2. simpl.
        rewrite orb_false_r, negb_orb. reflexivity.
Qed.

Lemma keys_observe st o :
  keys (users (observe_total st o)) =
  if is_deleted (seen o) then keys (users st) else add_key (keys (users st)) (user_id (seen o)).
Proof.
  rewrite users_observe. destruct (is_deleted (seen o)); [reflexivity|].
  apply keys_users_set.
Qed.

Lemma keys_observations l st :
  keys (users (fold_left observe_total l st))
  = fold_left add_key (live_keys (map seen l)) (keys (users st)).
Proof.
  revert st. induction l as [|o l IH]; intros st; simpl; [reflexivity|].
  rewrite IH, keys_observe. unfold live_keys. simpl.
  destruct (is_deleted (seen o)); reflexivity.
Qed.

Lemma keys_identities_total obs :
  map user_id (identities_total obs) = first_keys (live_keys (map seen obs)).
Proof.
  unfold identities_total, resolve_total.
  rewrite keys_roster by (apply keyed_observations; constructor).
  rewrite keys_observations, add_keys_spec. simpl. apply filter_all. reflexivity.
Qed.

(** X11.  The roster lists the identities in the order in which their keys
    were first seen: when the resolution has ended without an exception,
    its keys are the first occurrences of the keys of the observations
    that are not tombstones; it is empty otherwise. *)
Theorem roster_is_in_order_of_first_sighting (obs : list Observation) :
  map user_id (unique_identities obs)
  = if resolves obs then first_keys (live_keys (map seen obs)) else [].
Proof.
  destruct (unique_identities_cases obs) as [[-> ->]|(-> & _ & ->)]; [reflexivity|].
  apply keys_identities_total.
Qed.

(** *** The aggregator and the batch *)

Lemma user_id_merge_into e u : user_id (merge_into e u) = user_id e.
Proof. frame merge_into. Qed.

Lemma is_deleted_merge_into e u : is_deleted (merge_into e u) = is_deleted e.
Proof. frame merge_into. Qed.

Lemma keys_merge_users us agg :
  keys (_merge_users agg us) = fold_left add_key (live_keys us) (keys agg).
Proof.
  unfold _merge_users, live_keys. revert agg.
  induction us as [|u us IH]; intros agg; simpl; [reflexivity|].
  rewrite IH. destruct (is_deleted u); simpl; [reflexivity|].
  destruct (users_get agg (user_id u)); rewrite keys_users_set; reflexivity.
Qed.

(** X12.  [_merge_users] keeps the keys of the dict in their place and
    appends the keys that are new, in the order of their first appearance
    among the users that are not deleted; deleted users add nothing. *)
Theorem merge_users_appends_new_keys (agg : list (Z * TelegramUser))
    (us : list TelegramUser) :
  keys (_merge_users agg us)
  = keys agg ++ List.filter (fun k => negb (has_key (keys agg) k)) (first_keys (live_keys us)).
Proof. rewrite keys_merge_users. apply add_keys_spec. Qed.

Lemma sound_merge_users us agg : sound agg -> sound (_merge_users agg us).
Proof.
  unfold _merge_users. revert agg. apply (fold_left_invariant sound).
  intros agg u [Hn Hf]. destruct (is_deleted u) eqn:Ed; [split; assumption|].
  destruct (users_get agg (user_id u)) as [x|] eqn:Ex.
  - split; [apply NoDup_keys_users_set, Hn|].
    apply Forall_pairs_users_set; [exact Hf|]. simpl.
    rewrite user_id_merge_into, is_deleted_merge_into.
    apply users_get_In in Ex. rewrite List.Forall_forall in Hf.
    destruct (Hf _ Ex) as [Hk Hd]. simpl in Hk, Hd.
    split; [exact Hk | exact Hd].
  - split; [apply NoDup_keys_users_set, Hn|].
    apply Forall_pairs_users_set; [exact Hf|]. simpl. split; [reflexivity | exact Ed].
Qed.

Lemma sound_roster agg :
  sound agg ->
  List.NoDup (map user_id (map snd agg)) /\
  List.Forall (fun u => is_deleted u = false) (map snd agg).
Proof.
  intros [Hn Hf]. split.
  - replace (map user_id (map snd agg)) with (keys agg); [exact Hn|].
    unfold keys. rewrite map_map. apply List.map_ext_in. intros kv Hkv.
    rewrite List.Forall_forall in Hf. destruct (Hf _ Hkv) as [-> _]. reflexivity.
  - apply List.Forall_map. revert Hf. apply List.Forall_impl. intros kv [_ Hd]. exact Hd.
Qed.

(** Users with distinct keys that are new to the dict are stored as they
    are. *)
Lemma merge_users_new us agg :
  List.NoDup (map user_id us) ->
  List.Forall (fun u => is_deleted u = false) us ->
  (forall u, In u us -> has_key (keys agg) (user_id u) = false) ->
  _merge_users agg us = agg ++ map (fun u => (user_id u, u)) us.
Proof.
  unfold _merge_users. revert agg.
  induction us as [|u us IH]; intros agg Hn Hd Hnew; simpl.
  - rewrite app_nil_r. reflexivity.
  - inversion Hn as [|? ? Hu Hn']; subst. inversion Hd as [|? ? Hdu Hd']; subst.
    rewrite Hdu.
    pose proof (Hnew u (or_introl eq_refl)) as Hk.
    rewrite has_key_users_get in Hk.
    destruct (users_get agg (user_id u)) as [x|]; [discriminate Hk|].
    assert (users_set agg (user_id u) u = agg ++ [(user_id u, u)]) as ->.
    { clear - Hnew. pose proof (Hnew u (or_introl eq_refl)) as Hk. clear Hnew.
      induction agg as [|[k' u'] agg IHa]; simpl; [reflexivity|].
      unfold has_key in Hk. simpl in Hk. apply orb_false_iff in Hk.
      destruct Hk as [-> Hk]. f_equal. apply IHa, Hk. }
    rewrite IH; [rewrite <- app_assoc; reflexivity | exact Hn' | exact Hd' |].
    intros v Hv.
    replace (keys (agg ++ [(user_id u, u)])) with (keys agg ++ [user_id u])
      by (unfold keys; rewrite map_app; reflexivity).
    rewrite has_key_app, (Hnew v (or_intror Hv)). unfold has_key. simpl.
    rewrite orb_false_r. apply Z.eqb_neq. intros E. apply Hu. rewrite <- E.
    apply List.in_map, Hv.
Qed.

Lemma endswith_app a b suffix :
  Path.endswith b suffix = true -> Path.endswith (a ++ b) suffix = true.
Proof.
  intros H. induction a as [|c a IH]; simpl; [exact H|].
  rewrite IH. apply orb_true_r.
Qed.

Lemma endswith_nonempty s suffix :
  Path.endswith s suffix = true -> Py.nonempty suffix = true -> Py.nonempty s = true.
Proof. destruct s, suffix; simpl; auto. Qed.

Lemma endswith_last_char s suffix :
  Path.endswith s suffix = true -> Py.nonempty suffix = true ->
  last_char s = last_char suffix.
Proof.
  intros H Hs. induction s as [|c s IH]; [destruct suffix; discriminate|].
  cbn [Path.endswith] in H. apply orb_true_iff in H. destruct H as [H|H].
  - apply String.eqb_eq in H. rewrite H. reflexivity.
  - rewrite <- (IH H). pose proof (endswith_nonempty _ _ H Hs) as Hn.
    destruct s; [discriminate Hn | reflexivity].
Qed.

Lemma chat_file_not_zip p : chat_file p = true -> Path.endswith p ".zip" = false.
Proof.
  unfold chat_file. intros H. destruct (Path.endswith p ".zip") eqn:Ez; [|reflexivity].
  apply endswith_last_char in Ez; [|reflexivity].
  apply orb_true_iff in H. destruct H as [H|H];
    apply endswith_last_char in H; try reflexivity;
    rewrite H in Ez; discriminate Ez.
Qed.

Lemma chat_file_join root file : chat_file file = true -> chat_file (Path.join root file) = true.
Proof.
  unfold chat_file, Path.join. intros H.
  destruct (Py.startswith file "/"); [exact H|].
  apply orb_true_iff in H. apply orb_true_iff.
  destruct (negb (Py.nonempty root) || Path.endswith root "/");
    destruct H as [H|H]; [left|right|left|right];
    rewrite ?(endswith_app root file), ?(endswith_app root ("/" ++ file));
    auto; apply (endswith_app "/"); exact H.
Qed.

(** X13.  The files that [_extract_zip] finds in an archive all have the
    suffix of a JSON file or of an HTML file (and so are no archives):
    each of them is read by one of the two parsers. *)
Theorem extract_zip_gives_chat_files (fs : Files) (zip_path : string) :
  List.Forall (fun p => chat_file p = true /\ Path.endswith p ".zip" = false)
              (_extract_zip fs zip_path).
Proof.
  unfold _extract_zip. destruct (zip_archive fs zip_path) as [[namelist walked]|]; [|constructor].
  destruct namelist as [|n namelist]; [constructor|].
  rewrite List.Forall_forall. intros p Hp. apply List.in_flat_map in Hp.
  destruct Hp as ([root files] & _ & Hp). apply List.in_map_iff in Hp.
  destruct Hp as (file & <- & Hf). apply List.filter_In in Hf. destruct Hf as [_ Hf].
  pose proof (chat_file_join root file Hf) as Hc.
  split; [exact Hc | apply chat_file_not_zip, Hc].
Qed.

Section Batches.
Context `{RT : Runtime}.
Variable fs : Files.

Lemma gather_from paths acc :
  fold_left
    (fun extracted_files file_path =>
       if negb (path_exists fs file_path) then extracted_files
       else if Path.endswith file_path ".zip"
            then extracted_files ++ _extract_zip fs file_path
            else extracted_files ++ [file_path])
    paths acc
  = acc ++ flat_map (listed fs) paths.
Proof.
  revert acc. induction paths as [|p paths IH]; intros acc; simpl.
  - rewrite app_nil_r. reflexivity.
  - rewrite IH. unfold listed.
    destruct (negb (path_exists fs p)); [reflexivity|].
    destruct (Path.endswith p ".zip"); rewrite <- app_assoc; reflexivity.
Qed.

Lemma gather_listed paths : gather fs paths = flat_map (listed fs) paths.
Proof. unfold gather. apply gather_from. Qed.

Lemma parsed_roster_sound content_json content_html :
  let sound_roster us :=
    List.NoDup (map user_id us) /\ List.Forall (fun u => is_deleted u = false) us in
  sound_roster (returned (JSONParser_parse content_json)) /\
  sound_roster (returned (HTMLParser_parse content_html)).
Proof.
  destruct parsers_resolve_observations as [Hj Hh]. cbv zeta.
  destruct (Hj content_json) as (obs & _ & ->). destruct (Hh content_html) as (obs' & _ & ->).
  repeat split;
    first [apply NoDup_keys_unique_identities | apply not_deleted_unique_identities].
Qed.

Lemma sound_process_file agg p : sound agg -> sound (process_file fs agg p).
Proof.
  intros H. unfold process_file.
  destruct (Path.endswith p ".json").
  - destruct (returned _); [exact H | apply sound_merge_users, H].
  - destruct (Path.endswith p ".html"); [|exact H].
    destruct (returned _); [exact H | apply sound_merge_users, H].
Qed.

(** The roster of a new processor is that of the second loop, also when
    there is nothing to read. *)
Lemma batch_fold paths :
  batch fs paths = map snd (fold_left (process_file fs) (gather fs paths) []).
Proof.
  unfold batch, process_files. destruct (gather fs paths); reflexivity.
Qed.

Lemma process_file_passed_over agg p :
  chat_file p = false -> process_file fs agg p = agg.
Proof.
  unfold chat_file, process_file. intros H. apply orb_false_iff in H.
  destruct H as [-> ->]. reflexivity.
Qed.

End Batches.

(** X14.  The roster that a new processor returns for a batch of files has
    at most one identity per key and no deleted identity. *)
Theorem batch_roster_is_sound `{RT : Runtime} (fs : Files) (file_paths : list string) :
  List.NoDup (map user_id (batch fs file_paths)) /\
  List.Forall (fun u => is_deleted u = false) (batch fs file_paths).
Proof.
  rewrite batch_fold. apply sound_roster.
  apply (fold_left_invariant sound).
  - intros agg p. apply sound_process_file.
  - split; constructor.
Qed.

(** X15.  A path that does not exist, an archive that cannot be read, and
    a file that is neither an archive nor has the suffix of a JSON or HTML
    file do not change the roster of the batch. *)
Theorem batch_passes_over `{RT : Runtime} (fs : Files) (before after : list string)
    (p : string) :
  passed_over fs p = true ->
  batch fs (before ++ p :: after) = batch fs (before ++ after).
Proof.
  intros Hp. rewrite !batch_fold, !gather_listed, !flat_map_app. simpl.
  rewrite !fold_left_app. f_equal. f_equal.
  unfold passed_over in Hp. unfold listed.
  destruct (path_exists fs p); simpl in *; [|reflexivity].
  destruct (Path.endswith p ".zip").
  - unfold _extract_zip. destruct (zip_archive fs p); [discriminate Hp | reflexivity].
  - simpl. apply negb_true_iff in Hp. rewrite process_file_passed_over by exact Hp.
    reflexivity.
Qed.

Lemma batch_passes_over_witness :
  batch sample_files (["missing.json"%string] ++ "notes.txt"%string :: ["chat.json"%string])
  = batch sample_files (["missing.json"%string] ++ ["chat.json"%string]).
Proof.
  apply (batch_passes_over sample_files ["missing.json"%string] ["chat.json"%string]
                           "notes.txt"%string).
  reflexivity.
Defined.

(** X16.  For a single file that exists, a new processor returns the
    roster of the parser of its suffix as it is: that of the JSON parser
    for the suffix [.json], that of the HTML parser for the suffix
    [.html]. *)
Theorem single_file_batch_is_parser_roster `{RT : Runtime} (fs : Files) (p : string) :
  path_exists fs p = true ->
  (Path.endswith p ".json" = true ->
   batch fs [p] = returned (JSONParser_parse (json_file fs p))) /\
  (Path.endswith p ".json" = false -> Path.endswith p ".html" = true ->
   batch fs [p] = returned (HTMLParser_parse (html_file fs p))).
Proof.
  intros He.
  assert (forall us,
            List.NoDup (map user_id us) /\ List.Forall (fun u => is_deleted u = false) us ->
            map snd (match us with [] => [] | _ => _merge_users [] us end) = us) as Hnew.
  { intros us [Hn Hd]. destruct us as [|u us]; [reflexivity|].
    rewrite merge_users_new; [| exact Hn | exact Hd | reflexivity].
    simpl. f_equal. rewrite map_map. simpl. apply List.map_id. }
  destruct (parsed_roster_sound (json_file fs p) (html_file fs p)) as [Hj Hh]. cbv zeta in *.
  split.
  - intros Hs.
    assert (chat_file p = true) as Hc by (unfold chat_file; rewrite Hs; reflexivity).
    rewrite batch_fold, gather_listed. simpl. unfold listed.
    rewrite He, (chat_file_not_zip p Hc). simpl. unfold process_file. rewrite Hs.
    rewrite <- (Hnew _ Hj) at 2. destruct (returned (JSONParser_parse _)); reflexivity.
  - intros Hs Hs'.
    assert (chat_file p = true) as Hc by (unfold chat_file; rewrite Hs'; apply orb_true_r).
    rewrite batch_fold, gather_listed. simpl. unfold listed.
    rewrite He, (chat_file_not_zip p Hc). simpl. unfold process_file. rewrite Hs, Hs'.
    rewrite <- (Hnew _ Hh) at 2. destruct (returned (HTMLParser_parse _)); reflexivity.
Qed.

Lemma single_file_batch_is_parser_roster_witness :
  batch sample_files ["chat.json"%string]
  = returned (JSONParser_parse (json_file sample_files "chat.json")).
Proof.
  apply (single_file_batch_is_parser_roster sample_files "chat.json"%string);
    reflexivity.
Defined.

(** *** The workbook *)

Lemma categories_from users regular channel :
  fold_left
    (fun '(regular_users, channel_users) user =>
       if is_true (has_channel user)
       then (regular_users, channel_users ++ [user])
       else (regular_users ++ [user], channel_users))
    users (regular, channel)
  = (regular ++ List.filter (fun u => negb (is_true (has_channel u))) users,
     channel ++ List.filter (fun u => is_true (has_channel u)) users).
Proof.
  revert regular channel. induction users as [|u users IH]; intros regular channel; simpl.
  - rewrite !app_nil_r. reflexivity.
  - destruct (is_true (has_channel u)); simpl; rewrite IH, <- app_assoc; reflexivity.
Qed.

Lemma categories_filter users :
  categories users
  = (List.filter (fun u => negb (is_true (has_channel u))) users,
     List.filter (fun u => is_true (has_channel u)) users).
Proof. unfold categories. rewrite categories_from. reflexivity. Qed.

Lemma filter_split {A} (p : A -> bool) l :
  Permutation (List.filter (fun x => negb (p x)) l ++ List.filter p l) l.
Proof.
  induction l as [|x l IH]; simpl; [constructor|].
  destruct (p x); simpl.
  - symmetry. apply Permutation_cons_app. symmetry. exact IH.
  - constructor. exact IH.
Qed.

Lemma rows_sheets users :
  Permutation (rows (sheets users)) (map snd (unique_users_dict users)).
Proof.
  unfold sheets. cbv zeta. rewrite categories_filter.
  pose proof (filter_split (fun u => is_true (has_channel u))
                           (map snd (unique_users_dict users))) as H.
  destruct (List.filter (fun u => negb _) _) as [|r regular];
    destruct (List.filter (fun u => is_true _) _) as [|c channel];
    unfold rows; simpl in *; rewrite ?app_nil_r in *; try exact H.
  reflexivity.
Qed.

Lemma unique_users_dict_from users d k :
  users_get
    (fold_left
       (fun d user =>
          match users_get d (user_id user) with
          | Some _ => d
          | None => users_set d (user_id user) user
          end)
       users d) k
  = match users_get d k with
    | Some x => Some x
    | None => List.find (fun v => user_id v =? k) users
    end.
Proof.
  revert d. induction users as [|u users IH]; intros d; simpl.
  - destruct (users_get d k); reflexivity.
  - rewrite IH. clear IH. destruct (users_get d (user_id u)) as [x|] eqn:Ex.
    + destruct (users_get d k) as [y|] eqn:Ey; [reflexivity|].
      destruct (Z.eqb_spec (user_id u) k) as [E|]; [|reflexivity]. congruence.
    + destruct (Z.eqb_spec (user_id u) k) as [E|N].
      * subst k. rewrite users_get_set_eq, Ex. reflexivity.
      * rewrite users_get_set_ne by congruence. reflexivity.
Qed.

Lemma keys_unique_users_dict users :
  keys (unique_users_dict users) = first_keys (map user_id users).
Proof.
  unfold unique_users_dict.
  assert (forall d,
    keys (fold_left
            (fun d user =>
               match users_get d (user_id user) with
               | Some _ => d
               | None => users_set d (user_id user) user
               end) users d)
    = fold_left add_key (map user_id users) (keys d)) as H.
  { induction users as [|u users IH]; intros d; simpl; [reflexivity|].
    rewrite IH. f_equal. destruct (users_get d (user_id u)) as [x|] eqn:E.
    - unfold add_key. rewrite has_key_users_get, E. reflexivity.
    - apply keys_users_set. }
  rewrite H, add_keys_spec. simpl. apply filter_all. reflexivity.
Qed.

Lemma keyed_unique_users_dict users :
  List.Forall (fun kv => user_id (snd kv) = fst kv) (unique_users_dict users).
Proof.
  unfold unique_users_dict.
  apply (fold_left_invariant (List.Forall (fun kv => user_id (snd kv) = fst kv))).
  - intros d u Hd. destruct (users_get d (user_id u)); [exact Hd|].
    apply Forall_pairs_users_set; [exact Hd | reflexivity].
  - constructor.
Qed.

Lemma NoDup_first_keys l : List.NoDup (first_keys l).
Proof.
  rewrite <- (app_nil_l (first_keys l)).
  rewrite <- (filter_all (fun k => negb (has_key [] k)) (first_keys l)) by reflexivity.
  rewrite <- add_keys_spec.
  apply (fold_left_invariant (fun ks => List.NoDup ks)); [|constructor].
  intros ks k Hks. unfold add_key. destruct (has_key ks k) eqn:E; [exact Hks|].
  apply (Permutation_NoDup (Permutation_cons_append ks k)).
  constructor; [|exact Hks]. intros Hin.
  unfold has_key in E. apply not_true_iff_false in E. apply E.
  apply existsb_exists. exists k. split; [exact Hin | apply Z.eqb_refl].
Qed.

(** X17.  The workbook has at least one sheet, and every key of the users
    to export has exactly one row in it: the keys of the rows of all the
    sheets are, up to their order, the distinct keys of the users. *)
Theorem workbook_has_one_row_per_key (users : list TelegramUser) :
  sheets users <> [] /\
  List.NoDup (map user_id (rows (sheets users))) /\
  forall k, In k (map user_id (rows (sheets users))) <-> In k (map user_id users).
Proof.
  assert (Permutation (map user_id (rows (sheets users))) (first_keys (map user_id users)))
    as Hp.
  { rewrite (Permutation_map user_id (rows_sheets users)).
    rewrite <- keys_unique_users_dict. unfold keys. rewrite map_map.
    rewrite (List.map_ext_in (fun x => user_id (snd x)) fst); [reflexivity|].
    intros kv Hkv. pose proof (keyed_unique_users_dict users) as Hk.
    rewrite List.Forall_forall in Hk. apply Hk, Hkv. }
  split; [|split].
  - unfold sheets. cbv zeta. rewrite categories_filter.
    destruct (List.filter (fun u => negb _) _); destruct (List.filter (fun u => is_true _) _);
      discriminate.
  - apply (Permutation_NoDup (Permutation_sym Hp)), NoDup_first_keys.
  - intros k. split; intros Hk.
    + apply (Permutation_in _ Hp) in Hk.
      clear - Hk. induction (map user_id users) as [|x l IH]; [destruct Hk|].
      simpl in Hk. destruct Hk as [->|Hk]; [left; reflexivity|].
      right. apply IH. apply List.filter_In in Hk. apply Hk.
    + apply (Permutation_in _ (Permutation_sym Hp)).
      clear - Hk. induction (map user_id users) as [|x l IH]; [destruct Hk|].
      simpl. destruct (Z.eqb_spec k x) as [->|N]; [left; reflexivity|].
      right. destruct Hk as [->|Hk]; [congruence|].
      apply List.filter_In. split; [apply IH, Hk|].
      apply negb_true_iff, Z.eqb_neq, N.
Qed.

(** X18.  Every row of the workbook is on the sheet of its user: the
    channels sheet has the users whose channel flag is true, the
    participants sheet has all the others. *)
Theorem rows_are_on_their_sheet (users : list TelegramUser) :
  List.Forall (fun sheet => List.Forall (fun u => sheet_of u = fst sheet) (snd sheet))
              (sheets users).
Proof.
  unfold sheets. cbv zeta. rewrite categories_filter.
  pose proof (filter_split (fun u => is_true (has_channel u))
                           (map snd (unique_users_dict users))) as H.
  assert (List.Forall (fun u => sheet_of u = Participants)
            (List.filter (fun u => negb (is_true (has_channel u)))
                         (map snd (unique_users_dict users)))) as Hr.
  { rewrite List.Forall_forall. intros u Hu. apply List.filter_In in Hu.
    destruct Hu as [_ Hu]. unfold sheet_of. apply negb_true_iff in Hu. rewrite Hu.
    reflexivity. }
  assert (List.Forall (fun u => sheet_of u = Channels)
            (List.filter (fun u => is_true (has_channel u))
                         (map snd (unique_users_dict users)))) as Hc.
  { rewrite List.Forall_forall. intros u Hu. apply List.filter_In in Hu.
    destruct Hu as [_ Hu]. unfold sheet_of. rewrite Hu. reflexivity. }
  destruct (List.filter (fun u => negb _) _) as [|r regular];
    destruct (List.filter (fun u => is_true _) _) as [|c channel];
    cbn [app] in *;
    repeat (apply List.Forall_cons || apply List.Forall_nil); cbn [fst snd];
    try assumption;
    try (inversion Hr; subst; assumption); try (inversion Hc; subst; assumption).
  apply Permutation_nil in H. rewrite H. constructor.
Qed.

(** X19.  Of the users with the same key, the workbook keeps the first:
    the user of a row is the first user of the list with its key. *)
Theorem workbook_keeps_first_user_of_key (users : list TelegramUser) (u : TelegramUser) :
  In u (rows (sheets users)) ->
  List.find (fun v => user_id v =? user_id u) users = Some u.
Proof.
  intros Hu. apply (Permutation_in _ (rows_sheets users)) in Hu.
  apply List.in_map_iff in Hu. destruct Hu as ([k x] & <- & Hin). simpl.
  pose proof (keyed_unique_users_dict users) as Hk. rewrite List.Forall_forall in Hk.
  pose proof (Hk _ Hin) as E. simpl in E. rewrite E.
  assert (List.NoDup (keys (unique_users_dict users))) as Hn
    by (rewrite keys_unique_users_dict; apply NoDup_first_keys).
  pose proof (In_users_get _ _ _ Hn Hin) as Hg.
  unfold unique_users_dict in Hg. rewrite unique_users_dict_from in Hg. exact Hg.
Qed.

Lemma workbook_keeps_first_user_of_key_witness :
  let users := [set_first_name (Some "Bob"%string) (new_user 7); new_user 8;
                set_first_name (Some "Robert"%string) (new_user 7)] in
  let u := set_first_name (Some "Bob"%string) (new_user 7) in
  List.find (fun v => user_id v =? user_id u) users = Some u.
Proof.
  intros users u. apply (workbook_keeps_first_user_of_key users u).
  vm_compute. left. reflexivity.
Defined.

(** *** The names of a user *)

(** X20.  The full name and the display name of a user are never empty. *)
Theorem names_are_never_empty (u : TelegramUser) :
  Py.nonempty (full_name u) = true /\ Py.nonempty (display_name u) = true.
Proof.
  assert (Py.nonempty (full_name u) = true) as Hf.
  { unfold full_name.
    destruct (first_name u) as [[|c a]|], (last_name u) as [[|d b]|]; reflexivity. }
  split; [exact Hf|]. unfold display_name.
  destruct (filled (username u)); [reflexivity | exact Hf].
Qed.

(** *** What the HTML parser knows of a user *)

Lemma first_message_id_first_sighting st user :
  first_message_id (first_sighting st user) =
  match user_first_message_id st !! user_id user with
  | Some i => Some i
  | None => first_message_id user
  end.
Proof. frame first_sighting. Qed.

Lemma first_message_id_fill_missing st k user :
  first_message_id (fill_missing st k user) =
  match user_first_message_id st !! k with
  | Some i => if negb (filled_json (first_message_id user)) then Some i
              else first_message_id user
  | None => first_message_id user
  end.
Proof. frame fill_missing. Qed.

Lemma first_reaction_emoji_fill_missing st k user :
  first_reaction_emoji (fill_missing st k user) =
  match user_first_reaction_emoji st !! k with
  | Some x => if negb (filled_json (first_reaction_emoji user)) then Some x
              else first_reaction_emoji user
  | None => first_reaction_emoji user
  end.
Proof. frame fill_missing. Qed.

Lemma plain_merge_existing st e u :
  user_first_message_id st = ∅ -> user_first_reaction_date st = ∅ ->
  user_first_reaction_emoji st = ∅ ->
  plain e -> plain u -> plain (merge_total st e u).
Proof.
  intros Hi Hd He (e1 & e2 & e3 & e4 & e5 & e6 & e7 & e8 & e9)
         (u1 & u2 & u3 & u4 & u5 & u6 & u7 & u8 & u9).
  unfold plain.
  rewrite has_channel_merge_existing, is_bot_merge_existing, bio_merge_existing,
    phone_number_merge_existing, mention_merge_existing, birth_date_merge_existing,
    first_message_id_merge_existing, first_message_id_take_first_message,
    first_reaction_date_merge_existing, first_reaction_emoji_merge_existing,
    first_reaction_emoji_take_first_reaction.
  rewrite Hi, Hd, He, !lookup_empty, e1, e2, e3, e4, e5, e6, e7, e8, e9, u1, u3, u4, u5.
  repeat split; try reflexivity.
  destruct (user_first_message_date st !! user_id u); [|reflexivity].
  destruct (first_message_date e) as [old|]; [|reflexivity].
  destruct (_ <? instant old); reflexivity.
Qed.

Lemma plain_first_sighting st u :
  user_first_message_id st = ∅ -> user_first_reaction_date st = ∅ ->
  user_first_reaction_emoji st = ∅ ->
  plain u -> plain (first_sighting st u).
Proof.
  intros Hi Hd He (u1 & u2 & u3 & u4 & u5 & u6 & u7 & u8 & u9).
  unfold plain.
  rewrite has_channel_first_sighting, is_bot_first_sighting, bio_first_sighting,
    phone_number_first_sighting, mention_first_sighting, birth_date_first_sighting,
    first_message_id_first_sighting, first_reaction_date_first_sighting,
    first_reaction_emoji_first_sighting.
  rewrite Hi, Hd, He, !lookup_empty. repeat split; assumption.
Qed.

Lemma plain_fill_missing st k u :
  user_first_message_id st = ∅ -> user_first_reaction_date st = ∅ ->
  user_first_reaction_emoji st = ∅ ->
  plain u -> plain (fill_missing st k u).
Proof.
  intros Hi Hd He (u1 & u2 & u3 & u4 & u5 & u6 & u7 & u8 & u9).
  unfold plain.
  rewrite has_channel_fill_missing, is_bot_fill_missing, bio_fill_missing,
    phone_number_fill_missing, mention_fill_missing, birth_date_fill_missing,
    first_message_id_fill_missing, first_reaction_date_fill_missing,
    first_reaction_emoji_fill_missing.
  rewrite Hi, Hd, He, !lookup_empty, u8. repeat split; assumption.
Qed.

Lemma plain_state_add_user st u : plain_state st -> plain u -> plain_state (add_total st u).
Proof.
  intros (Hi & Hd & He & Hus) Hu.
  destruct (maps_add_user st u) as (_ & Mi & Md & Me).
  repeat split; try congruence.
  apply (Forall_add_user plain); [| |exact Hus].
  - intros e Hpe. apply plain_merge_existing; assumption.
  - apply plain_first_sighting; assumption.
Qed.

Lemma plain_state_note_first_message st k d :
  plain_state st -> plain_state (note_total st k d JNull).
Proof.
  intros (Hi & Hd & He & Hus). unfold note_total.
  destruct d as [t|]; [|repeat split; assumption].
  destruct (k =? 0); [repeat split; assumption|].
  destruct (user_first_message_date st !! k) as [old|];
    [destruct (instant t <? instant old)|]; repeat split; assumption.
Qed.

Lemma plain_state_observe st o :
  plain_state st -> plain (seen o) -> message_id o = JNull -> reaction_date o = None ->
  plain_state (observe_total st o).
Proof.
  intros Hst Hu Hi Hr. unfold observe_total. rewrite Hi, Hr.
  apply plain_state_add_user; [|exact Hu]. apply plain_state_note_first_message, Hst.
Qed.

Section HtmlRoster.
Context `{RT : Runtime}.

Lemma plain_html_user name : plain (html_user name).
Proof. unfold plain. repeat split; reflexivity. Qed.

Lemma plain_mentioned_user handle : plain (mentioned_user handle).
Proof. unfold plain. repeat split; reflexivity. Qed.

(** The observations of the HTML parser bring plain users, without the id
    of a message and without a reaction. *)
Lemma html_observations_plain messages :
  List.Forall (fun o => plain (seen o) /\ message_id o = JNull /\ reaction_date o = None)
              (flat_map html_observations messages).
Proof.
  induction messages as [|m messages IH]; [constructor|].
  cbn [flat_map]. apply List.Forall_app. split; [|exact IH].
  unfold html_observations. apply List.Forall_app. split.
  - destruct (from_name_element m) as [el|]; [|constructor].
    destruct (Py.nonempty (Py.strip el)); [|constructor].
    apply List.Forall_cons; [|constructor].
    split; [apply plain_html_user | split; reflexivity].
  - destruct (text_element m) as [text|]; [|constructor].
    apply List.Forall_map, List.Forall_forall. intros h _.
    split; [apply plain_mentioned_user | split; reflexivity].
Qed.

Lemma plain_state_observations obs st :
  List.Forall (fun o => plain (seen o) /\ message_id o = JNull /\ reaction_date o = None) obs ->
  plain_state st -> plain_state (fold_left observe_total obs st).
Proof.
  intros Hobs. revert st.
  induction Hobs as [|o obs (Hu & Hi & Hr) Hobs IH]; simpl; intros st Hst; [exact Hst|].
  apply IH. apply plain_state_observe; assumption.
Qed.

(** The keys of the observations of the HTML parser. *)
Lemma live_keys_html_observations messages :
  live_keys (map seen (flat_map html_observations messages)) = flat_map html_keys messages.
Proof.
  unfold live_keys. induction messages as [|m messages IH]; [reflexivity|].
  cbn [flat_map]. rewrite map_app, List.filter_app, map_app, IH. f_equal.
  unfold html_observations, html_keys.
  rewrite map_app, List.filter_app, map_app. f_equal.
  - destruct (from_name_element m) as [el|]; [|reflexivity].
    destruct (Py.nonempty (Py.strip el)); reflexivity.
  - destruct (text_element m) as [text|]; [|reflexivity].
    induction (_extract_mentioned_users (Some text)) as [|h l IHl]; [reflexivity|].
    cbn [map List.filter]. cbn [map List.filter] in IHl.
    change (is_deleted (seen (mkObservation (mentioned_user h) None JNull None JNull)))
      with false.
    cbn [negb map]. rewrite IHl. reflexivity.
Qed.

End HtmlRoster.

Lemma html_parse_plain `{RT : Runtime} (content : option (list html_message)) :
  List.Forall plain (returned (HTMLParser_parse content)).
Proof.
  destruct content as [messages|]; [|constructor].
  rewrite html_parse_resolves. cbn [returned].
  assert (plain_state (resolve_total (flat_map html_observations messages)))
    as (Hi & Hd & He & Hus).
  { apply plain_state_observations; [apply html_observations_plain|].
    repeat split. constructor. }
  unfold identities_total, roster, get_unique_users. simpl. rewrite map_map. simpl.
  apply List.Forall_map. revert Hus. apply List.Forall_impl.
  intros [k u]. simpl. apply plain_fill_missing; assumption.
Qed.

(** X21.  The HTML parser knows of a user the key, the names and the time
    of the first message only: every identity of a roster it returns has
    no channel flag, phone number, mention, bio or birth date, is not a
    bot, and has neither the id of a first message nor a first reaction. *)
Theorem html_roster_is_plain `{RT : Runtime} (content : option (list html_message)) :
  List.Forall plain (returned (HTMLParser_parse content)).
Proof. exact (html_parse_plain content). Qed.

(** X22.  The keys of the roster of the HTML parser are the hashes of the
    names of the authors and of the handles mentioned in the texts, each
    once, in the order of their first appearance in the export. *)
Theorem html_roster_keys `{RT : Runtime} (messages : list html_message) :
  map user_id (returned (HTMLParser_parse (Some messages)))
  = first_keys (flat_map html_keys messages).
Proof.
  rewrite html_parse_resolves. cbn [returned].
  rewrite keys_identities_total, live_keys_html_observations. reflexivity.
Qed.

(** *** Properties of the users that a parse keeps *)

Section Kept.
Variable Q : TelegramUser -> Prop.
Hypothesis Q_merge : forall st e u, Q e -> Q u -> Q (merge_total st e u).
Hypothesis Q_first : forall st u, Q u -> Q (first_sighting st u).
Hypothesis Q_fill : forall st k u, Q u -> Q (fill_missing st k u).

Lemma kept_add_user st u : kept Q st -> passed Q u -> kept Q (add_total st u).
Proof.
  intros Hst [Hd|Hu]; [rewrite add_user_deleted; assumption|].
  unfold kept in *. apply (Forall_add_user Q); [| |exact Hst]; auto.
Qed.

Lemma kept_observe st o : kept Q st -> passed Q (seen o) -> kept Q (observe_total st o).
Proof.
  intros Hst Ho. unfold observe_total. apply kept_add_user; [|exact Ho].
  unfold kept in *. rewrite users_save_first_reaction, users_note_first_message. exact Hst.
Qed.

(** What holds of every user observed, and is kept by the merge, holds of
    every identity of the roster. *)
Lemma kept_identities obs :
  List.Forall (fun o => passed Q (seen o)) obs -> List.Forall Q (identities_total obs).
Proof.
  intros Hobs.
  assert (kept Q (resolve_total obs)) as Hk.
  { unfold resolve_total.
    assert (kept Q init) as Hinit by constructor.
    revert Hinit. generalize init.
    induction Hobs as [|o obs Ho Hobs IH]; simpl; intros st Hst; [exact Hst|].
    apply IH. apply kept_observe; assumption. }
  unfold kept in Hk. unfold identities_total, roster, get_unique_users. simpl.
  rewrite map_map. simpl.
  apply List.Forall_map. revert Hk. apply List.Forall_impl.
  intros [k u]. simpl. apply Q_fill.
Qed.

(** What holds of every user that the extractors of the JSON parser make,
    and is kept by the merge, holds of every identity of its rosters. *)
Lemma kept_json `{RT : Runtime} content :
  (forall u, json_user u -> Q u) -> List.Forall Q (returned (JSONParser_parse content)).
Proof.
  intros HQ. destruct (json_parse_resolves content) as (obs & Hobs & ->).
  apply kept_identities. revert Hobs. apply List.Forall_impl.
  intros o [_ [Hd|Hj]]; [left; exact Hd | right; apply HQ, Hj].
Qed.

End Kept.

(** C10.  The detection of a channel answers true or unknown, never false;
    hence no identity of a roster returned by either parser has a channel
    flag that is false. *)
Theorem channel_flag_never_false `{RT : Runtime} :
  (forall bio user_data,
      _detect_channel_in_profile bio user_data <> Returned (Some false)) /\
  (forall content,
      List.Forall (fun u => has_channel u <> Some false)
                  (returned (JSONParser_parse content))) /\
  (forall content,
      List.Forall (fun u => has_channel u <> Some false)
                  (returned (HTMLParser_parse content))).
Proof.
  split; [|split].
  - intros bio ud. destruct (detect_channel_cases bio ud) as [E|[E|E]]; rewrite E; discriminate.
  - intros content.
    assert (List.Forall (fun u => channel_ok u = true) (returned (JSONParser_parse content)))
      as H.
    { apply (kept_json (fun u => channel_ok u = true)).
      - intros st e u He Hu. unfold channel_ok in *. rewrite has_channel_merge_existing.
        destruct (has_channel u) as [[|]|]; congruence.
      - intros st u Hu. unfold channel_ok in *. rewrite has_channel_first_sighting. exact Hu.
      - intros st k u Hu. unfold channel_ok in *. rewrite has_channel_fill_missing. exact Hu.
      - intros u (Hc & _). exact Hc. }
    revert H. apply List.Forall_impl. intros u. unfold channel_ok.
    destruct (has_channel u) as [[|]|]; congruence.
  - intros content. generalize (html_parse_plain content). apply List.Forall_impl.
    intros u (Hc & _). congruence.
Qed.

(** X23.  In a roster of the JSON parser every mention begins with the
    sign [@]: the mention of an identity is unset or is a text that
    [_extract_mention_from_message] made, and that one puts the sign in
    front where it is missing. *)
Theorem json_roster_mentions_begin_with_at `{RT : Runtime} (content : option json) :
  List.Forall mention_ok (returned (JSONParser_parse content)).
Proof.
  apply kept_json.
  - intros st e u He Hu. unfold mention_ok in *. rewrite mention_merge_existing.
    unfold fill. destruct (negb (filled (mention e)) && filled (mention u)); assumption.
  - intros st u Hu. unfold mention_ok in *. rewrite mention_first_sighting. exact Hu.
  - intros st k u Hu. unfold mention_ok in *. rewrite mention_fill_missing. exact Hu.
  - intros u (_ & Hm & _). exact Hm.
Qed.

(** X24.  The JSON parser never marks an identity as mentioned only and
    never gives it a birth date: in every roster it returns, both fields
    have the default of a new user. *)
Theorem json_roster_defaults `{RT : Runtime} (content : option json) :
  List.Forall (fun u => is_mention_only u = false /\ birth_date u = None)
              (returned (JSONParser_parse content)).
Proof.
  apply (kept_json (fun u => is_mention_only u = false /\ birth_date u = None)).
  - intros st e u [He He'] [Hu Hu'].
    rewrite is_mention_only_merge_existing, birth_date_merge_existing, He. auto.
  - intros st u Hu. rewrite is_mention_only_first_sighting, birth_date_first_sighting.
    exact Hu.
  - intros st k u Hu. rewrite is_mention_only_fill_missing, birth_date_fill_missing.
    exact Hu.
  - intros u (_ & _ & Ho & Hb). auto.
Qed.

(** *** An id comes with its date *)

Lemma ids_note_first_message st uid d i k :
  user_first_message_id (note_total st uid d i) !! k = None ->
  user_first_message_id st !! k = None.
Proof.
  unfold note_total. destruct d as [t|]; [|auto].
  destruct (uid =? 0); [auto|].
  assert ((if truthy i then <[uid:=i]> (user_first_message_id st)
           else user_first_message_id st) !! k = None ->
          user_first_message_id st !! k = None) as H.
  { destruct (truthy i); [|auto].
    destruct (decide (k = uid)) as [->|N].
    - rewrite lookup_insert_eq. discriminate.
    - rewrite lookup_insert_ne by congruence. auto. }
  destruct (user_first_message_date st !! uid) as [old|]; [destruct (instant t <? instant old)|];
    simpl; auto.
Qed.

Lemma emoji_save_first_reaction_none st uid d e k :
  user_first_reaction_emoji (save_total st uid d e) !! k = None ->
  user_first_reaction_emoji st !! k = None.
Proof.
  unfold save_total. destruct d as [t|]; [|auto].
  destruct (uid =? 0); [auto|].
  assert ((if truthy e then <[uid:=e]> (user_first_reaction_emoji st)
           else user_first_reaction_emoji st) !! k = None ->
          user_first_reaction_emoji st !! k = None) as H.
  { destruct (truthy e); [|auto].
    destruct (decide (k = uid)) as [->|N].
    - rewrite lookup_insert_eq. discriminate.
    - rewrite lookup_insert_ne by congruence. auto. }
  destruct (user_first_reaction_date st !! uid) as [old|]; [destruct (instant t <? instant old)|];
    simpl; auto.
Qed.

Lemma emoji_note_first_message st uid d i :
  user_first_reaction_emoji (note_total st uid d i) = user_first_reaction_emoji st.
Proof. unfold note_total. cases. Qed.

Lemma ids_save_first_reaction st uid d e :
  user_first_message_id (save_total st uid d e) = user_first_message_id st.
Proof. unfold save_total. cases. Qed.

Lemma timed_tables_note_first_message st uid d i :
  timed_tables st -> timed_tables (note_total st uid d i).
Proof.
  intros [Hm Hr]. split; intros k.
  - unfold note_total. destruct d as [t|]; [|apply Hm].
    destruct (uid =? 0); [apply Hm|].
    assert (<[uid:=t]> (user_first_message_date st) !! k = None ->
            (if truthy i then <[uid:=i]> (user_first_message_id st)
             else user_first_message_id st) !! k = None) as H.
    { destruct (decide (k = uid)) as [->|N].
      - rewrite lookup_insert_eq. discriminate.
      - rewrite lookup_insert_ne by congruence. intros H. apply Hm in H.
        destruct (truthy i); [rewrite lookup_insert_ne by congruence|]; exact H. }
    destruct (user_first_message_date st !! uid) as [old|]; [destruct (instant t <? instant old)|];
      simpl; auto.
  - rewrite reaction_dates_note_first_message, emoji_note_first_message. apply Hr.
Qed.

Lemma timed_tables_save_first_reaction st uid d e :
  timed_tables st -> timed_tables (save_total st uid d e).
Proof.
  intros [Hm Hr]. split; intros k.
  - rewrite message_dates_save_first_reaction, ids_save_first_reaction. apply Hm.
  - unfold save_total. destruct d as [t|]; [|apply Hr].
    destruct (uid =? 0); [apply Hr|].
    assert (<[uid:=t]> (user_first_reaction_date st) !! k = None ->
            (if truthy e then <[uid:=e]> (user_first_reaction_emoji st)
             else user_first_reaction_emoji st) !! k = None) as H.
    { destruct (decide (k = uid)) as [->|N].
      - rewrite lookup_insert_eq. discriminate.
      - rewrite lookup_insert_ne by congruence. intros H. apply Hr in H.
        destruct (truthy e); [rewrite lookup_insert_ne by congruence|]; exact H. }
    destruct (user_first_reaction_date st !! uid) as [old|]; [destruct (instant t <? instant old)|];
      simpl; auto.
Qed.

Lemma timed_tables_observe st o : timed_tables st -> timed_tables (observe_total st o).
Proof.
  intros H. unfold observe_total. cbv zeta.
  match goal with |- timed_tables (add_total ?s ?u) =>
    assert (timed_tables s) as [Hm Hr]
      by (apply timed_tables_save_first_reaction, timed_tables_note_first_message, H);
    destruct (maps_add_user s u) as (Ed & Ei & Erd & Ere) end.
  split; intros k; rewrite ?Ed, ?Ei, ?Erd, ?Ere; auto.
Qed.

Lemma first_message_id_recorded_none s u :
  user_first_message_id s !! user_id u = None ->
  first_message_id (recorded s u) =
  match users_get (users s) (user_id u) with
  | Some x => first_message_id x
  | None => first_message_id u
  end.
Proof.
  intros H. unfold recorded. destruct (users_get (users s) (user_id u)) as [x|].
  - rewrite first_message_id_merge_existing, first_message_id_take_first_message, H.
    destruct (user_first_message_date s !! user_id u); [|reflexivity].
    destruct (first_message_date x) as [old|]; [destruct (_ <? instant old)|]; reflexivity.
  - rewrite first_message_id_first_sighting, H. reflexivity.
Qed.

Lemma first_reaction_emoji_recorded_none s u :
  user_first_reaction_emoji s !! user_id u = None ->
  first_reaction_emoji (recorded s u) =
  match users_get (users s) (user_id u) with
  | Some x => first_reaction_emoji x
  | None => first_reaction_emoji u
  end.
Proof.
  intros H. rewrite first_reaction_emoji_recorded.
  destruct (users_get (users s) (user_id u)) as [x|]; [|rewrite H; reflexivity].
  rewrite first_reaction_emoji_take_first_reaction, H.
  destruct (user_first_reaction_date s !! user_id u); [|reflexivity].
  destruct (first_reaction_date x) as [old|]; [destruct (_ <? instant old)|]; reflexivity.
Qed.

Lemma extracted_ids o :
  extracted o = true ->
  first_message_id (seen o) = None /\ first_reaction_emoji (seen o) = None.
Proof.
  unfold extracted, unset. intros H.
  repeat (apply andb_true_iff in H; destruct H as [H ?]).
  destruct (first_message_id (seen o)); [discriminate|].
  destruct (first_reaction_emoji (seen o)); [discriminate|]. split; reflexivity.
Qed.

Lemma tabled_observe st o : extracted o = true -> tabled st -> tabled (observe_total st o).
Proof.
  intros Ho Hst k u. destruct (extracted_ids o Ho) as [Hi He].
  rewrite users_get_observe.
  assert (user_first_message_id (observe_total st o) !! k = None ->
          user_first_message_id st !! k = None) as Mi.
  { unfold observe_total. cbv zeta.
    match goal with |- context [add_total ?s ?x] =>
      destruct (maps_add_user s x) as (_ & -> & _) end.
    rewrite ids_save_first_reaction. apply ids_note_first_message. }
  assert (user_first_reaction_emoji (observe_total st o) !! k = None ->
          user_first_reaction_emoji st !! k = None) as Me.
  { unfold observe_total. cbv zeta.
    match goal with |- context [add_total ?s ?x] =>
      destruct (maps_add_user s x) as (_ & _ & _ & ->) end.
    intros H. apply emoji_save_first_reaction_none in H.
    rewrite emoji_note_first_message in H. exact H. }
  destruct (negb (is_deleted (seen o)) && (k =? user_id (seen o))) eqn:E.
  - apply andb_true_iff in E. destruct E as [_ E]. apply Z.eqb_eq in E. subst k.
    intros Hu. injection Hu as <-.
    unfold observe_total in *. cbv zeta in *.
    match goal with |- context [recorded ?s ?x] =>
      destruct (maps_add_user s x) as (_ & Ei & _ & Ee) end.
    rewrite Ei in *. rewrite Ee in *.
    split; intros H.
    + rewrite first_message_id_recorded_none by exact H.
      rewrite users_save_first_reaction, users_note_first_message.
      destruct (users_get (users st) (user_id (seen o))) as [x|] eqn:Ex; [|exact Hi].
      apply (Hst _ _ Ex). apply Mi. exact H.
    + rewrite first_reaction_emoji_recorded_none by exact H.
      rewrite users_save_first_reaction, users_note_first_message.
      destruct (users_get (users st) (user_id (seen o))) as [x|] eqn:Ex; [|exact He].
      apply (Hst _ _ Ex). apply Me. exact H.
  - intros Hu. destruct (Hst _ _ Hu) as [H1 H2]. split; auto.
Qed.

Lemma ids_come_with_dates obs :
  forallb extracted obs = true -> List.Forall timed (identities_total obs).
Proof.
  intros Hobs.
  assert (timed_tables (resolve_total obs)) as [Tm Tr].
  { apply (fold_left_invariant timed_tables).
    - intros s o. apply timed_tables_observe.
    - split; intros k _; apply lookup_empty. }
  assert (tabled (resolve_total obs)) as Hu.
  { unfold resolve_total. clear Tm Tr.
    assert (tabled init) as Hinit by (intros k u H; discriminate H).
    revert Hinit. generalize init.
    induction obs as [|o obs IH]; simpl in *; intros st Hst; [exact Hst|].
    apply andb_true_iff in Hobs. destruct Hobs as [Ho Hobs].
    apply IH; [exact Hobs|]. apply tabled_observe; assumption. }
  assert (keyed (resolve_total obs)) as Hk by (apply keyed_observations; constructor).
  assert (List.NoDup (keys (users (resolve_total obs)))) as Hn
    by (apply NoDup_keys_observations; constructor).
  unfold identities_total, roster, get_unique_users. simpl. rewrite map_map. simpl.
  apply List.Forall_map. rewrite List.Forall_forall. intros [k x] Hin. simpl.
  destruct (Hu k x (In_users_get _ _ _ Hn Hin)) as [Hi He].
  unfold timed.
  rewrite first_message_date_fill_missing, first_reaction_date_fill_missing,
    first_message_id_fill_missing, first_reaction_emoji_fill_missing.
  split.
  - destruct (first_message_date x); [discriminate|]. intros H.
    rewrite (Tm k H). apply Hi, Tm, H.
  - destruct (first_reaction_date x); [discriminate|]. intros H.
    rewrite (Tr k H). apply He, Tr, H.
Qed.

(** X25.  In every roster returned by a parser, the id of the first
    message comes with its date and the symbol of the first reaction
    comes with its date: an identity without the date has no id, and one
    without the date of a reaction has no symbol. *)
Theorem parsed_ids_come_with_dates `{RT : Runtime} :
  (forall content, List.Forall timed (returned (JSONParser_parse content))) /\
  (forall content, List.Forall timed (returned (HTMLParser_parse content))).
Proof.
  destruct parsers_resolve_observations as [Hj Hh]. split; intros content.
  - destruct (Hj content) as (obs & Hobs & ->). apply ids_come_with_dates, Hobs.
  - destruct (Hh content) as (obs & Hobs & ->). apply ids_come_with_dates, Hobs.
Qed.

Section BatchKeys.
Context `{RT : Runtime}.
Variable fs : Files.

Lemma process_file_roster agg p : process_file fs agg p = _merge_users agg (file_roster fs p).
Proof.
  unfold process_file, file_roster.
  destruct (Path.endswith p ".json"); [destruct (returned _); reflexivity|].
  destruct (Path.endswith p ".html"); [destruct (returned _); reflexivity | reflexivity].
Qed.

Lemma live_keys_file_roster p : live_keys (file_roster fs p) = map user_id (file_roster fs p).
Proof.
  unfold live_keys. f_equal. apply filter_all. intros u Hu.
  assert (List.Forall (fun u => is_deleted u = false) (file_roster fs p)) as H.
  { unfold file_roster.
    destruct (parsed_roster_sound (json_file fs p) (html_file fs p)) as [[_ Hj] [_ Hh]].
    destruct (Path.endswith p ".json"); [exact Hj|].
    destruct (Path.endswith p ".html"); [exact Hh | constructor]. }
  rewrite List.Forall_forall in H. rewrite (H u Hu). reflexivity.
Qed.

Lemma keys_process_files files agg :
  keys (fold_left (process_file fs) files agg)
  = fold_left add_key (flat_map (fun p => map user_id (file_roster fs p)) files) (keys agg).
Proof.
  revert agg. induction files as [|p files IH]; intros agg; simpl; [reflexivity|].
  rewrite IH, fold_left_app, process_file_roster, keys_merge_users, live_keys_file_roster.
  reflexivity.
Qed.

End BatchKeys.

(** X26.  The roster of a batch lists every key once, in the order of its
    first appearance in the rosters of the files, read in the order of
    the batch (the files of an archive in the place of the archive). *)
Theorem batch_keys `{RT : Runtime} (fs : Files) (file_paths : list string) :
  map user_id (batch fs file_paths)
  = first_keys (flat_map (fun p => map user_id (file_roster fs p))
                         (flat_map (listed fs) file_paths)).
Proof.
  rewrite batch_fold, gather_listed.
  assert (sound (fold_left (process_file fs) (flat_map (listed fs) file_paths) [])) as [_ Hk].
  { apply (fold_left_invariant sound).
    - intros agg p. apply sound_process_file.
    - split; constructor. }
  rewrite map_map.
  rewrite (List.map_ext_in (fun x => user_id (snd x)) fst).
  - fold (keys (fold_left (process_file fs) (flat_map (listed fs) file_paths) [])).
    rewrite keys_process_files, add_keys_spec. simpl. apply filter_all. reflexivity.
  - intros kv Hkv. rewrite List.Forall_forall in Hk. apply (Hk kv Hkv).
Qed.

(** ** Time stamps of two kinds *)


